(** * avro2jsonschema: the converter of [src/index.js], embedded and verified

    The class [Avro2JSONSchemaConverter] walks a resolved Avro type and
    builds a JSON-Schema fragment.  The fragment is a graph of JavaScript
    objects and arrays that the methods allocate and then write to
    ([schema.properties[name] = ...], [schema.required.push(...)],
    [....default = ...]), so the embedding keeps an explicit object store:
    every object literal is an allocation, every assignment an update of
    the store, and a value is either a primitive or a reference.

    The file has five parts: the embedding of the source (numbers, values,
    the store, avsc's resolved types, the class and its methods, in the
    order of the source); the vocabulary in which the properties are
    stated ([repr], [denotes], the trees of module [Fragment]); the
    lemmas on the store and on each converter; the properties of the
    documentation, each under the identifier of its claim; and further
    properties of the converters, numbered X1, X2, ... *)

From Stdlib Require Import ZArith List String Ascii Lia.
From Stdlib Require Import PrimFloat FloatOps SpecFloat.
From stdpp Require Import base list strings.

Local Open Scope string_scope.
Local Open Scope list_scope.
Set Warnings "-register-all".

(** ** JavaScript numbers

    A JavaScript number is an IEEE 754 binary64 value; [float] is exactly
    that type, with the kernel's correctly rounded operations. *)

Module JsNumber.

Definition number := float.

(** [b ** e] for a natural exponent, by repeated multiplication.  On the
    operands the source uses (powers of two far below the overflow
    threshold) no product is rounded. *)
Fixpoint pow (b : number) (e : nat) : number :=
  match e with
  | O => 1%float
  | S e' => (b * pow b e')%float
  end.

Definition sub (a b : number) : number := (a - b)%float.
Definition neg (a : number) : number := (- a)%float.

(** The integer a number denotes, when it denotes one. *)
Definition to_Z (x : number) : option Z :=
  match Prim2SF x with
  | S754_zero _ => Some 0%Z
  | S754_finite s m e =>
      let z := ((if s then -1 else 1) * Z.pos m)%Z in
      if (0 <=? e)%Z then Some (z * 2 ^ e)%Z
      else if (z mod 2 ^ (- e) =? 0)%Z then Some (z / 2 ^ (- e))%Z
      else None
  | _ => None
  end.

End JsNumber.

Import JsNumber.

(** ** Values, objects and the store *)

(** Structured data as a finite tree: what a fragment denotes once the
    store is read back, and the shape of a field's default value. *)
Inductive json : Type :=
| JNull
| JBool (b : bool)
| JNum (x : number)
| JStr (s : string)
| JArr (items : list json)
| JObj (props : list (string * json)).

Definition loc := nat.

Inductive val : Type :=
| VUndefined
| VNull
| VBool (b : bool)
| VNum (x : number)
| VStr (s : string)
| VRef (l : loc).

(** An ordinary object keeps its own string-keyed properties in insertion
    order; an array keeps its elements. *)
Inductive object : Type :=
| Obj (props : list (string * val))
| Arr (items : list val).

Abbreviation heap := (list object).

(** The error classes.  The source has no [throw] statement: the only
    errors it raises itself are the engine's [TypeError]s.  The other
    names are those of the documentation; a caller-supplied converter may
    raise anything. *)
Inductive error : Type :=
| TypeError
| UnknownLogicalTypeError
| UnsupportedTypeError
| OtherError (name : string).

(** A call returns, throws, or leaves the part of JavaScript that this
    development describes (a property inherited from [Object.prototype],
    the [__proto__] setter, array-index keys that are enumerated out of
    insertion order, host objects stored in a fragment). *)
Inductive outcome (A : Type) : Type :=
| Ok (a : A)
| Throw (e : error)
| OutOfModel.

Arguments Ok {A} a.
Arguments Throw {A} e.
Arguments OutOfModel {A}.

(** ** Own properties *)

Section OwnProperties.
Context {V : Type}.

(** [o[k]] restricted to own properties. *)
Fixpoint get_own (props : list (string * V)) (k : string) : option V :=
  match props with
  | [] => None
  | (k', v) :: rest => if String.eqb k' k then Some v else get_own rest k
  end.

(** [o[k] = v]: an existing key keeps its place, a new key goes last. *)
Fixpoint set_own (props : list (string * V)) (k : string) (v : V)
  : list (string * V) :=
  match props with
  | [] => [(k, v)]
  | (k', v') :: rest =>
      if String.eqb k' k then (k', v) :: rest
      else (k', v') :: set_own rest k v
  end.

(** [Object.assign(target, source)] on own properties. *)
Definition assign (target source : list (string * V)) : list (string * V) :=
  fold_left (fun t kv => set_own t (fst kv) (snd kv)) source target.

End OwnProperties.

(** The properties every ordinary object inherits from [Object.prototype]. *)
Definition Object_prototype_names : list string :=
  [ "constructor"; "__defineGetter__"; "__defineSetter__"; "hasOwnProperty";
    "__lookupGetter__"; "__lookupSetter__"; "isPrototypeOf";
    "propertyIsEnumerable"; "toString"; "valueOf"; "__proto__";
    "toLocaleString" ].

Definition inherited (k : string) : bool :=
  existsb (String.eqb k) Object_prototype_names.

Arguments inherited : simpl never.

Definition is_digit (c : ascii) : bool :=
  let n := nat_of_ascii c in (48 <=? n)%nat && (n <=? 57)%nat.

Fixpoint all_digits (s : string) : bool :=
  match s with
  | EmptyString => true
  | String c s' => is_digit c && all_digits s'
  end.

(** Keys for which assignment creates or updates an own property that is
    enumerated in insertion order: not [__proto__] (an accessor on the
    prototype) and not a string of digits (array indices come first). *)
Definition ordinary_key (k : string) : bool :=
  negb (String.eqb k "__proto__") && negb (all_digits k).

Arguments ordinary_key : simpl never.

(** ** The store monad *)

Definition H (A : Type) : Type := heap -> outcome A * heap.

Module HeapOps.

Definition ret {A} (a : A) : H A := fun h => (Ok a, h).

Definition bind {A B} (m : H A) (k : A -> H B) : H B :=
  fun h =>
    match m h with
    | (Ok a, h') => k a h'
    | (Throw e, h') => (Throw e, h')
    | (OutOfModel, h') => (OutOfModel, h')
    end.

Definition throw {A} (e : error) : H A := fun h => (Throw e, h).
Definition out_of_model {A} : H A := fun h => (OutOfModel, h).

(** An object or array literal. *)
Definition alloc (o : object) : H val :=
  fun h => (Ok (VRef (List.length h)), h ++ [o]).

(** [v[k]] *)
Definition get_prop (v : val) (k : string) : H val :=
  fun h =>
    match v with
    | VUndefined | VNull => (Throw TypeError, h)
    | VRef l =>
        match h !! l with
        | Some (Obj props) =>
            match get_own props k with
            | Some x => (Ok x, h)
            | None => if inherited k then (OutOfModel, h) else (Ok VUndefined, h)
            end
        | _ => (OutOfModel, h)
        end
    | _ => (OutOfModel, h)
    end.

(** [v[k] = x] in strict-mode code (a class body is strict): writing a
    property of a primitive throws. *)
Definition set_prop (v : val) (k : string) (x : val) : H unit :=
  fun h =>
    match v with
    | VRef l =>
        match h !! l with
        | Some (Obj props) =>
            if ordinary_key k
            then (Ok tt, <[l := Obj (set_own props k x)]> h)
            else (OutOfModel, h)
        | _ => (OutOfModel, h)
        end
    | _ => (Throw TypeError, h)
    end.

(** [v.push(x)] *)
Definition push (v : val) (x : val) : H unit :=
  fun h =>
    match v with
    | VUndefined | VNull => (Throw TypeError, h)
    | VRef l =>
        match h !! l with
        | Some (Arr items) => (Ok tt, <[l := Arr (items ++ [x])]> h)
        | _ => (OutOfModel, h)
        end
    | _ => (OutOfModel, h)
    end.

(** [xs.map(f)] *)
Definition map {A B} (f : A -> H B) : list A -> H (list B) :=
  fix go (xs : list A) : H (list B) :=
    match xs with
    | [] => ret []
    | x :: xs' => bind (f x) (fun y => bind (go xs') (fun ys => ret (y :: ys)))
    end.

End HeapOps.

(** ** Strings *)

(** [s.split(sep)] for a one-character separator. *)
Fixpoint split (sep : ascii) (s : string) : list string :=
  match s with
  | EmptyString => [EmptyString]
  | String c s' =>
      if Ascii.eqb c sep then EmptyString :: split sep s'
      else match split sep s' with
           | x :: xs => String c x :: xs
           | [] => [String c EmptyString]
           end
  end.

(** [s.replace(pat, rep)] for a string pattern: the first occurrence only. *)
Fixpoint replace (pat rep s : string) : string :=
  if String.prefix pat s
  then String.append rep
         (String.substring (String.length pat)
            (String.length s - String.length pat) s)
  else match s with
       | EmptyString => EmptyString
       | String c s' => String c (replace pat rep s')
       end.

(** ** The resolved Avro type (avsc's [Type] objects)

    One constructor per class named in the typedefs at the head of the
    source.  A record field carries its name, its type and the default the
    schema declared for it, if any. *)

Record field_of (T : Type) : Type := Field {
  field_name : string;
  field_type : T;
  field_default : option json
}.

Arguments Field {T} _ _ _.
Arguments field_name {T} _.
Arguments field_type {T} _.
Arguments field_default {T} _.

Inductive node : Type :=
| NullType
| BooleanType
| IntType
| LongType
| FloatType
| DoubleType
| StringType
| BytesType
| FixedType (size : number)
| EnumType (symbols : list string)
| ArrayType (itemsType : node)
| MapType (valuesType : node)
| RecordType (fields : list (field_of node))
| UnwrappedUnionType (types : list node)
| WrappedUnionType (types : list node)
| LogicalType (typeName : string) (underlyingType : node).

Abbreviation field := (field_of node).

(** [type.constructor.name] *)
Definition constructor_name (type : node) : string :=
  match type with
  | NullType => "NullType"
  | BooleanType => "BooleanType"
  | IntType => "IntType"
  | LongType => "LongType"
  | FloatType => "FloatType"
  | DoubleType => "DoubleType"
  | StringType => "StringType"
  | BytesType => "BytesType"
  | FixedType _ => "FixedType"
  | EnumType _ => "EnumType"
  | ArrayType _ => "ArrayType"
  | MapType _ => "MapType"
  | RecordType _ => "RecordType"
  | UnwrappedUnionType _ => "UnwrappedUnionType"
  | WrappedUnionType _ => "WrappedUnionType"
  | LogicalType _ _ => "LogicalType"
  end.

(** [type instanceof avro.types.LogicalType] *)
Definition instanceof_LogicalType (type : node) : bool :=
  match type with
  | LogicalType _ _ => true
  | _ => false
  end.

(** [type.typeName] of a logical type. *)
Definition typeName_of (type : node) : string :=
  match type with
  | LogicalType typeName _ => typeName
  | _ => EmptyString
  end.

(** ** The converter instance and the method monad *)

(** A function stored in a registry.  [resolveConverter] binds [this] to
    it before it is called (line 109).  The body of a closed function
    mentions neither [this] nor the instance: it is a function of the
    node and the store, as the bodies of the built-in converters are.  A
    function of the calling program may read the instance, call its
    methods and assign to it; such a function is known by its identity,
    and what a call of it does is given with the calling program (class
    [Caller] below). *)
Inductive converter : Type :=
| Closed (body : node -> H val)
| Callback (id : nat).

Record instance : Type := Instance {
  logicalTypeConvertors : list (string * converter);
  logicalTypeFakeClasses : list string
}.

Record state : Type := State {
  this : instance;
  store : heap
}.

Definition M (A : Type) : Type := state -> outcome A * state.

Module MethodOps.

Definition ret {A} (a : A) : M A := fun s => (Ok a, s).

Definition bind {A B} (m : M A) (k : A -> M B) : M B :=
  fun s =>
    match m s with
    | (Ok a, s') => k a s'
    | (Throw e, s') => (Throw e, s')
    | (OutOfModel, s') => (OutOfModel, s')
    end.

Definition throw {A} (e : error) : M A := fun s => (Throw e, s).
Definition out_of_model {A} : M A := fun s => (OutOfModel, s).

(** A store operation run from a method. *)
Definition lift {A} (c : H A) : M A :=
  fun s =>
    let (r, h') := c (store s) in
    (r, {| this := this s; store := h' |}).

Definition get_this : M instance := fun s => (Ok (this s), s).

Definition set_this (i : instance) : M unit :=
  fun s => (Ok tt, {| this := i; store := store s |}).

(** [xs.forEach(f)] *)
Definition forEach {A} (f : A -> M unit) : list A -> M unit :=
  fix go (xs : list A) : M unit :=
    match xs with
    | [] => ret tt
    | x :: xs' => bind (f x) (fun _ => go xs')
    end.

(** [xs.map(f)] *)
Definition map {A B} (f : A -> M B) : list A -> M (list B) :=
  fix go (xs : list A) : M (list B) :=
    match xs with
    | [] => ret []
    | x :: xs' => bind (f x) (fun y => bind (go xs') (fun ys => ret (y :: ys)))
    end.

End MethodOps.

Declare Scope store_scope.
Delimit Scope store_scope with H.
Bind Scope store_scope with H.
Notation "x <- m ;; k" := (HeapOps.bind m (fun x => k))
  (at level 100, m at next level, right associativity) : store_scope.
Notation "m ;; k" := (HeapOps.bind m (fun _ => k))
  (at level 100, right associativity) : store_scope.

Declare Scope method_scope.
Delimit Scope method_scope with M.
Bind Scope method_scope with M.
Notation "x <- m ;; k" := (MethodOps.bind m (fun x => k))
  (at level 100, m at next level, right associativity) : method_scope.
Notation "m ;; k" := (MethodOps.bind m (fun _ => k))
  (at level 100, right associativity) : method_scope.

(** The calling program: what a call of its function [id] on a node does
    when [this] is bound to the converter instance, as a computation on
    the instance and the store. *)
Class Caller : Type := callback : nat -> node -> M val.

(** ** The class [Avro2JSONSchemaConverter] *)

Module Converter.

Import MethodOps.
Local Open Scope method_scope.

Definition alloc (o : object) : M val := lift (HeapOps.alloc o).
Definition get_prop (v : val) (k : string) : M val := lift (HeapOps.get_prop v k).
Definition set_prop (v : val) (k : string) (x : val) : M unit :=
  lift (HeapOps.set_prop v k x).
Definition push (v x : val) : M unit := lift (HeapOps.push v x).

(** *** Built-in logical types (lines 32-58) *)

Definition decimal : converter :=
  Closed (fun type => HeapOps.alloc (Obj [("type", VStr "number")])).

Definition timestampMillis : converter :=
  Closed (fun type =>
    HeapOps.alloc (Obj [("type", VStr "integer");
                        ("minimum", VNum 1%float);
                        ("maximum", VNum (sub (pow 2%float 63) 1%float))])).

Definition date : converter :=
  Closed (fun type =>
    HeapOps.alloc (Obj [("type", VStr "integer");
                        ("minimum", VNum 1%float);
                        ("maximum", VNum (sub (pow 2%float 63) 1%float))])).

Definition defaultLogicalTypes : list (string * converter) :=
  [("decimal", decimal); ("date", date); ("timestamp-millis", timestampMillis)].

(** *** Construction (lines 70-72 and 91-100) *)

Record ConverterOptions : Type := Options {
  logicalTypes : option (list (string * converter))
}.

(** [setupLogicalTypes(logicalTypes = {})].  A source key [__proto__]
    would make [Object.assign] call the prototype setter. *)
Definition setupLogicalTypes (logicalTypes : option (list (string * converter)))
  : M unit :=
  let logicalTypes := match logicalTypes with Some o => o | None => [] end in
  if existsb (String.eqb "__proto__") (List.map fst logicalTypes)
  then out_of_model
  else
    let convertors := assign (assign [] defaultLogicalTypes) logicalTypes in
    self <- get_this ;;
    set_this {| logicalTypeConvertors := convertors;
                logicalTypeFakeClasses := logicalTypeFakeClasses self |} ;;
    self <- get_this ;;
    set_this {| logicalTypeConvertors := logicalTypeConvertors self;
                logicalTypeFakeClasses :=
                  List.map fst (logicalTypeConvertors self) |}.

(** [constructor(options = {})] *)
Definition constructor (options : option ConverterOptions) : M unit :=
  let options := match options with Some o => o | None => Options None end in
  setupLogicalTypes (logicalTypes options).

(** [new Avro2JSONSchemaConverter(options)], in store [h]. *)
Definition new (options : option ConverterOptions) (h : heap)
  : outcome unit * state :=
  constructor options
    {| this := {| logicalTypeConvertors := []; logicalTypeFakeClasses := [] |};
       store := h |}.

(** *** Dispatch (lines 107-115) *)

(** The members of the class whose name starts with [convert]; the
    looked-up name always does. *)
Inductive method : Type :=
| m_convert | m_convertRecord | m_convertEnum | m_convertArray
| m_convertUnwrappedUnion | m_convertWrappedUnion | m_convertFixed
| m_convertBytes | m_convertFloat | m_convertDouble | m_convertBoolean
| m_convertString | m_convertNull | m_convertLong | m_convertInt
| m_convertUnion | m_convertBuffer.

Definition methods : list (string * method) :=
  [ ("convert", m_convert); ("convertRecord", m_convertRecord);
    ("convertEnum", m_convertEnum); ("convertArray", m_convertArray);
    ("convertUnwrappedUnion", m_convertUnwrappedUnion);
    ("convertWrappedUnion", m_convertWrappedUnion);
    ("convertFixed", m_convertFixed); ("convertBytes", m_convertBytes);
    ("convertFloat", m_convertFloat); ("convertDouble", m_convertDouble);
    ("convertBoolean", m_convertBoolean); ("convertString", m_convertString);
    ("convertNull", m_convertNull); ("convertLong", m_convertLong);
    ("convertInt", m_convertInt); ("convertUnion", m_convertUnion);
    ("convertBuffer", m_convertBuffer) ].

(** What [resolveConverter] returns: a function bound to [this]. *)
Inductive bound_function : Type :=
| BoundEntry (c : converter)
| BoundMethod (m : method).

(** [type.typeName.split(':')[1]] used as a property key: a missing
    second segment is [undefined], whose key is the string "undefined". *)
Definition logical_key (typeName : string) : string :=
  match split ":"%char typeName !! 1%nat with
  | Some k => k
  | None => "undefined"
  end.

(** [`convert${typeName.replace('Type', '')}`] *)
Definition fnName (typeName : string) : string :=
  String.append "convert" (replace "Type" "" typeName).

Definition resolveConverter (type : node) : M bound_function :=
  if instanceof_LogicalType type then
    self <- get_this ;;
    let k := logical_key (typeName_of type) in
    match get_own (logicalTypeConvertors self) k with
    | Some c => ret (BoundEntry c)
    | None => if inherited k then out_of_model else throw TypeError
    end
  else
    let typeName := constructor_name type in
    match get_own methods (fnName typeName) with
    | Some m => ret (BoundMethod m)
    | None => throw TypeError
    end.

(** *** Kind converters (lines 121-222) *)

Definition pattern : string :=
  String "^" (String "["
    (String (Ascii false false false false false false false false)
      (String "-"
        (String (Ascii true true true true true true true true) "]*$")))).

(** [convertBuffer(min, max)]: [Object.assign] copies [maxLength] first. *)
Definition convertBuffer (min max : val) : M val :=
  alloc (Obj (assign
                (assign [("type", VStr "string"); ("pattern", VStr pattern)]
                   (match max with VUndefined => [] | _ => [("maxLength", max)] end))
                (match min with VUndefined => [] | _ => [("minLength", min)] end))).

Definition convertFixed (size : val) : M val := convertBuffer size size.
Definition convertBytes : M val := convertBuffer VUndefined VUndefined.
Definition convertFloat : M val := alloc (Obj [("type", VStr "number")]).
Definition convertDouble : M val := convertFloat.
Definition convertBoolean : M val := alloc (Obj [("type", VStr "boolean")]).
Definition convertString : M val := alloc (Obj [("type", VStr "string")]).
Definition convertNull : M val := alloc (Obj [("type", VStr "null")]).

Definition convertLong : M val :=
  alloc (Obj [("type", VStr "integer");
              ("minimum", VNum (neg (pow 2%float 63)));
              ("maximum", VNum (sub (pow 2%float 63) 1%float))]).

Definition convertInt : M val :=
  alloc (Obj [("type", VStr "integer");
              ("minimum", VNum (neg (pow 2%float 31)));
              ("maximum", VNum (sub (pow 2%float 31) 1%float))]).

Definition convertEnum (symbols : list string) : M val :=
  copy <- alloc (Arr (List.map VStr symbols)) ;;
  alloc (Obj [("type", VStr "string"); ("enum", copy)]).

(** The methods that convert children take the bound call
    [f(type)] as [call]. *)
Section Recursive.
Variable call : bound_function -> node -> M val.

Definition convertArray (itemsType : node) : M val :=
  convert <- resolveConverter itemsType ;;
  items <- call convert itemsType ;;
  alloc (Obj [("type", VStr "array"); ("items", items)]).

Definition convertUnion (types : list node) : M val :=
  members <- MethodOps.map
               (fun type => f <- resolveConverter type ;; call f type) types ;;
  oneOf <- alloc (Arr members) ;;
  alloc (Obj [("oneOf", oneOf)]).

Definition convertUnwrappedUnion (types : list node) : M val :=
  convertUnion types.
Definition convertWrappedUnion (types : list node) : M val :=
  convertUnion types.

End Recursive.

(** *** Field defaults

    [field.defaultValue()] belongs to avsc: it returns [undefined] when
    the schema declares no default and otherwise hands out the declared
    value, a fresh copy when it is structured. *)

Fixpoint alloc_json (j : json) : H val :=
  match j with
  | JNull => HeapOps.ret VNull
  | JBool b => HeapOps.ret (VBool b)
  | JNum x => HeapOps.ret (VNum x)
  | JStr s => HeapOps.ret (VStr s)
  | JArr items =>
      (vs <- HeapOps.map alloc_json items ;; HeapOps.alloc (Arr vs))%H
  | JObj props =>
      (vs <- HeapOps.map
               (fun kv => v <- alloc_json (snd kv) ;; HeapOps.ret (fst kv, v))
               props ;;
       HeapOps.alloc (Obj vs))%H
  end.

Definition defaultValue (f : field) : M val :=
  match field_default f with
  | None => ret VUndefined
  | Some j => lift (alloc_json j)
  end.

Section RecursiveRecord.
Variable call : bound_function -> node -> M val.

(** The arrow function handed to [forEach] (lines 127-135), closed
    over [schema]. *)
Definition convertRecord_field (schema : val) (field : field) : M unit :=
  convert <- resolveConverter (field_type field) ;;
  ps <- get_prop schema "properties" ;;
  fragment <- call convert (field_type field) ;;
  set_prop ps (field_name field) fragment ;;
  d <- defaultValue field ;;
  match d with
  | VUndefined =>
      rq <- get_prop schema "required" ;;
      push rq (VStr (field_name field))
  | _ =>
      ps <- get_prop schema "properties" ;;
      target <- get_prop ps (field_name field) ;;
      d <- defaultValue field ;;
      set_prop target "default" d
  end.

(** [convertRecord(type)], given [type.fields] ([None] when the
    argument has no such property). *)
Definition convertRecord (fields : option (list field)) : M val :=
  properties <- alloc (Obj []) ;;
  required <- alloc (Arr []) ;;
  schema <- alloc (Obj [("type", VStr "object");
                        ("properties", properties);
                        ("required", required)]) ;;
  match fields with
  | None => throw TypeError
  | Some fields =>
      forEach (convertRecord_field schema) fields ;;
      ret schema
  end.

End RecursiveRecord.

Section Calls.
Context {caller : Caller}.

(** [c.bind(this)(type)] for a registry entry [c]: the body of a closed
    function runs on the store; a function of the calling program runs
    with the instance as its [this]. *)
Definition bound_call (c : converter) (type : node) : M val :=
  match c with
  | Closed body => lift (body type)
  | Callback id => callback id type
  end.

(** [f(type)] for the function [f] that [resolveConverter] returned.  A
    method reads the properties of its argument that it needs; on a
    node of another class they are [undefined]. *)
Fixpoint call (f : bound_function) (type : node) {struct type} : M val :=
  match f with
  | BoundEntry c => bound_call c type
  | BoundMethod m =>
      match m with
      | m_convertRecord =>
          match type with
          | RecordType fields => convertRecord call (Some fields)
          | _ => convertRecord call None
          end
      | m_convertEnum =>
          match type with
          | EnumType symbols => convertEnum symbols
          | _ => throw TypeError
          end
      | m_convertArray =>
          match type with
          | ArrayType itemsType => convertArray call itemsType
          | _ => throw TypeError
          end
      | m_convertUnwrappedUnion =>
          match type with
          | UnwrappedUnionType types | WrappedUnionType types =>
              convertUnwrappedUnion call types
          | _ => throw TypeError
          end
      | m_convertWrappedUnion =>
          match type with
          | UnwrappedUnionType types | WrappedUnionType types =>
              convertWrappedUnion call types
          | _ => throw TypeError
          end
      | m_convertUnion =>
          match type with
          | UnwrappedUnionType types | WrappedUnionType types =>
              convertUnion call types
          | _ => throw TypeError
          end
      | m_convertFixed =>
          match type with
          | FixedType size => convertFixed (VNum size)
          | _ => convertFixed VUndefined
          end
      | m_convertBytes => convertBytes
      | m_convertFloat => convertFloat
      | m_convertDouble => convertDouble
      | m_convertBoolean => convertBoolean
      | m_convertString => convertString
      | m_convertNull => convertNull
      | m_convertLong => convertLong
      | m_convertInt => convertInt
      | m_convertBuffer => out_of_model
      | m_convert => out_of_model
      end
  end.

(** [this.resolveConverter(type)(type)] *)
Definition convertType (type : node) : M val :=
  f <- resolveConverter type ;; call f type.

(** *** [convert(schema)] (lines 78-85)

    [avro.Type.forSchema] is avsc's: it is given the schema and the
    names for which a marker class was registered, and returns the
    resolved type or throws. *)
Section Convert.
Variable Schema : Type.
Variable forSchema : Schema -> list string -> outcome node.

Definition convert (schema : Schema) : M val :=
  self <- get_this ;;
  match forSchema schema (logicalTypeFakeClasses self) with
  | Ok type => f <- resolveConverter type ;; call f type
  | Throw e => throw e
  | OutOfModel => out_of_model
  end.

End Convert.

End Calls.

End Converter.

(** ** Reading a fragment back from the store *)

Fixpoint sequence {A} (xs : list (option A)) : option (list A) :=
  match xs with
  | [] => Some []
  | Some x :: xs' => option_map (cons x) (sequence xs')
  | None :: _ => None
  end.

(** The tree below [v], read to depth [fuel]. *)
Fixpoint reify (fuel : nat) (h : heap) (v : val) : option json :=
  match v with
  | VUndefined => None
  | VNull => Some JNull
  | VBool b => Some (JBool b)
  | VNum x => Some (JNum x)
  | VStr s => Some (JStr s)
  | VRef l =>
      match fuel with
      | O => None
      | S fuel' =>
          match h !! l with
          | Some (Obj props) =>
              option_map JObj
                (sequence
                   (List.map
                      (fun kv => option_map (pair (fst kv)) (reify fuel' h (snd kv)))
                      props))
          | Some (Arr items) =>
              option_map JArr (sequence (List.map (reify fuel' h) items))
          | None => None
          end
      end
  end.

(** The outcome of a method call started on instance [self] and store
    [h], with the fragment read back. *)
Definition observe (fuel : nat) (r : outcome val * state) : outcome (option json) :=
  match fst r with
  | Ok v => Ok (reify fuel (store (snd r)) v)
  | Throw e => Throw e
  | OutOfModel => OutOfModel
  end.

(** ** Fragments as trees

    [repr h F v j]: in store [h] the value [v] reads as the tree [j], and
    every object or array read on the way lies in the footprint [F].  A
    node is never read again below itself, so the graph has no cycle
    through its root. *)

Inductive repr (h : heap) : (loc -> Prop) -> val -> json -> Prop :=
| repr_null F : repr h F VNull JNull
| repr_bool F b : repr h F (VBool b) (JBool b)
| repr_num F x : repr h F (VNum x) (JNum x)
| repr_str F s : repr h F (VStr s) (JStr s)
| repr_arr F l items js :
    F l ->
    h !! l = Some (Arr items) ->
    Forall2 (repr h (fun x => F x /\ x <> l)) items js ->
    repr h F (VRef l) (JArr js)
| repr_obj F l props jps :
    F l ->
    h !! l = Some (Obj props) ->
    Forall2 (fun kv kj =>
               fst kv = fst kj /\
               repr h (fun x => F x /\ x <> l) (snd kv) (snd kj)) props jps ->
    repr h F (VRef l) (JObj jps).

Section ReprInduction.
Variable h : heap.
Variable P : (loc -> Prop) -> val -> json -> Prop.
Hypothesis Pnull : forall F, P F VNull JNull.
Hypothesis Pbool : forall F b, P F (VBool b) (JBool b).
Hypothesis Pnum : forall F x, P F (VNum x) (JNum x).
Hypothesis Pstr : forall F s, P F (VStr s) (JStr s).
Hypothesis Parr : forall F l items js,
    F l -> h !! l = Some (Arr items) ->
    Forall2 (P (fun x => F x /\ x <> l)) items js ->
    P F (VRef l) (JArr js).
Hypothesis Pobj : forall F l props jps,
    F l -> h !! l = Some (Obj props) ->
    Forall2 (fun kv kj =>
               fst kv = fst kj /\
               P (fun x => F x /\ x <> l) (snd kv) (snd kj)) props jps ->
    P F (VRef l) (JObj jps).

Fixpoint repr_induction F v j (r : repr h F v j) {struct r} : P F v j :=
  match r in repr _ F v j return P F v j with
  | repr_null _ F => Pnull F
  | repr_bool _ F b => Pbool F b
  | repr_num _ F x => Pnum F x
  | repr_str _ F s => Pstr F s
  | repr_arr _ F l items js Hl Hh Hc =>
      Parr F l items js Hl Hh
        ((fix go items js (Hc : Forall2 (repr h (fun x => F x /\ x <> l)) items js)
            : Forall2 (P (fun x => F x /\ x <> l)) items js :=
            match Hc with
            | List.Forall2_nil _ => List.Forall2_nil _
            | List.Forall2_cons _ _ Hx Hr =>
                List.Forall2_cons _ _ (repr_induction _ _ _ Hx) (go _ _ Hr)
            end) items js Hc)
  | repr_obj _ F l props jps Hl Hh Hc =>
      Pobj F l props jps Hl Hh
        ((fix go props jps
            (Hc : Forall2 (fun kv kj =>
                             fst kv = fst kj /\
                             repr h (fun x => F x /\ x <> l) (snd kv) (snd kj))
                    props jps)
            : Forall2 (fun kv kj =>
                         fst kv = fst kj /\
                         P (fun x => F x /\ x <> l) (snd kv) (snd kj))
                props jps :=
            match Hc with
            | List.Forall2_nil _ => List.Forall2_nil _
            | List.Forall2_cons _ _ (conj Hk Hx) Hr =>
                List.Forall2_cons _ _ (conj Hk (repr_induction _ _ _ Hx)) (go _ _ Hr)
            end) props jps Hc)
  end.
End ReprInduction.

(** ** Induction on trees *)

Section JsonInduction.
Variable P : json -> Prop.
Hypothesis Pnull : P JNull.
Hypothesis Pbool : forall b, P (JBool b).
Hypothesis Pnum : forall x, P (JNum x).
Hypothesis Pstr : forall s, P (JStr s).
Hypothesis Parr : forall items, Forall P items -> P (JArr items).
Hypothesis Pobj : forall props, Forall (fun kj => P (snd kj)) props -> P (JObj props).

Fixpoint json_induction (j : json) : P j :=
  match j with
  | JNull => Pnull
  | JBool b => Pbool b
  | JNum x => Pnum x
  | JStr s => Pstr s
  | JArr items =>
      Parr items
        ((fix go (l : list json) : Forall P l :=
            match l with
            | [] => @List.Forall_nil _ _
            | x :: l' => @List.Forall_cons _ _ _ _ (json_induction x) (go l')
            end) items)
  | JObj props =>
      Pobj props
        ((fix go (l : list (string * json)) : Forall (fun kj => P (snd kj)) l :=
            match l with
            | [] => @List.Forall_nil _ _
            | kj :: l' => @List.Forall_cons _ _ _ _ (json_induction (snd kj)) (go l')
            end) props)
  end.
End JsonInduction.

(** The number of nested objects and arrays of a tree. *)
Fixpoint depth (j : json) : nat :=
  match j with
  | JArr items => S (fold_right (fun x d => Nat.max (depth x) d) 0%nat items)
  | JObj props =>
      S (fold_right (fun kj d => Nat.max (depth (snd kj)) d) 0%nat props)
  | _ => 0%nat
  end.

(** ** Induction on resolved types *)

Section NodeInduction.
Variable P : node -> Prop.
Hypothesis Pnull : P NullType.
Hypothesis Pboolean : P BooleanType.
Hypothesis Pint : P IntType.
Hypothesis Plong : P LongType.
Hypothesis Pfloat : P FloatType.
Hypothesis Pdouble : P DoubleType.
Hypothesis Pstring : P StringType.
Hypothesis Pbytes : P BytesType.
Hypothesis Pfixed : forall size, P (FixedType size).
Hypothesis Penum : forall symbols, P (EnumType symbols).
Hypothesis Parray : forall itemsType, P itemsType -> P (ArrayType itemsType).
Hypothesis Pmap : forall valuesType, P valuesType -> P (MapType valuesType).
Hypothesis Precord : forall fields,
    Forall (fun f => P (field_type f)) fields -> P (RecordType fields).
Hypothesis Punwrapped : forall types,
    Forall P types -> P (UnwrappedUnionType types).
Hypothesis Pwrapped : forall types,
    Forall P types -> P (WrappedUnionType types).
Hypothesis Plogical : forall typeName underlying,
    P underlying -> P (LogicalType typeName underlying).

Fixpoint node_induction (type : node) : P type :=
  let all :=
    fix all (types : list node) : Forall P types :=
      match types with
      | [] => @List.Forall_nil _ _
      | t :: types' => @List.Forall_cons _ _ _ _ (node_induction t) (all types')
      end in
  match type with
  | NullType => Pnull
  | BooleanType => Pboolean
  | IntType => Pint
  | LongType => Plong
  | FloatType => Pfloat
  | DoubleType => Pdouble
  | StringType => Pstring
  | BytesType => Pbytes
  | FixedType size => Pfixed size
  | EnumType symbols => Penum symbols
  | ArrayType itemsType => Parray itemsType (node_induction itemsType)
  | MapType valuesType => Pmap valuesType (node_induction valuesType)
  | RecordType fields =>
      Precord fields
        ((fix go (fs : list field) : Forall (fun f => P (field_type f)) fs :=
            match fs with
            | [] => @List.Forall_nil _ _
            | f :: fs' =>
                @List.Forall_cons _ _ _ _ (node_induction (field_type f)) (go fs')
            end) fields)
  | UnwrappedUnionType types => Punwrapped types (all types)
  | WrappedUnionType types => Pwrapped types (all types)
  | LogicalType typeName underlying =>
      Plogical typeName underlying (node_induction underlying)
  end.
End NodeInduction.

(** ** What a computation denotes

    A computation that starts in store [h] and ends in [h'] only adds to
    the store when [h] is a prefix of [h']; the locations it added are
    [fresh h h'].  It agrees with a tree when its result reads as that
    tree within the added locations, and with a failure when it fails the
    same way. *)

Definition fresh (h h' : heap) (l : loc) : Prop :=
  (List.length h <= l < List.length h')%nat.

Definition agrees (h h' : heap) (r : outcome val) (d : outcome json) : Prop :=
  match r, d with
  | Ok v, Ok j => repr h' (fresh h h') v j
  | Throw e, Throw e' => e = e'
  | OutOfModel, OutOfModel => True
  | _, _ => False
  end.

(** A store computation (a registry entry applied to a node) builds [d]:
    from every store it only allocates, and yields [d]. *)
Definition builds (c : H val) (d : outcome json) : Prop :=
  forall h, exists r h',
    c h = (r, h') /\ h `prefix_of` h' /\ agrees h h' r d.

(** A method call on instance [self] denotes [d]: from every store it
    leaves [self] and the existing objects as they were, and yields [d]. *)
Definition denotes (self : instance) (m : M val) (d : outcome json) : Prop :=
  forall h, exists r h',
    m {| this := self; store := h |} = (r, {| this := self; store := h' |}) /\
    h `prefix_of` h' /\ agrees h h' r d.

(** ** Dispatch as a function of the instance and the node *)

(** The function that [resolveConverter] returns on instance [self]. *)
Definition resolved (self : instance) (type : node)
  : outcome Converter.bound_function :=
  fst (Converter.resolveConverter type {| this := self; store := [] |}).

(** ** Converters that build one flat object *)

Definition flat (props : list (string * val)) (jps : list (string * json)) : Prop :=
  Forall2 (fun kv kj => fst kv = fst kj /\
                        forall h F, repr h F (snd kv) (snd kj)) props jps.

(** ** The tree that each converter yields, from those of its children *)

Module Fragment.

Definition then_ {A B} (d : outcome A) (k : A -> outcome B) : outcome B :=
  match d with
  | Ok a => k a
  | Throw e => Throw e
  | OutOfModel => OutOfModel
  end.

(** The children in order, up to the first that fails. *)
Fixpoint all_ok (ds : list (outcome json)) : outcome (list json) :=
  match ds with
  | [] => Ok []
  | d :: ds' => then_ d (fun j => then_ (all_ok ds') (fun js => Ok (j :: js)))
  end.

Definition array (items : outcome json) : outcome json :=
  then_ items (fun j => Ok (JObj [("type", JStr "array"); ("items", j)])).

Definition union (members : list (outcome json)) : outcome json :=
  then_ (all_ok members) (fun js => Ok (JObj [("oneOf", JArr js)])).

(** [fragment.default = d] *)
Definition attach_default (fragment d : json) : outcome json :=
  match fragment with
  | JObj props => Ok (JObj (set_own props "default" d))
  | JArr _ => OutOfModel
  | _ => Throw TypeError
  end.

(** One field: its fragment goes under its name; with a default the
    fragment receives it, without one the name goes to [required]. *)
Definition field_step (acc : list (string * json) * list string)
    (f : field) (d : outcome json)
  : outcome (list (string * json) * list string) :=
  then_ d (fun j =>
    if ordinary_key (field_name f) then
      match field_default f with
      | None => Ok (set_own (fst acc) (field_name f) j,
                    snd acc ++ [field_name f])
      | Some dflt =>
          then_ (attach_default j dflt) (fun j' =>
            Ok (set_own (fst acc) (field_name f) j', snd acc))
      end
    else OutOfModel).

Fixpoint record_fold (fields : list field) (ds : list (outcome json))
    (acc : list (string * json) * list string)
  : outcome (list (string * json) * list string) :=
  match fields, ds with
  | f :: fields', d :: ds' =>
      then_ (field_step acc f d) (record_fold fields' ds')
  | _, _ => Ok acc
  end.

Definition record_of (acc : list (string * json) * list string) : json :=
  JObj [("type", JStr "object");
        ("properties", JObj (fst acc));
        ("required", JArr (List.map JStr (snd acc)))].

Definition record (fields : list field) (ds : list (outcome json))
  : outcome json :=
  then_ (record_fold fields ds ([], [])) (fun acc => Ok (record_of acc)).

End Fragment.

(** ** The state of the record loop *)

Section RecordState.

(** The store in which [convertRecord] was called. *)
Variable h0 : heap.

Definition properties_loc : loc := List.length h0.
Definition required_loc : loc := S (List.length h0).
Definition schema_loc : loc := S (S (List.length h0)).

Definition schema_object : object :=
  Obj [("type", VStr "object");
       ("properties", VRef properties_loc);
       ("required", VRef required_loc)].

(** The locations allocated after the three objects of the record. *)
Definition inside (h : heap) (l : loc) : Prop :=
  (schema_loc < l < List.length h)%nat.

(** The state of the loop: [properties] holds the entries [P], which
    read as the trees [fst acc]; [required] holds the names [snd acc]. *)
Record record_inv (h : heap) (P : list (string * val))
    (acc : list (string * json) * list string) : Prop := RecordInv {
  inv_prefix : h0 `prefix_of` h;
  inv_properties : h !! properties_loc = Some (Obj P);
  inv_required : h !! required_loc = Some (Arr (List.map VStr (snd acc)));
  inv_schema : h !! schema_loc = Some schema_object;
  inv_fragments :
    Forall2 (fun kv kj => fst kv = fst kj /\
                          repr h (inside h) (snd kv) (snd kj)) P (fst acc)
}.

(** What one round of the loop leaves behind. *)
Definition step_post (r : outcome unit) (h' : heap)
    (d : outcome (list (string * json) * list string)) : Prop :=
  match d with
  | Ok acc' => r = Ok tt /\ exists P', record_inv h' P' acc'
  | Throw e => r = Throw e /\ h0 `prefix_of` h'
  | OutOfModel => r = OutOfModel /\ h0 `prefix_of` h'
  end.

End RecordState.

(** ** Pure registries

    An entry is pure on an instance when, called on a node with [this]
    bound to the instance, it builds the same tree (or fails the same
    way) from every store, allocating it afresh and leaving the instance
    and the objects that exist alone. *)



(** ** The fragments of the kind converters *)

Definition type_fragment (name : string) : json := JObj [("type", JStr name)].

Definition integer_fragment (minimum maximum : number) : json :=
  JObj [("type", JStr "integer");
        ("minimum", JNum minimum);
        ("maximum", JNum maximum)].

Definition buffer_fragment (bounds : list (string * json)) : json :=
  JObj ([("type", JStr "string"); ("pattern", JStr Converter.pattern)] ++ bounds).

(** ** Methods that leave the instance alone *)

Definition preserves_this {A} (m : M A) : Prop :=
  forall s, this (snd (m s)) = this s.

(** A computation that, started on instance [self], ends on it. *)
Definition preserves_at (self : instance) {A} (m : M A) : Prop :=
  forall h, this (snd (m {| this := self; store := h |})) = self.

(** A registry whose entries, called with [this] bound to the instance,
    leave the instance as it is; they may do anything to the store, fail
    or return any value. *)
Definition quiet_registry {caller : Caller} (self : instance) : Prop :=
  Forall (fun kc => forall type,
              preserves_at self (Converter.bound_call (snd kc) type))
    (logicalTypeConvertors self).

(** ** Records whose fields all convert to objects *)

(** The entry of one field in [properties]. *)
Definition field_fragment (f : field) (own : list (string * json)) : json :=
  JObj (match field_default f with
        | Some d => set_own own "default" d
        | None => own
        end).

(** What one field adds to [required]. *)
Definition field_required (f : field) : list string :=
  match field_default f with
  | None => [field_name f]
  | Some _ => []
  end.

Fixpoint record_properties (fields : list field) (js : list (list (string * json)))
    (props : list (string * json)) : list (string * json) :=
  match fields, js with
  | f :: fields', j :: js' =>
      record_properties fields' js'
        (set_own props (field_name f) (field_fragment f j))
  | _, _ => props
  end.

Definition ordinary_names (fields : list field) : Prop :=
  Forall (fun f => ordinary_key (field_name f) = true) fields.

(** ** Instances and converters used in the examples *)

Definition builtin_state : state := snd (Converter.new None []).
Definition builtin_instance : instance := this builtin_state.

(** A caller-supplied converter, for the examples. *)
Definition money : converter :=
  Closed (fun type => HeapOps.alloc (Obj [("type", VStr "string");
                                           ("format", VStr "money")])).

(** A caller-supplied converter whose fragment carries a [default]. *)
Definition uuid : converter :=
  Closed (fun type => HeapOps.alloc (Obj [("type", VStr "string");
                                           ("default", VStr "n/a")])).

(** A calling program that put none of its functions in a registry by
    identity: every entry of the registries of the examples is closed. *)
Definition no_callbacks : Caller :=
  fun id type => MethodOps.throw (OtherError "not a function of the caller").


(** ** The fragment of a tree under the built-in registry

    What the built-in logical converters return, by name, and the tree
    that a resolved type converts to, as a function of the type alone:
    each node's fragment assembled from those of its children by the
    combinators of [Fragment]. *)

Definition builtin_fragments : list (string * json) :=
  [("decimal", type_fragment "number");
   ("date", integer_fragment 1%float (sub (pow 2%float 63) 1%float));
   ("timestamp-millis",
    integer_fragment 1%float (sub (pow 2%float 63) 1%float))].

Fixpoint fragment_of (type : node) : outcome json :=
  match type with
  | NullType => Ok (type_fragment "null")
  | BooleanType => Ok (type_fragment "boolean")
  | IntType =>
      Ok (integer_fragment (neg (pow 2%float 31)) (sub (pow 2%float 31) 1%float))
  | LongType =>
      Ok (integer_fragment (neg (pow 2%float 63)) (sub (pow 2%float 63) 1%float))
  | FloatType | DoubleType => Ok (type_fragment "number")
  | StringType => Ok (type_fragment "string")
  | BytesType => Ok (buffer_fragment [])
  | FixedType size =>
      Ok (buffer_fragment [("maxLength", JNum size); ("minLength", JNum size)])
  | EnumType symbols =>
      Ok (JObj [("type", JStr "string"); ("enum", JArr (List.map JStr symbols))])
  | ArrayType itemsType => Fragment.array (fragment_of itemsType)
  | MapType _ => Throw TypeError
  | RecordType fields =>
      Fragment.record fields
        (List.map (fun f => fragment_of (field_type f)) fields)
  | UnwrappedUnionType types | WrappedUnionType types =>
      Fragment.union (List.map fragment_of types)
  | LogicalType typeName _ =>
      match get_own builtin_fragments (Converter.logical_key typeName) with
      | Some j => Ok j
      | None =>
          if inherited (Converter.logical_key typeName)
          then OutOfModel else Throw TypeError
      end
  end.

(** A caller-supplied converter that returns a string instead of an
    object. *)
Definition reference : converter :=
  Closed (fun type => HeapOps.ret (VStr "#/definitions/id")).

(** ** Names without a colon *)

Fixpoint colon_free (s : string) : bool :=
  match s with
  | EmptyString => true
  | String c s' => negb (Ascii.eqb c ":"%char) && colon_free s'
  end.

(** ** Trees that the class converts

    A tree is supported by a registry when no node that is converted is
    a Map node (the class has no [convertMap]) and every Logical node is
    looked up under a registered name.  The underlying type of a Logical
    node and the values type of a Map node are never converted. *)

Fixpoint supported (registry : list (string * converter)) (type : node) : bool :=
  match type with
  | MapType _ => false
  | ArrayType itemsType => supported registry itemsType
  | RecordType fields =>
      forallb (fun f => supported registry (field_type f)) fields
  | UnwrappedUnionType types | WrappedUnionType types =>
      forallb (supported registry) types
  | LogicalType typeName _ =>
      match get_own registry (Converter.logical_key typeName) with
      | Some _ => true
      | None => false
      end
  | _ => true
  end.

(** The names of a tree are plain when every field name is an ordinary
    key and no Logical node is looked up under an unregistered name that
    [Object.prototype] defines. *)
Fixpoint plain_names (registry : list (string * converter)) (type : node) : bool :=
  match type with
  | ArrayType itemsType => plain_names registry itemsType
  | RecordType fields =>
      forallb (fun f => ordinary_key (field_name f)
                        && plain_names registry (field_type f)) fields
  | UnwrappedUnionType types | WrappedUnionType types =>
      forallb (plain_names registry) types
  | LogicalType typeName _ =>
      match get_own registry (Converter.logical_key typeName) with
      | Some _ => true
      | None => negb (inherited (Converter.logical_key typeName))
      end
  | _ => true
  end.

(** A registry whose entries, called on any node with [this] bound to
    the instance, build an object and leave the instance alone. *)
Definition object_registry {caller : Caller} (self : instance) : Prop :=
  Forall (fun kc => forall type, exists own,
              denotes self (Converter.bound_call (snd kc) type) (Ok (JObj own)))
    (logicalTypeConvertors self).

(** What the conversion of a tree with plain names yields on such a
    registry: an object when the tree is supported, a [TypeError] when
    it is not. *)
Definition object_or_TypeError (is_supported : bool) (d : outcome json) : Prop :=
  if is_supported then exists own, d = Ok (JObj own) else d = Throw TypeError.

(** ** The shapes of the fragments

    The properties of a fragment as the kind converters and the built-in
    logical converters write them.  An entry of [properties] is a fragment
    of these shapes, or one with [default] set. *)

Inductive Bare : list (string * json) -> Prop :=
| Bare_type name :
    In name ["null"; "boolean"; "number"; "string"] ->
    Bare [("type", JStr name)]
| Bare_integer minimum maximum :
    Bare [("type", JStr "integer");
          ("minimum", JNum minimum);
          ("maximum", JNum maximum)]
| Bare_bytes :
    Bare [("type", JStr "string"); ("pattern", JStr Converter.pattern)]
| Bare_fixed size :
    Bare [("type", JStr "string"); ("pattern", JStr Converter.pattern);
          ("maxLength", JNum size); ("minLength", JNum size)]
| Bare_enum symbols :
    Bare [("type", JStr "string"); ("enum", JArr (List.map JStr symbols))]
| Bare_array items :
    Bare items ->
    Bare [("type", JStr "array"); ("items", JObj items)]
| Bare_object properties required :
    NoDup (List.map fst properties) ->
    Forall (fun kj => exists own,
                Bare own /\
                (snd kj = JObj own \/
                 exists d, snd kj = JObj (set_own own "default" d)))
      properties ->
    Forall (fun name => In name (List.map fst properties)) required ->
    Bare [("type", JStr "object");
          ("properties", JObj properties);
          ("required", JArr (List.map JStr required))]
| Bare_oneOf members :
    Forall Bare members ->
    Bare [("oneOf", JArr (List.map JObj members))].

(** A registry whose entries build fragments of these shapes. *)
Definition bare_registry {caller : Caller} (self : instance) : Prop :=
  Forall (fun kc => forall type, exists own,
              denotes self (Converter.bound_call (snd kc) type) (Ok (JObj own))
              /\ Bare own)
    (logicalTypeConvertors self).

(** The entries of [properties] when the field names are distinct: one
    per field, in the order of the fields. *)
Definition record_entries (fields : list field) (js : list (list (string * json)))
  : list (string * json) :=
  zip_with (fun f j => (field_name f, field_fragment f j)) fields js.

(** The names of the fields that have no default, in the order of the
    fields. *)
Definition names_without_default (fields : list field) : list string :=
  List.map field_name
    (List.filter (fun f => match field_default f with
                           | None => true
                           | Some _ => false
                           end) fields).

(** * Properties of the store and of the converters *)

(** ** Trees in the store *)

(** A larger footprint does no harm. *)
Lemma repr_mono h F G v j :
  repr h F v j -> (forall l, F l -> G l) -> repr h G v j.
Proof.
  intros Hr. revert G.
  induction Hr using repr_induction; intros G HG; try constructor.
  - eapply repr_arr; eauto.
    eapply Forall2_impl; [eassumption|]. cbn. intros v j IH.
    apply IH. intros x [Hx Hne]. auto.
  - eapply repr_obj; eauto.
    eapply Forall2_impl; [eassumption|]. cbn. intros kv kj [Hk IH].
    split; [assumption|]. apply IH. intros x [Hx Hne]. auto.
Qed.

(** The tree depends on the footprint only. *)
Lemma repr_frame h h' F v j :
  repr h F v j -> (forall l, F l -> h' !! l = h !! l) -> repr h' F v j.
Proof.
  intros Hr. induction Hr using repr_induction; intros Hh; try constructor.
  - eapply repr_arr; eauto.
    + rewrite Hh by assumption. eassumption.
    + eapply Forall2_impl; [eassumption|]. cbn. intros v j IH.
      apply IH. intros x [Hx _]. auto.
  - eapply repr_obj; eauto.
    + rewrite Hh by assumption. eassumption.
    + eapply Forall2_impl; [eassumption|]. cbn. intros kv kj [Hk IH].
      split; [assumption|]. apply IH. intros x [Hx _]. auto.
Qed.

Lemma repr_prefix h h' F v j :
  repr h F v j -> h `prefix_of` h' -> repr h' F v j.
Proof.
  intros Hr Hp. induction Hr using repr_induction; try constructor.
  - eapply repr_arr; eauto using prefix_lookup_Some.
  - eapply repr_obj; eauto using prefix_lookup_Some.
Qed.

Lemma repr_insert h F v j l o :
  repr h F v j -> ~ F l -> repr (<[l := o]> h) F v j.
Proof.
  intros Hr Hl. eapply repr_frame; [eassumption|].
  intros x Hx. apply list_lookup_insert_ne. intros ->. auto.
Qed.

Lemma repr_not_undefined h F j : ~ repr h F VUndefined j.
Proof. inversion 1. Qed.

(** Reading back a value that reads as [j] gives [j], with fuel for the
    depth of [j]. *)
Lemma repr_reify h F v j :
  repr h F v j ->
  forall fuel, (depth j <= fuel)%nat -> reify fuel h v = Some j.
Proof.
  intros Hr.
  induction Hr as [F|F b|F x|F s|F l items js Hl Hh IH|F l props jps Hl Hh IH]
    using repr_induction; intros fuel Hfuel;
    try (destruct fuel; reflexivity).
  - destruct fuel as [|fuel]; [cbn [depth] in Hfuel; lia|].
    cbn [reify]. rewrite Hh.
    assert (sequence (List.map (reify fuel h) items) = Some js) as ->;
      [|reflexivity].
    cbn [depth] in Hfuel. apply le_S_n in Hfuel. clear Hl Hh.
    induction IH as [|v j items js Hv _ IHl]; [reflexivity|].
    cbn [fold_right] in Hfuel. cbn [List.map sequence].
    rewrite Hv by lia. rewrite IHl by lia. reflexivity.
  - destruct fuel as [|fuel]; [cbn [depth] in Hfuel; lia|].
    cbn [reify]. rewrite Hh.
    assert (sequence
              (List.map
                 (fun kv => option_map (pair (fst kv)) (reify fuel h (snd kv)))
                 props) = Some jps) as ->; [|reflexivity].
    cbn [depth] in Hfuel. apply le_S_n in Hfuel. clear Hl Hh.
    induction IH as [|[k v] [k' j] props jps [Hk Hv] _ IHl]; [reflexivity|].
    cbn [fold_right snd] in Hfuel. cbn [List.map sequence fst snd] in *.
    subst k'. rewrite Hv by lia. cbn [option_map]. rewrite IHl by lia.
    reflexivity.
Qed.

(** What [denotes] says of one run: the instance is the same, the store
    has grown, and the result reads back as the tree. *)
Lemma denotes_observe self m j h :
  denotes self m (Ok j) ->
  this (snd (m {| this := self; store := h |})) = self /\
  h `prefix_of` store (snd (m {| this := self; store := h |})) /\
  observe (depth j) (m {| this := self; store := h |}) = Ok (Some j).
Proof.
  intros Hd. destruct (Hd h) as (r & h' & Hrun & Hp & Ha).
  rewrite Hrun. cbn [fst snd this store]. split; [reflexivity|].
  split; [assumption|].
  destruct r as [v|e|]; cbn in Ha; try contradiction.
  unfold observe. cbn [fst snd store].
  erewrite repr_reify; [reflexivity|eassumption|reflexivity].
Qed.

Lemma denotes_lift self c d : builds c d -> denotes self (MethodOps.lift c) d.
Proof.
  intros Hc h. destruct (Hc h) as (r & h' & Hrun & Hp & Ha).
  exists r, h'. unfold MethodOps.lift. cbn. rewrite Hrun. auto.
Qed.

Lemma fresh_mono h0 h1 h2 h3 l :
  fresh h1 h2 l -> h0 `prefix_of` h1 -> h2 `prefix_of` h3 -> fresh h0 h3 l.
Proof.
  unfold fresh. intros [H1 H2] Ha%prefix_length Hb%prefix_length. lia.
Qed.

(** A tree built earlier is still there after later allocations. *)
Lemma repr_later h0 h1 h2 h3 v j :
  repr h2 (fresh h1 h2) v j ->
  h0 `prefix_of` h1 -> h2 `prefix_of` h3 ->
  repr h3 (fresh h0 h3) v j.
Proof.
  intros Hr Ha Hb. eapply repr_mono.
  - eapply repr_prefix; eassumption.
  - intros l Hl. eapply fresh_mono; eassumption.
Qed.

Lemma lookup_alloc (h : heap) o : (h ++ [o]) !! List.length h = Some o.
Proof. apply list_lookup_middle. reflexivity. Qed.

Lemma prefix_alloc (h : heap) o : h `prefix_of` h ++ [o].
Proof. apply prefix_app_r. reflexivity. Qed.

Lemma prefix_insert (h h' : heap) l o :
  h `prefix_of` h' -> (List.length h <= l)%nat -> h `prefix_of` <[l := o]> h'.
Proof.
  intros [k ->] Hl. exists (<[l - List.length h := o]> k).
  apply insert_app_r_alt. assumption.
Qed.

(** ** Running the store operations *)

Section Running.
Import HeapOps.

Lemma hbind_ok {A B} (m : H A) (k : A -> H B) h a h' :
  m h = (Ok a, h') -> bind m k h = k a h'.
Proof. unfold bind. intros ->. reflexivity. Qed.

Lemma hbind_throw {A B} (m : H A) (k : A -> H B) h e h' :
  m h = (Throw e, h') -> bind m k h = (Throw e, h').
Proof. unfold bind. intros ->. reflexivity. Qed.

Lemma hbind_out {A B} (m : H A) (k : A -> H B) h h' :
  m h = (OutOfModel, h') -> bind m k h = (OutOfModel, h').
Proof. unfold bind. intros ->. reflexivity. Qed.

(** A freshly allocated object whose properties are already in the
    store reads as the object of their trees. *)
Lemma repr_new_obj (h0 h : heap) props jps :
  h0 `prefix_of` h ->
  Forall2 (fun kv kj => fst kv = fst kj /\
                        repr h (fresh h0 h) (snd kv) (snd kj)) props jps ->
  repr (h ++ [Obj props]) (fresh h0 (h ++ [Obj props]))
    (VRef (List.length h)) (JObj jps).
Proof.
  intros Hp Hc. apply prefix_length in Hp as Hlen.
  eapply repr_obj.
  - unfold fresh. rewrite length_app. cbn. lia.
  - apply lookup_alloc.
  - eapply Forall2_impl; [eassumption|]. cbn. intros kv kj [Hk Hr].
    split; [assumption|]. eapply repr_mono.
    + eapply repr_prefix; [eassumption | apply prefix_alloc].
    + unfold fresh. intros l Hl. rewrite length_app. cbn. lia.
Qed.

Lemma repr_new_arr (h0 h : heap) items js :
  h0 `prefix_of` h ->
  Forall2 (repr h (fresh h0 h)) items js ->
  repr (h ++ [Arr items]) (fresh h0 (h ++ [Arr items]))
    (VRef (List.length h)) (JArr js).
Proof.
  intros Hp Hc. apply prefix_length in Hp as Hlen.
  eapply repr_arr.
  - unfold fresh. rewrite length_app. cbn. lia.
  - apply lookup_alloc.
  - eapply Forall2_impl; [eassumption|]. cbn. intros v j Hr.
    eapply repr_mono.
    + eapply repr_prefix; [eassumption | apply prefix_alloc].
    + unfold fresh. intros l Hl. rewrite length_app. cbn. lia.
Qed.

(** [xs.map(f)] when every call succeeds, for a postcondition [Q] that
    later allocations preserve. *)
Lemma hmap_ok {A B C} (f : A -> H B) (Q : heap -> heap -> B -> C -> Prop) :
  (forall h0 h1 h2 h3 b c,
      Q h1 h2 b c -> h0 `prefix_of` h1 -> h2 `prefix_of` h3 -> Q h0 h3 b c) ->
  forall xs cs,
    Forall2 (fun x c => forall h, exists b h',
                 f x h = (Ok b, h') /\ h `prefix_of` h' /\ Q h h' b c) xs cs ->
    forall h, exists bs h',
      map f xs h = (Ok bs, h') /\ h `prefix_of` h' /\ Forall2 (Q h h') bs cs.
Proof.
  intros HQ xs cs HF. induction HF as [|x c xs cs Hx _ IH]; intros h.
  - exists [], h. cbn. auto.
  - destruct (Hx h) as (b & h1 & Hrun & Hp1 & Hq).
    destruct (IH h1) as (bs & h2 & Hrun2 & Hp2 & Hqs).
    exists (b :: bs), h2. split; [|split].
    + cbn. erewrite hbind_ok by eassumption.
      erewrite hbind_ok by eassumption. reflexivity.
    + etrans; eassumption.
    + constructor.
      * eapply HQ; [eassumption | reflexivity | assumption].
      * eapply Forall2_impl; [eassumption|]. intros b' c' Hq'.
        eapply HQ; [eassumption | assumption | reflexivity].
Qed.

(** A copy of a default value reads as that value. *)
Lemma alloc_json_builds j : builds (Converter.alloc_json j) (Ok j).
Proof.
  induction j as [| b | x | s | items IH | props IH] using json_induction;
    intros h.
  - exists (Ok VNull), h. cbn. repeat split; [reflexivity | constructor].
  - exists (Ok (VBool b)), h. cbn. repeat split; [reflexivity | constructor].
  - exists (Ok (VNum x)), h. cbn. repeat split; [reflexivity | constructor].
  - exists (Ok (VStr s)), h. cbn. repeat split; [reflexivity | constructor].
  - destruct (hmap_ok Converter.alloc_json
                (fun h h' v j => repr h' (fresh h h') v j)
                (fun h0 h1 h2 h3 b c Hr Ha Hb => repr_later h0 h1 h2 h3 b c Hr Ha Hb)
                items items) with (h := h) as (vs & h1 & Hrun & Hp & Hvs).
    { clear -IH. induction IH as [|j items Hj _ IHl]; constructor; [|assumption].
      intros h. destruct (Hj h) as (r & h' & Hrun & Hp & Ha).
      destruct r; cbn in Ha; try contradiction. eauto. }
    exists (Ok (VRef (List.length h1))), (h1 ++ [Arr vs]). split; [|split].
    + cbn. erewrite hbind_ok by eassumption. reflexivity.
    + etrans; [eassumption | apply prefix_alloc].
    + cbn. apply repr_new_arr; assumption.
  - destruct (hmap_ok
                (fun kv : string * json =>
                   bind (Converter.alloc_json (snd kv))
                     (fun v => ret (fst kv, v)))
                (fun h h' (kv : string * val) (kj : string * json) =>
                   fst kv = fst kj /\ repr h' (fresh h h') (snd kv) (snd kj)))
      with (xs := props) (cs := props) (h := h)
      as (vs & h1 & Hrun & Hp & Hvs).
    { intros h0 h1 h2 h3 b c [Hk Hr] Ha Hb. split; [assumption|].
      eapply repr_later; eassumption. }
    { clear -IH. induction IH as [|kj props Hj _ IHl]; constructor; [|assumption].
      intros h. destruct (Hj h) as (r & h' & Hrun & Hp & Ha).
      destruct r as [v| |]; cbn in Ha; try contradiction.
      exists (fst kj, v), h'. split; [|split; [assumption|split; [reflexivity|assumption]]].
      erewrite hbind_ok by eassumption. reflexivity. }
    exists (Ok (VRef (List.length h1))), (h1 ++ [Obj vs]). split; [|split].
    + cbn. erewrite hbind_ok by eassumption. reflexivity.
    + etrans; [eassumption | apply prefix_alloc].
    + cbn. apply repr_new_obj; assumption.
Qed.

End Running.

(** ** Running the methods *)

Section RunningMethods.
Context {caller : Caller}.
Import MethodOps Converter.

Lemma mbind_ok {A B} (m : M A) (k : A -> M B) s a s' :
  m s = (Ok a, s') -> bind m k s = k a s'.
Proof. unfold bind. intros ->. reflexivity. Qed.

Lemma mbind_throw {A B} (m : M A) (k : A -> M B) s e s' :
  m s = (Throw e, s') -> bind m k s = (Throw e, s').
Proof. unfold bind. intros ->. reflexivity. Qed.

Lemma mbind_out {A B} (m : M A) (k : A -> M B) s s' :
  m s = (OutOfModel, s') -> bind m k s = (OutOfModel, s').
Proof. unfold bind. intros ->. reflexivity. Qed.

Lemma mbind_assoc {A B C} (m : M A) (k : A -> M B) (k' : B -> M C) s :
  bind (bind m k) k' s = bind m (fun a => bind (k a) k') s.
Proof. unfold bind. destruct (m s) as [[a|e|] s']; reflexivity. Qed.

Lemma run_alloc self h o :
  alloc o {| this := self; store := h |}
  = (Ok (VRef (List.length h)), {| this := self; store := h ++ [o] |}).
Proof. reflexivity. Qed.

Lemma run_get_prop self h l props k x :
  h !! l = Some (Obj props) -> get_own props k = Some x ->
  get_prop (VRef l) k {| this := self; store := h |}
  = (Ok x, {| this := self; store := h |}).
Proof.
  intros Hl Hk. unfold get_prop, lift, HeapOps.get_prop. cbn.
  rewrite Hl, Hk. reflexivity.
Qed.

Lemma run_set_prop self h l props k x :
  h !! l = Some (Obj props) -> ordinary_key k = true ->
  set_prop (VRef l) k x {| this := self; store := h |}
  = (Ok tt, {| this := self; store := <[l := Obj (set_own props k x)]> h |}).
Proof.
  intros Hl Hk. unfold set_prop, lift, HeapOps.set_prop. cbn.
  rewrite Hl, Hk. reflexivity.
Qed.

Lemma run_push self h l items x :
  h !! l = Some (Arr items) ->
  push (VRef l) x {| this := self; store := h |}
  = (Ok tt, {| this := self; store := <[l := Arr (items ++ [x])]> h |}).
Proof.
  intros Hl. unfold push, lift, HeapOps.push. cbn. rewrite Hl. reflexivity.
Qed.

Lemma resolveConverter_run type self h :
  resolveConverter type {| this := self; store := h |}
  = (resolved self type, {| this := self; store := h |}).
Proof.
  unfold resolved, resolveConverter.
  destruct type; try reflexivity.
  cbn [instanceof_LogicalType typeName_of]. unfold bind, get_this.
  cbn [this store fst].
  destruct (get_own (logicalTypeConvertors self) (logical_key typeName));
    [reflexivity|].
  destruct (inherited (logical_key typeName)); reflexivity.
Qed.

Lemma convertType_run type self h :
  convertType type {| this := self; store := h |}
  = match resolved self type with
    | Ok f => call f type {| this := self; store := h |}
    | Throw e => (Throw e, {| this := self; store := h |})
    | OutOfModel => (OutOfModel, {| this := self; store := h |})
    end.
Proof.
  unfold convertType, bind. rewrite resolveConverter_run.
  destruct (resolved self type); reflexivity.
Qed.

Lemma denotes_flat self type f props jps :
  resolved self type = Ok f ->
  call f type = alloc (Obj props) ->
  flat props jps ->
  denotes self (convertType type) (Ok (JObj jps)).
Proof.
  intros Hres Hcall Hflat h.
  exists (Ok (VRef (List.length h))), (h ++ [Obj props]).
  rewrite convertType_run, Hres, Hcall, run_alloc.
  split; [reflexivity|]. split; [apply prefix_alloc|].
  cbn. apply repr_new_obj; [reflexivity|].
  eapply Forall2_impl; [exact Hflat|]. cbn. intros kv kj [Hk Hr]. auto.
Qed.

End RunningMethods.

Section Rules.
Context {caller : Caller}.
Import MethodOps Converter.
Variable self : instance.

Lemma call_entry c type : call (BoundEntry c) type = bound_call c type.
Proof. destruct type; reflexivity. Qed.

(** A closed entry yields what its body builds. *)
Lemma denotes_closed body type d :
  builds (body type) d -> denotes self (bound_call (Closed body) type) d.
Proof. apply denotes_lift. Qed.

Lemma resolved_logical typeName underlying :
  resolved self (LogicalType typeName underlying)
  = match get_own (logicalTypeConvertors self) (logical_key typeName) with
    | Some c => Ok (BoundEntry c)
    | None => if inherited (logical_key typeName)
              then OutOfModel else Throw TypeError
    end.
Proof.
  unfold resolved, resolveConverter.
  cbn [instanceof_LogicalType typeName_of]. unfold bind, get_this.
  cbn [this store fst].
  destruct (get_own (logicalTypeConvertors self) (logical_key typeName));
    [reflexivity|].
  destruct (inherited (logical_key typeName)); reflexivity.
Qed.

(** A logical type yields what the call of its registry entry yields. *)
Lemma denotes_logical typeName underlying c d :
  get_own (logicalTypeConvertors self) (logical_key typeName) = Some c ->
  denotes self (bound_call c (LogicalType typeName underlying)) d ->
  denotes self (convertType (LogicalType typeName underlying)) d.
Proof.
  intros Hk Hc h.
  destruct (Hc h) as (r & h' & Hrun & Hp & Ha).
  exists r, h'. rewrite convertType_run, resolved_logical, Hk, call_entry.
  auto.
Qed.

(** A computation that denotes a failure fails that way. *)
Lemma agrees_then h h' r d :
  agrees h h' r d ->
  match d with
  | Ok j => exists v, r = Ok v /\ repr h' (fresh h h') v j
  | Throw e => r = Throw e
  | OutOfModel => r = OutOfModel
  end.
Proof.
  destruct r, d; cbn; intros Ha; try contradiction; eauto; congruence.
Qed.

Lemma convertType_array itemsType s :
  convertType (ArrayType itemsType) s
  = bind (convertType itemsType)
      (fun items => alloc (Obj [("type", VStr "array"); ("items", items)])) s.
Proof.
  destruct s as [i h]. rewrite convertType_run.
  transitivity (convertArray call itemsType {| this := i; store := h |});
    [reflexivity|].
  unfold convertArray, convertType. symmetry. apply mbind_assoc.
Qed.

Lemma denotes_array itemsType d :
  denotes self (convertType itemsType) d ->
  denotes self (convertType (ArrayType itemsType)) (Fragment.array d).
Proof.
  intros Hd h. destruct (Hd h) as (r & h1 & Hrun & Hp & Ha).
  rewrite convertType_array.
  apply agrees_then in Ha.
  destruct d as [j|e|]; cbn [Fragment.array Fragment.then_].
  - destruct Ha as (v & -> & Hr).
    exists (Ok (VRef (List.length h1))),
      (h1 ++ [Obj [("type", VStr "array"); ("items", v)]]).
    erewrite mbind_ok by eassumption. rewrite run_alloc.
    split; [reflexivity|]. split; [etrans; [eassumption|apply prefix_alloc]|].
    cbn. apply repr_new_obj; [assumption|].
    repeat constructor; assumption.
  - subst r. exists (Throw e), h1.
    erewrite mbind_throw by eassumption. cbn. auto.
  - subst r. exists OutOfModel, h1.
    erewrite mbind_out by eassumption. cbn. auto.
Qed.

Lemma map_cons {A B} (f : A -> M B) x xs :
  MethodOps.map f (x :: xs)
  = bind (f x) (fun y => bind (MethodOps.map f xs) (fun ys => ret (y :: ys))).
Proof. reflexivity. Qed.

(** [types.map(...)]: the members are converted in order, and the first
    failure ends the call. *)
Lemma map_denotes (f : node -> M val) xs ds :
  Forall2 (fun x d => denotes self (f x) d) xs ds ->
  forall h, exists r h',
    MethodOps.map f xs {| this := self; store := h |}
    = (r, {| this := self; store := h' |}) /\
    h `prefix_of` h' /\
    match Fragment.all_ok ds with
    | Ok js => exists vs, r = Ok vs /\ Forall2 (repr h' (fresh h h')) vs js
    | Throw e => r = Throw e
    | OutOfModel => r = OutOfModel
    end.
Proof.
  induction 1 as [|x d xs ds Hx _ IH]; intros h.
  - exists (Ok []), h. split; [reflexivity|]. split; [reflexivity|].
    exists []. split; [reflexivity|constructor].
  - destruct (Hx h) as (r1 & h1 & Hrun1 & Hp1 & Ha1).
    apply agrees_then in Ha1. rewrite map_cons.
    destruct d as [j|e|]; cbn [Fragment.all_ok Fragment.then_].
    + destruct Ha1 as (v & -> & Hv).
      destruct (IH h1) as (r2 & h2 & Hrun2 & Hp2 & Ha2).
      erewrite mbind_ok by eassumption.
      destruct (Fragment.all_ok ds) as [js|e|]; cbn [Fragment.then_].
      * destruct Ha2 as (vs & -> & Hvs).
        exists (Ok (v :: vs)), h2.
        erewrite mbind_ok by eassumption.
        split; [reflexivity|]. split; [etrans; eassumption|].
        exists (v :: vs). split; [reflexivity|]. constructor.
        -- eapply repr_later; [eassumption|reflexivity|assumption].
        -- eapply Forall2_impl; [eassumption|]. intros v' j' Hr.
           eapply repr_later; [eassumption|assumption|reflexivity].
      * subst r2. exists (Throw e), h2.
        erewrite mbind_throw by eassumption.
        split; [reflexivity|]. split; [etrans; eassumption|reflexivity].
      * subst r2. exists OutOfModel, h2.
        erewrite mbind_out by eassumption.
        split; [reflexivity|]. split; [etrans; eassumption|reflexivity].
    + subst r1. exists (Throw e), h1.
      erewrite mbind_throw by eassumption. auto.
    + subst r1. exists OutOfModel, h1.
      erewrite mbind_out by eassumption. auto.
Qed.

Lemma convertUnion_eq types :
  convertUnion call types
  = bind (MethodOps.map convertType types)
      (fun members =>
         bind (alloc (Arr members))
           (fun oneOf => alloc (Obj [("oneOf", oneOf)]))).
Proof. reflexivity. Qed.

Lemma convertUnion_denotes types ds :
  Forall2 (fun type d => denotes self (convertType type) d) types ds ->
  denotes self (convertUnion call types) (Fragment.union ds).
Proof.
  intros Hm h. rewrite convertUnion_eq.
  destruct (map_denotes convertType types ds Hm h)
    as (r & h1 & Hrun & Hp & Ha).
  unfold Fragment.union.
  destruct (Fragment.all_ok ds) as [js|e|]; cbn [Fragment.then_].
  - destruct Ha as (vs & -> & Hvs).
    exists (Ok (VRef (List.length (h1 ++ [Arr vs])))),
      ((h1 ++ [Arr vs]) ++ [Obj [("oneOf", VRef (List.length h1))]]).
    erewrite mbind_ok by eassumption.
    erewrite mbind_ok by apply run_alloc. rewrite run_alloc.
    split; [reflexivity|].
    assert (h `prefix_of` h1 ++ [Arr vs]) as Hp2
        by (etrans; [eassumption|apply prefix_alloc]).
    split; [etrans; [eassumption|apply prefix_alloc]|].
    cbn. apply repr_new_obj; [assumption|].
    constructor; [|constructor]. split; [reflexivity|]. cbn.
    apply repr_new_arr; assumption.
  - subst r. exists (Throw e), h1.
    erewrite mbind_throw by eassumption. cbn. auto.
  - subst r. exists OutOfModel, h1.
    erewrite mbind_out by eassumption. cbn. auto.
Qed.

Lemma convertType_unwrapped types s :
  convertType (UnwrappedUnionType types) s = convertUnion call types s.
Proof. destruct s. rewrite convertType_run. reflexivity. Qed.

Lemma convertType_wrapped types s :
  convertType (WrappedUnionType types) s = convertUnion call types s.
Proof. destruct s. rewrite convertType_run. reflexivity. Qed.

Lemma denotes_ext m m' d :
  (forall s, m s = m' s) -> denotes self m' d -> denotes self m d.
Proof. intros He Hd h. rewrite He. apply Hd. Qed.

End Rules.

(** ** Own properties: lookup after assignment *)

Section OwnPropertyFacts.
Context {A B : Type}.

Lemma get_own_set_own_eq (ps : list (string * A)) k v :
  get_own (set_own ps k v) k = Some v.
Proof.
  induction ps as [|[k' v'] ps IH]; cbn.
  - rewrite String.eqb_refl. reflexivity.
  - destruct (String.eqb k' k) eqn:E; cbn; rewrite E; [reflexivity|exact IH].
Qed.

Lemma get_own_set_own_ne (ps : list (string * A)) k k' v :
  k <> k' -> get_own (set_own ps k v) k' = get_own ps k'.
Proof.
  intros Hne. induction ps as [|[k0 v0] ps IH]; cbn.
  - destruct (String.eqb k k') eqn:E; [|reflexivity].
    apply String.eqb_eq in E. contradiction.
  - destruct (String.eqb k0 k) eqn:E; cbn.
    + apply String.eqb_eq in E. subst k0.
      destruct (String.eqb k k') eqn:E'; [|reflexivity].
      apply String.eqb_eq in E'. contradiction.
    + rewrite IH. reflexivity.
Qed.

Lemma keys_set_own (ps : list (string * A)) k v k' :
  In k' (List.map fst (set_own ps k v)) <-> k' = k \/ In k' (List.map fst ps).
Proof.
  induction ps as [|[k0 v0] ps IH]; cbn.
  - intuition congruence.
  - destruct (String.eqb k0 k) eqn:E; cbn.
    + apply String.eqb_eq in E. subst k0. intuition congruence.
    + rewrite IH. intuition congruence.
Qed.

(** Assigning related values under the same key keeps two property
    lists related entry by entry. *)
Lemma Forall2_set_own (R : A -> B -> Prop) ps qs k a b :
  Forall2 (fun kv kj => fst kv = fst kj /\ R (snd kv) (snd kj)) ps qs ->
  R a b ->
  Forall2 (fun kv kj => fst kv = fst kj /\ R (snd kv) (snd kj))
    (set_own ps k a) (set_own qs k b).
Proof.
  intros HF Hab. induction HF as [|[k1 v1] [k2 v2] ps qs [Hk Hv] HF IH]; cbn.
  - repeat constructor; assumption.
  - cbn in Hk. subst k2. destruct (String.eqb k1 k).
    + constructor; [split; [reflexivity|assumption]|assumption].
    + constructor; [split; [reflexivity|assumption]|exact IH].
Qed.

End OwnPropertyFacts.

Lemma match_defined {A} (d : val) (a b : A) :
  d <> VUndefined ->
  match d with
  | VUndefined => a
  | _ => b
  end = b.
Proof. destruct d; congruence. Qed.

Lemma repr_preserved h h' F G v j :
  repr h F v j ->
  (forall l, F l -> h' !! l = h !! l) ->
  (forall l, F l -> G l) ->
  repr h' G v j.
Proof. intros Hr Hh HG. eapply repr_mono; [eapply repr_frame|]; eassumption. Qed.

Lemma agrees_ok h h' v d :
  agrees h h' (Ok v) d -> exists j, d = Ok j /\ repr h' (fresh h h') v j.
Proof. destruct d; cbn; intros Ha; try contradiction. eauto. Qed.

Lemma agrees_throw h h' e d : agrees h h' (Throw e) d -> d = Throw e.
Proof. destruct d; cbn; intros Ha; try contradiction. congruence. Qed.

Lemma agrees_out h h' d : agrees h h' OutOfModel d -> d = OutOfModel.
Proof. destruct d; cbn; intros Ha; try contradiction. reflexivity. Qed.

(** ** The record converter

    [convertRecord] allocates [properties], [required] and [schema] and
    then updates the first two, and the fragment of each field that has a
    default, once per field. *)

Section RecordRule.
Context {caller : Caller}.
Import MethodOps Converter.
Variable self : instance.

(** The store in which [convertRecord] was called. *)
Variable h0 : heap.

Ltac sizes :=
  unfold inside, fresh, properties_loc, required_loc, schema_loc in *;
  repeat match goal with
    | H : _ `prefix_of` _ |- _ => apply prefix_length in H
    | H : _ !! _ = Some _ |- _ => apply lookup_lt_Some in H
    end;
  repeat rewrite length_insert in *;
  try lia.

(** After a field without default. *)
Lemma inv_required_field h h1 P acc name v j :
  record_inv h0 h P acc ->
  h `prefix_of` h1 ->
  repr h1 (fresh h h1) v j ->
  record_inv h0
    (<[(required_loc h0) := Arr (List.map VStr (snd acc) ++ [VStr name])]>
       (<[(properties_loc h0) := Obj (set_own P name v)]> h1))
    (set_own P name v)
    (set_own (fst acc) name j, snd acc ++ [name]).
Proof.
  intros [Hp HP HR HS HF] Hp1 Hr.
  assert (schema_loc h0 < List.length h)%nat as L0 by (clear -HS; sizes).
  assert (List.length h <= List.length h1)%nat as L1 by (clear -Hp1; sizes).
  split; cbn [fst snd].
  - apply prefix_insert; [apply prefix_insert|].
    + etrans; eassumption.
    + unfold properties_loc. lia.
    + unfold required_loc. lia.
  - rewrite list_lookup_insert_ne by (unfold properties_loc, required_loc; lia).
    apply list_lookup_insert_eq. unfold properties_loc, schema_loc in *. lia.
  - rewrite list_lookup_insert_eq
      by (rewrite length_insert; unfold required_loc, schema_loc in *; lia).
    rewrite List.map_app. reflexivity.
  - rewrite !list_lookup_insert_ne
      by (unfold properties_loc, required_loc, schema_loc; lia).
    eapply prefix_lookup_Some; eassumption.
  - apply Forall2_set_own.
    + eapply Forall2_impl; [exact HF|]. cbn. intros kv kj [Hk Hv].
      split; [assumption|]. eapply repr_preserved; [exact Hv|..].
      * intros l Hl.
        rewrite !list_lookup_insert_ne
          by (unfold inside, properties_loc, required_loc, schema_loc in *; lia).
        symmetry. apply prefix_lookup_lt; [unfold inside, schema_loc in *; lia|assumption].
      * unfold inside, schema_loc in *. intros l Hl. rewrite !length_insert. lia.
    + eapply repr_preserved; [exact Hr|..].
      * intros l Hl.
        rewrite !list_lookup_insert_ne
          by (unfold fresh, properties_loc, required_loc, schema_loc in *; lia).
        reflexivity.
      * unfold inside, fresh, schema_loc in *. intros l Hl. rewrite !length_insert. lia.
Qed.

(** After a field with a default, whose fragment is the object at [lx]. *)
Lemma inv_default_field h h1 h2a h2b P acc name lx px jps dv dj :
  record_inv h0 h P acc ->
  h `prefix_of` h1 ->
  fresh h h1 lx ->
  h1 !! lx = Some (Obj px) ->
  Forall2 (fun kv kj => fst kv = fst kj /\
             repr h1 (fun x => fresh h h1 x /\ x <> lx) (snd kv) (snd kj))
    px jps ->
  <[(properties_loc h0) := Obj (set_own P name (VRef lx))]> h1 `prefix_of` h2a ->
  h2a `prefix_of` h2b ->
  repr h2b (fresh h2a h2b) dv dj ->
  record_inv h0
    (<[lx := Obj (set_own px "default" dv)]> h2b)
    (set_own P name (VRef lx))
    (set_own (fst acc) name (JObj (set_own jps "default" dj)), snd acc).
Proof.
  intros [Hp HP HR HS HF] Hp1 Hlx Hpx Hc Hp2 Hp3 Hdv.
  set (h2 := <[(properties_loc h0) := Obj (set_own P name (VRef lx))]> h1) in *.
  assert (schema_loc h0 < List.length h)%nat as L0 by (clear -HS; sizes).
  assert (List.length h <= List.length h1)%nat as L1 by (clear -Hp1; sizes).
  assert (List.length h2 = List.length h1) as L2 by apply length_insert.
  assert (List.length h2 <= List.length h2a)%nat as L3
      by (apply prefix_length; assumption).
  assert (List.length h2a <= List.length h2b)%nat as L4
      by (apply prefix_length; assumption).
  assert (h2 `prefix_of` h2b) as Hp4 by (etrans; eassumption).
  assert (h0 `prefix_of` h2) as Hp5.
  { apply prefix_insert; [etrans; eassumption|]. unfold properties_loc. lia. }
  unfold fresh in Hlx.
  split; cbn [fst snd].
  - apply prefix_insert; [etrans; eassumption|].
    apply prefix_length in Hp. lia.
  - rewrite list_lookup_insert_ne by (unfold properties_loc, schema_loc in *; lia).
    eapply prefix_lookup_Some; [|exact Hp4].
    apply list_lookup_insert_eq. unfold properties_loc, schema_loc in *. lia.
  - rewrite list_lookup_insert_ne by (unfold required_loc, schema_loc in *; lia).
    eapply prefix_lookup_Some; [|exact Hp4]. unfold h2.
    rewrite list_lookup_insert_ne by (unfold properties_loc, required_loc; lia).
    eapply prefix_lookup_Some; eassumption.
  - rewrite list_lookup_insert_ne by (unfold schema_loc in *; lia).
    eapply prefix_lookup_Some; [|exact Hp4]. unfold h2.
    rewrite list_lookup_insert_ne by (unfold properties_loc, schema_loc; lia).
    eapply prefix_lookup_Some; eassumption.
  - apply Forall2_set_own.
    + eapply Forall2_impl; [exact HF|]. cbn. intros kv kj [Hk Hv].
      split; [assumption|]. eapply repr_preserved; [exact Hv|..].
      * intros l Hl. unfold inside, schema_loc in *.
        rewrite list_lookup_insert_ne by lia.
        rewrite <- (prefix_lookup_lt h2 h2b) by (assumption || lia).
        unfold h2.
        rewrite list_lookup_insert_ne by (unfold properties_loc, schema_loc in *; lia).
        symmetry. apply prefix_lookup_lt; [lia|assumption].
      * unfold inside, schema_loc in *. intros l Hl. rewrite length_insert. lia.
    + eapply repr_obj.
      * unfold inside, schema_loc in *. rewrite length_insert. lia.
      * apply list_lookup_insert_eq. lia.
      * apply Forall2_set_own.
        -- eapply Forall2_impl; [exact Hc|]. cbn. intros kv kj [Hk Hv].
           split; [assumption|]. eapply repr_preserved; [exact Hv|..].
           ++ intros l [Hl Hne]. unfold fresh in Hl.
              rewrite list_lookup_insert_ne by congruence.
              rewrite <- (prefix_lookup_lt h2 h2b) by (assumption || lia).
              unfold h2.
              rewrite list_lookup_insert_ne
                by (unfold properties_loc, schema_loc in *; lia).
              reflexivity.
           ++ unfold inside, fresh, schema_loc in *. intros l [Hl Hne].
              rewrite length_insert. split; [lia|assumption].
        -- eapply repr_preserved; [exact Hdv|..].
           ++ intros l Hl. unfold fresh in Hl.
              rewrite list_lookup_insert_ne by lia. reflexivity.
           ++ unfold inside, fresh, schema_loc in *. intros l Hl.
              rewrite length_insert. lia.
Qed.

Lemma bind_resolveConverter {B} type (k : bound_function -> M B) h :
  bind (resolveConverter type) k {| this := self; store := h |}
  = match resolved self type with
    | Ok f => k f {| this := self; store := h |}
    | Throw e => (Throw e, {| this := self; store := h |})
    | OutOfModel => (OutOfModel, {| this := self; store := h |})
    end.
Proof.
  unfold bind. rewrite resolveConverter_run.
  destruct (resolved self type); reflexivity.
Qed.

Lemma set_prop_out_key h l props k x :
  h !! l = Some (Obj props) -> ordinary_key k = false ->
  set_prop (VRef l) k x {| this := self; store := h |}
  = (OutOfModel, {| this := self; store := h |}).
Proof.
  intros Hl Hk. unfold set_prop, lift, HeapOps.set_prop. cbn.
  rewrite Hl, Hk. reflexivity.
Qed.

Lemma set_prop_arr h l items k x :
  h !! l = Some (Arr items) ->
  set_prop (VRef l) k x {| this := self; store := h |}
  = (OutOfModel, {| this := self; store := h |}).
Proof.
  intros Hl. unfold set_prop, lift, HeapOps.set_prop. cbn.
  rewrite Hl. reflexivity.
Qed.

Lemma convertRecord_field_run f d h P acc :
  denotes self (convertType (field_type f)) d ->
  record_inv h0 h P acc ->
  exists r h',
    convertRecord_field call (VRef (schema_loc h0)) f {| this := self; store := h |}
    = (r, {| this := self; store := h' |}) /\
    step_post h0 r h' (Fragment.field_step acc f d).
Proof.
  intros Hd Hinv. pose proof Hinv as [Hp HP HR HS HF].
  destruct (Hd h) as (r1 & h1 & Hrun & Hp1 & Ha).
  rewrite convertType_run in Hrun.
  unfold convertRecord_field. rewrite bind_resolveConverter.
  destruct (resolved self (field_type f)) as [fn|e|].
  - erewrite mbind_ok by (eapply run_get_prop; [exact HS|reflexivity]).
    destruct r1 as [v|e|].
    + erewrite mbind_ok by exact Hrun.
      apply agrees_ok in Ha as (j & -> & Hv).
      unfold Fragment.field_step; cbn [Fragment.then_].
      assert (h1 !! (properties_loc h0) = Some (Obj P)) as HP1
          by (eapply prefix_lookup_Some; eassumption).
      assert (h1 !! (required_loc h0) = Some (Arr (List.map VStr (snd acc)))) as HR1
          by (eapply prefix_lookup_Some; eassumption).
      assert (h1 !! (schema_loc h0) = Some (schema_object h0)) as HS1
          by (eapply prefix_lookup_Some; eassumption).
      assert (h0 `prefix_of` h1) as Hp01 by (etrans; eassumption).
      destruct (ordinary_key (field_name f)) eqn:Hkey.
      2:{ erewrite mbind_out by (eapply set_prop_out_key; eassumption).
          exists OutOfModel, h1. split; [reflexivity|]. cbn. auto. }
      erewrite mbind_ok by (eapply run_set_prop; eassumption).
      set (h2 := <[(properties_loc h0) := Obj (set_own P (field_name f) v)]> h1).
      assert (h2 !! (schema_loc h0) = Some (schema_object h0)) as HS2.
      { unfold h2. rewrite list_lookup_insert_ne
          by (unfold properties_loc, schema_loc; lia). exact HS1. }
      assert (h2 !! (required_loc h0) = Some (Arr (List.map VStr (snd acc)))) as HR2.
      { unfold h2. rewrite list_lookup_insert_ne
          by (unfold properties_loc, required_loc; lia). exact HR1. }
      assert (h2 !! (properties_loc h0) = Some (Obj (set_own P (field_name f) v)))
        as HP2.
      { apply list_lookup_insert_eq. eapply lookup_lt_Some. exact HP1. }
      assert (h0 `prefix_of` h2) as Hp02.
      { apply prefix_insert; [assumption|]. unfold properties_loc. lia. }
      unfold defaultValue. destruct (field_default f) as [dj|].
      * destruct (denotes_lift self _ _ (alloc_json_builds dj) h2)
          as (ra & h2a & Hruna & Hpa & Haa).
        apply agrees_then in Haa. destruct Haa as (dv & -> & Hdv).
        erewrite mbind_ok by exact Hruna.
        rewrite match_defined
          by (intros ->; eapply repr_not_undefined; eassumption).
        erewrite mbind_ok
          by (eapply run_get_prop;
              [eapply prefix_lookup_Some; [exact HS2|exact Hpa]|reflexivity]).
        erewrite mbind_ok
          by (eapply run_get_prop;
              [eapply prefix_lookup_Some; [exact HP2|exact Hpa]
              |apply get_own_set_own_eq]).
        destruct (denotes_lift self _ _ (alloc_json_builds dj) h2a)
          as (rb & h2b & Hrunb & Hpb & Hab).
        apply agrees_then in Hab. destruct Hab as (dv2 & -> & Hdv2).
        erewrite mbind_ok by exact Hrunb.
        assert (h2 `prefix_of` h2b) as Hp2b by (etrans; [exact Hpa|exact Hpb]).
        assert (h0 `prefix_of` h2b) as Hp0b by (etrans; [exact Hp02|exact Hp2b]).
        inversion Hv as [F0|F0 b|F0 x|F0 s|F0 l items js Hl Hh Hc
                        |F0 l props jps Hl Hh Hc]; subst;
          cbn [Fragment.attach_default Fragment.then_].
        -- exists (Throw TypeError), h2b. split; [reflexivity|]. cbn. auto.
        -- exists (Throw TypeError), h2b. split; [reflexivity|]. cbn. auto.
        -- exists (Throw TypeError), h2b. split; [reflexivity|]. cbn. auto.
        -- exists (Throw TypeError), h2b. split; [reflexivity|]. cbn. auto.
        -- exists OutOfModel, h2b. split; [|cbn; auto].
           eapply set_prop_arr.
           eapply prefix_lookup_Some; [|exact Hp2b].
           unfold h2. rewrite list_lookup_insert_ne; [exact Hh|].
           unfold fresh, properties_loc in *.
           apply prefix_length in Hp. apply lookup_lt_Some in HS.
           unfold schema_loc in HS. lia.
        -- exists (Ok tt),
             (<[l := Obj (set_own props "default" dv2)]> h2b).
           split.
           ++ eapply run_set_prop; [|reflexivity].
              eapply prefix_lookup_Some; [|exact Hp2b].
              unfold h2. rewrite list_lookup_insert_ne; [exact Hh|].
              unfold fresh, properties_loc in *.
              apply lookup_lt_Some in HS. unfold schema_loc in HS. lia.
           ++ cbn. split; [reflexivity|].
              exists (set_own P (field_name f) (VRef l)).
              eapply (inv_default_field h h1 h2a h2b);
                [exact Hinv|exact Hp1|exact Hl|exact Hh|exact Hc
                |exact Hpa|exact Hpb|exact Hdv2].
      * erewrite mbind_ok by reflexivity. cbv iota.
        erewrite mbind_ok by (eapply run_get_prop; [exact HS2|reflexivity]).
        exists (Ok tt),
          (<[(required_loc h0) :=
               Arr (List.map VStr (snd acc) ++ [VStr (field_name f)])]> h2).
        split; [eapply run_push; exact HR2|].
        cbn. split; [reflexivity|].
        exists (set_own P (field_name f) v).
        eapply inv_required_field; eassumption.
    + erewrite mbind_throw by exact Hrun.
      apply agrees_throw in Ha. subst d.
      exists (Throw e), h1. split; [reflexivity|]. cbn.
      split; [reflexivity|etrans; eassumption].
    + erewrite mbind_out by exact Hrun.
      apply agrees_out in Ha. subst d.
      exists OutOfModel, h1. split; [reflexivity|]. cbn.
      split; [reflexivity|etrans; eassumption].
  - inversion Hrun; subst. apply agrees_throw in Ha. subst d.
    exists (Throw e), h1. split; [reflexivity|]. cbn. auto.
  - inversion Hrun; subst. apply agrees_out in Ha. subst d.
    exists OutOfModel, h1. split; [reflexivity|]. cbn. auto.
Qed.

Lemma forEach_cons {A} (f : A -> M unit) x xs :
  forEach f (x :: xs) = bind (f x) (fun _ => forEach f xs).
Proof. reflexivity. Qed.

Lemma forEach_fields_run fields ds :
  Forall2 (fun f d => denotes self (convertType (field_type f)) d) fields ds ->
  forall h P acc,
    record_inv h0 h P acc ->
    exists r h',
      forEach (convertRecord_field call (VRef (schema_loc h0))) fields
        {| this := self; store := h |}
      = (r, {| this := self; store := h' |}) /\
      step_post h0 r h' (Fragment.record_fold fields ds acc).
Proof.
  induction 1 as [|f d fields ds Hf _ IH]; intros h P acc Hinv.
  - exists (Ok tt), h. split; [reflexivity|]. cbn. split; [reflexivity|]. eauto.
  - rewrite forEach_cons.
    destruct (convertRecord_field_run f d h P acc Hf Hinv)
      as (r1 & h1 & Hrun & Hpost).
    cbn [Fragment.record_fold].
    destruct (Fragment.field_step acc f d) as [acc1|e|];
      cbn [Fragment.then_]; cbn [step_post] in Hpost.
    + destruct Hpost as [-> [P1 Hinv1]].
      erewrite mbind_ok by exact Hrun. apply (IH h1 P1 acc1 Hinv1).
    + destruct Hpost as [-> Hp1].
      erewrite mbind_throw by exact Hrun.
      exists (Throw e), h1. cbn. auto.
    + destruct Hpost as [-> Hp1].
      erewrite mbind_out by exact Hrun.
      exists OutOfModel, h1. cbn. auto.
Qed.

Lemma repr_strings h F names :
  Forall2 (repr h F) (List.map VStr names) (List.map JStr names).
Proof. induction names; cbn; constructor; [constructor|assumption]. Qed.

(** At the end of the loop [schema] reads as the record fragment. *)
Lemma record_inv_repr h P acc :
  record_inv h0 h P acc ->
  repr h (fresh h0 h) (VRef (schema_loc h0)) (Fragment.record_of acc).
Proof.
  intros [Hp HP HR HS HF].
  assert (schema_loc h0 < List.length h)%nat as L0
      by (eapply lookup_lt_Some; exact HS).
  unfold Fragment.record_of. eapply repr_obj; [|exact HS|].
  { unfold fresh, schema_loc in *. lia. }
  constructor; [split; [reflexivity|constructor]|].
  constructor; [split; [reflexivity|]|].
  { cbn. eapply repr_obj; [|exact HP|].
    - unfold fresh, schema_loc, properties_loc in *. lia.
    - eapply Forall2_impl; [exact HF|]. cbn. intros kv kj [Hk Hv].
      split; [assumption|]. eapply repr_mono; [exact Hv|].
      unfold inside, fresh, schema_loc, properties_loc. intros l Hl. lia. }
  constructor; [split; [reflexivity|]|constructor].
  cbn. eapply repr_arr; [|exact HR|apply repr_strings].
  unfold fresh, schema_loc, required_loc in *. lia.
Qed.

End RecordRule.

Section RecordDenotes.
Context {caller : Caller}.
Import MethodOps Converter.
Variable self : instance.

Lemma record_inv_init h :
  record_inv h (h ++ [Obj []; Arr []; schema_object h]) [] ([], []).
Proof.
  split; cbn [fst snd List.map].
  - apply prefix_app_r. reflexivity.
  - unfold properties_loc. apply list_lookup_middle. reflexivity.
  - unfold required_loc. rewrite lookup_app_r by lia.
    replace (S (List.length h) - List.length h)%nat with 1%nat by lia.
    reflexivity.
  - unfold schema_loc. rewrite lookup_app_r by lia.
    replace (S (S (List.length h)) - List.length h)%nat with 2%nat by lia.
    reflexivity.
  - constructor.
Qed.

Lemma convertRecord_allocs fields h :
  convertRecord call (Some fields) {| this := self; store := h |}
  = bind (forEach (convertRecord_field call (VRef (schema_loc h))) fields)
      (fun _ => ret (VRef (schema_loc h)))
      {| this := self; store := h ++ [Obj []; Arr []; schema_object h] |}.
Proof.
  unfold convertRecord.
  erewrite mbind_ok by apply run_alloc.
  erewrite mbind_ok by apply run_alloc.
  erewrite mbind_ok by apply run_alloc.
  rewrite !length_app. cbn [List.length].
  replace (List.length h + 1)%nat with (S (List.length h)) by lia.
  replace (S (List.length h) + 1)%nat with (S (S (List.length h))) by lia.
  rewrite <- !app_assoc. reflexivity.
Qed.

(** A record yields the fragment assembled from those of its fields. *)
Lemma convertRecord_denotes fields ds :
  Forall2 (fun f d => denotes self (convertType (field_type f)) d) fields ds ->
  denotes self (convertRecord call (Some fields)) (Fragment.record fields ds).
Proof.
  intros HF h. rewrite convertRecord_allocs.
  destruct (forEach_fields_run self h fields ds HF _ _ _ (record_inv_init h))
    as (r & h' & Hrun & Hpost).
  unfold Fragment.record.
  destruct (Fragment.record_fold fields ds ([], [])) as [acc|e|];
    cbn [Fragment.then_]; cbn [step_post] in Hpost.
  - destruct Hpost as [-> [P Hinv]].
    exists (Ok (VRef (schema_loc h))), h'.
    erewrite mbind_ok by exact Hrun.
    split; [reflexivity|]. split; [apply Hinv|].
    cbn. apply (record_inv_repr h h' P acc Hinv).
  - destruct Hpost as [-> Hp]. exists (Throw e), h'.
    erewrite mbind_throw by exact Hrun. cbn. auto.
  - destruct Hpost as [-> Hp]. exists OutOfModel, h'.
    erewrite mbind_out by exact Hrun. cbn. auto.
Qed.

Lemma convertType_record fields s :
  convertType (RecordType fields) s = convertRecord call (Some fields) s.
Proof. destruct s. rewrite convertType_run. reflexivity. Qed.

End RecordDenotes.

Section Conversion.
Context {caller : Caller}.
Import MethodOps Converter.
Variable self : instance.

Lemma get_own_In {V} (ps : list (string * V)) k v :
  get_own ps k = Some v -> exists k', In (k', v) ps.
Proof.
  induction ps as [|[k0 v0] ps IH]; cbn; [discriminate|].
  destruct (String.eqb k0 k).
  - intros [= ->]. eauto.
  - intros Hk. destruct (IH Hk) as [k' Hin]. eauto.
Qed.

Lemma denotes_unresolved type :
  match resolved self type with
  | Ok _ => True
  | Throw e => denotes self (convertType type) (Throw e)
  | OutOfModel => denotes self (convertType type) OutOfModel
  end.
Proof.
  destruct (resolved self type) eqn:Hres; [exact I| |]; intros h.
  - exists (Throw e), h. rewrite convertType_run, Hres.
    split; [reflexivity|]. split; reflexivity.
  - exists OutOfModel, h. rewrite convertType_run, Hres.
    split; [reflexivity|]. split; [reflexivity|exact I].
Qed.

Lemma denotes_enum symbols :
  denotes self (convertType (EnumType symbols))
    (Ok (JObj [("type", JStr "string");
               ("enum", JArr (List.map JStr symbols))])).
Proof.
  intros h.
  exists (Ok (VRef (S (List.length h)))),
    (h ++ [Arr (List.map VStr symbols);
           Obj [("type", VStr "string"); ("enum", VRef (List.length h))]]).
  rewrite convertType_run.
  change (resolved self (EnumType symbols))
    with (Ok (A := bound_function) (BoundMethod m_convertEnum)).
  cbv iota.
  change (call (BoundMethod m_convertEnum) (EnumType symbols))
    with (convertEnum symbols).
  unfold convertEnum.
  erewrite mbind_ok by apply run_alloc. rewrite run_alloc.
  rewrite length_app. cbn [List.length].
  replace (List.length h + 1)%nat with (S (List.length h)) by lia.
  rewrite <- app_assoc. split; [reflexivity|].
  split; [apply prefix_app_r; reflexivity|].
  cbn [agrees]. eapply repr_obj.
  - unfold fresh. rewrite length_app. cbn. lia.
  - rewrite lookup_app_r by lia.
    replace (S (List.length h) - List.length h)%nat with 1%nat by lia.
    reflexivity.
  - constructor; [split; [reflexivity|constructor]|].
    constructor; [split; [reflexivity|]|constructor].
    cbn. eapply repr_arr; [| |apply repr_strings].
    + unfold fresh. rewrite length_app. cbn. lia.
    + apply list_lookup_middle. reflexivity.
Qed.

End Conversion.

Section KindConverters.
Context {caller : Caller}.
Import MethodOps Converter.
Variable self : instance.

Ltac flat_object :=
  eapply denotes_flat; [reflexivity|reflexivity|];
  repeat (constructor; [split; [reflexivity|intros; constructor]|]);
  constructor.

Lemma denotes_null :
  denotes self (convertType NullType) (Ok (type_fragment "null")).
Proof. flat_object. Qed.

Lemma denotes_boolean :
  denotes self (convertType BooleanType) (Ok (type_fragment "boolean")).
Proof. flat_object. Qed.

Lemma denotes_string :
  denotes self (convertType StringType) (Ok (type_fragment "string")).
Proof. flat_object. Qed.

Lemma denotes_float :
  denotes self (convertType FloatType) (Ok (type_fragment "number")).
Proof. flat_object. Qed.

Lemma denotes_double :
  denotes self (convertType DoubleType) (Ok (type_fragment "number")).
Proof. flat_object. Qed.

Lemma denotes_int :
  denotes self (convertType IntType)
    (Ok (integer_fragment (neg (pow 2%float 31)) (sub (pow 2%float 31) 1%float))).
Proof. flat_object. Qed.

Lemma denotes_long :
  denotes self (convertType LongType)
    (Ok (integer_fragment (neg (pow 2%float 63)) (sub (pow 2%float 63) 1%float))).
Proof. flat_object. Qed.

Lemma denotes_bytes :
  denotes self (convertType BytesType) (Ok (buffer_fragment [])).
Proof. flat_object. Qed.

Lemma denotes_fixed size :
  denotes self (convertType (FixedType size))
    (Ok (buffer_fragment [("maxLength", JNum size); ("minLength", JNum size)])).
Proof. flat_object. Qed.

Lemma denotes_map valuesType :
  denotes self (convertType (MapType valuesType)) (Throw TypeError).
Proof. exact (denotes_unresolved self (MapType valuesType)). Qed.

Lemma Forall_exists_Forall2 {A B} (R : A -> B -> Prop) xs :
  Forall (fun x => exists y, R x y) xs -> exists ys, Forall2 R xs ys.
Proof.
  induction 1 as [|x xs [y Hy] _ [ys Hys]].
  - exists []. constructor.
  - exists (y :: ys). constructor; assumption.
Qed.


End KindConverters.

(** ** Computations that leave the instance alone *)

Section PreservesThis.
Context {caller : Caller}.
Import MethodOps Converter.

Lemma preserves_ret {A} (a : A) : preserves_this (ret a).
Proof. intros s. reflexivity. Qed.

Lemma preserves_throw {A} e : preserves_this (throw (A := A) e).
Proof. intros s. reflexivity. Qed.

Lemma preserves_out {A} : preserves_this (out_of_model (A := A)).
Proof. intros s. reflexivity. Qed.

Lemma preserves_lift {A} (c : H A) : preserves_this (lift c).
Proof. intros s. unfold lift. destruct (c (store s)). reflexivity. Qed.

Lemma preserves_bind {A B} (m : M A) (k : A -> M B) :
  preserves_this m -> (forall a, preserves_this (k a)) -> preserves_this (bind m k).
Proof.
  intros Hm Hk s. unfold bind. specialize (Hm s).
  destruct (m s) as [[a|e|] s']; cbn in *; [|assumption|assumption].
  rewrite Hk. assumption.
Qed.

Lemma preserves_resolveConverter type : preserves_this (resolveConverter type).
Proof. intros [i h]. rewrite resolveConverter_run. reflexivity. Qed.

Lemma preserves_forEach {A} (f : A -> M unit) xs :
  Forall (fun x => preserves_this (f x)) xs -> preserves_this (forEach f xs).
Proof.
  induction 1 as [|x xs Hx _ IH]; [apply preserves_ret|].
  rewrite forEach_cons. apply preserves_bind; [assumption|]. intros _. exact IH.
Qed.

Lemma preserves_map {A B} (f : A -> M B) xs :
  Forall (fun x => preserves_this (f x)) xs -> preserves_this (MethodOps.map f xs).
Proof.
  induction 1 as [|x xs Hx _ IH]; [apply preserves_ret|].
  rewrite map_cons. apply preserves_bind; [assumption|]. intros y.
  apply preserves_bind; [exact IH|]. intros ys. apply preserves_ret.
Qed.

Lemma preserves_defaultValue f : preserves_this (defaultValue f).
Proof.
  unfold defaultValue. destruct (field_default f);
    [apply preserves_lift|apply preserves_ret].
Qed.

Ltac preserve :=
  repeat first
    [ apply preserves_ret | apply preserves_throw | apply preserves_out
    | apply preserves_lift | apply preserves_resolveConverter
    | apply preserves_defaultValue
    | apply preserves_bind; [|intros ?] ].

End PreservesThis.

(** ** The methods of the class never assign to the instance

    A conversion ends on the instance it started on whenever the
    registry entries that it calls do. *)

Section PreservesAt.
Context {caller : Caller}.
Import MethodOps Converter.
Variable self : instance.

Lemma preserves_at_this {A} (m : M A) : preserves_this m -> preserves_at self m.
Proof. intros Hm h. apply (Hm {| this := self; store := h |}). Qed.

Lemma preserves_at_bind {A B} (m : M A) (k : A -> M B) :
  preserves_at self m -> (forall a, preserves_at self (k a)) ->
  preserves_at self (bind m k).
Proof.
  intros Hm Hk h. unfold bind. specialize (Hm h).
  destruct (m {| this := self; store := h |}) as [[a|e|] [self' h']];
    cbn in *; subst; [apply Hk|reflexivity|reflexivity].
Qed.

Lemma preserves_at_forEach {A} (f : A -> M unit) xs :
  Forall (fun x => preserves_at self (f x)) xs -> preserves_at self (forEach f xs).
Proof.
  induction 1 as [|x xs Hx _ IH]; [apply preserves_at_this, preserves_ret|].
  rewrite forEach_cons. apply preserves_at_bind; [assumption|]. intros _. exact IH.
Qed.

Lemma preserves_at_map {A B} (f : A -> M B) xs :
  Forall (fun x => preserves_at self (f x)) xs ->
  preserves_at self (MethodOps.map f xs).
Proof.
  induction 1 as [|x xs Hx _ IH]; [apply preserves_at_this, preserves_ret|].
  rewrite map_cons. apply preserves_at_bind; [assumption|]. intros y.
  apply preserves_at_bind; [exact IH|]. intros ys.
  apply preserves_at_this, preserves_ret.
Qed.

Lemma denotes_preserves_at m d : denotes self m d -> preserves_at self m.
Proof.
  intros Hd h. destruct (Hd h) as (r & h' & Hrun & _). rewrite Hrun. reflexivity.
Qed.

Lemma preserves_at_ext {A} (m m' : M A) :
  (forall s, m s = m' s) -> preserves_at self m' -> preserves_at self m.
Proof. intros He Hm h. rewrite He. apply Hm. Qed.

Ltac preserve_at :=
  repeat first
    [ assumption
    | apply preserves_at_this;
      first [ apply preserves_ret | apply preserves_throw | apply preserves_out
            | apply preserves_lift | apply preserves_defaultValue ]
    | apply preserves_at_bind; [|intros ?] ].

(** A round of the record loop ends on the instance when the conversion
    of the field's type does. *)
Lemma preserves_at_convertRecord_field schema f :
  preserves_at self (convertType (field_type f)) ->
  preserves_at self (convertRecord_field call schema f).
Proof.
  intros IH h. unfold convertRecord_field. rewrite bind_resolveConverter.
  destruct (resolved self (field_type f)) as [b| |] eqn:Hres;
    [|reflexivity|reflexivity].
  assert (preserves_at self (call b (field_type f))) as Hcall.
  { intros h'. specialize (IH h'). rewrite convertType_run, Hres in IH.
    exact IH. }
  revert h.
  match goal with
  | |- forall h, this (snd (?m _)) = _ => change (preserves_at self m)
  end.
  unfold get_prop, set_prop, push. preserve_at.
  match goal with
  | |- preserves_at _ (match ?d with _ => _ end) => destruct d
  end; preserve_at.
Qed.

(** No method of the class assigns to the instance: a conversion ends on
    the instance it started on when the entries of the registry leave the
    instance alone. *)
Lemma convertType_preserves_at :
  quiet_registry self -> forall type, preserves_at self (convertType type).
Proof.
  intros Hquiet type.
  induction type as [ | | | | | | | | size | symbols | itemsType IH
                    | valuesType IH | fields IH | types IH | types IH
                    | typeName underlying IH ] using node_induction.
  - eapply denotes_preserves_at, denotes_null.
  - eapply denotes_preserves_at, denotes_boolean.
  - eapply denotes_preserves_at, denotes_int.
  - eapply denotes_preserves_at, denotes_long.
  - eapply denotes_preserves_at, denotes_float.
  - eapply denotes_preserves_at, denotes_double.
  - eapply denotes_preserves_at, denotes_string.
  - eapply denotes_preserves_at, denotes_bytes.
  - eapply denotes_preserves_at, denotes_fixed.
  - eapply denotes_preserves_at, denotes_enum.
  - eapply preserves_at_ext; [apply convertType_array|].
    unfold alloc. preserve_at.
  - eapply denotes_preserves_at, denotes_map.
  - eapply preserves_at_ext; [apply convertType_record|].
    unfold convertRecord, alloc. preserve_at.
    apply preserves_at_forEach. eapply Forall_impl; [exact IH|].
    intros f Hf. apply preserves_at_convertRecord_field. exact Hf.
  - eapply preserves_at_ext;
      [intros s; rewrite convertType_unwrapped, convertUnion_eq; reflexivity|].
    unfold alloc. preserve_at. apply preserves_at_map. exact IH.
  - eapply preserves_at_ext;
      [intros s; rewrite convertType_wrapped, convertUnion_eq; reflexivity|].
    unfold alloc. preserve_at. apply preserves_at_map. exact IH.
  - intros h. rewrite convertType_run, resolved_logical.
    destruct (get_own (logicalTypeConvertors self) (logical_key typeName))
      as [c|] eqn:Hk.
    + rewrite call_entry. apply get_own_In in Hk as [k' Hin].
      unfold quiet_registry in Hquiet. rewrite List.Forall_forall in Hquiet.
      apply (Hquiet _ Hin).
    + destruct (inherited (logical_key typeName)); reflexivity.
Qed.

(** Closed entries leave the instance alone. *)
Lemma closed_registry_quiet :
  Forall (fun kc => exists body, snd kc = Closed body) (logicalTypeConvertors self) ->
  quiet_registry self.
Proof.
  unfold quiet_registry. intros Hclosed.
  eapply Forall_impl; [exact Hclosed|]. intros [k c] [body Hc] type.
  cbn [snd] in *. subst c. apply preserves_at_this, preserves_lift.
Qed.

End PreservesAt.

(** ** Records whose fields all convert to objects *)

Lemma record_fold_objects fields js props req :
  ordinary_names fields ->
  List.length fields = List.length js ->
  Fragment.record_fold fields (List.map (fun j => Ok (JObj j)) js) (props, req)
  = Ok (record_properties fields js props,
        req ++ List.flat_map field_required fields).
Proof.
  intros Hord. revert js props req.
  induction Hord as [|f fields Hf _ IH]; intros [|j js] props req Hlen;
    cbn in Hlen; try discriminate.
  - cbn. rewrite List.app_nil_r. reflexivity.
  - cbn [List.map Fragment.record_fold record_properties List.flat_map].
    unfold Fragment.field_step. cbn [Fragment.then_ fst snd].
    rewrite Hf. unfold field_fragment, field_required.
    destruct (field_default f) as [d|];
      cbn [Fragment.attach_default Fragment.then_];
      rewrite IH by lia.
    + reflexivity.
    + rewrite <- List.app_assoc. reflexivity.
Qed.

Lemma record_properties_other fields js props name :
  ~ In name (List.map field_name fields) ->
  get_own (record_properties fields js props) name = get_own props name.
Proof.
  revert js props. induction fields as [|f fields IH]; intros js props Hn;
    [reflexivity|].
  destruct js as [|j js]; [reflexivity|]. cbn in Hn. cbn [record_properties].
  rewrite IH by tauto. apply get_own_set_own_ne. tauto.
Qed.

Lemma record_properties_lookup fields js props i f j :
  NoDup (List.map field_name fields) ->
  fields !! i = Some f -> js !! i = Some j ->
  get_own (record_properties fields js props) (field_name f)
  = Some (field_fragment f j).
Proof.
  revert js props i. induction fields as [|f0 fields IH];
    intros js props i Hnd Hf Hj; [discriminate|].
  destruct js as [|j0 js]; [discriminate|].
  cbn in Hnd. apply NoDup_cons in Hnd as [Hnotin Hnd].
  rewrite list_elem_of_In in Hnotin.
  destruct i as [|i]; cbn in Hf, Hj; cbn [record_properties].
  - injection Hf as ->. injection Hj as ->.
    rewrite record_properties_other by assumption.
    apply get_own_set_own_eq.
  - eapply IH; eassumption.
Qed.

Lemma field_required_In fields name :
  In name (List.flat_map field_required fields) <->
  exists i f, fields !! i = Some f /\ field_name f = name /\ field_default f = None.
Proof.
  induction fields as [|f0 fields IH]; cbn.
  - split; [contradiction|]. intros (i & f & Hf & _). discriminate.
  - rewrite List.in_app_iff, IH. unfold field_required. split.
    + intros [Hin|(i & f & Hf & Hn & Hd)].
      * destruct (field_default f0) eqn:Hd; [contradiction|].
        destruct Hin as [<-|[]]. exists 0%nat, f0. auto.
      * exists (S i), f. auto.
    + intros ([|i] & f & Hf & Hn & Hd); cbn in Hf.
      * injection Hf as ->. rewrite Hd. left. left. assumption.
      * right. eauto.
Qed.

Lemma NoDup_map_lookup {A B} (g : A -> B) (l : list A) i i' x y :
  NoDup (List.map g l) ->
  l !! i = Some x -> l !! i' = Some y -> g x = g y -> i = i'.
Proof.
  revert i i'. induction l as [|a l IH]; intros i i' Hnd Hx Hy Hg;
    [discriminate|].
  cbn in Hnd. apply NoDup_cons in Hnd as [Hnotin Hnd].
  rewrite list_elem_of_In in Hnotin.
  destruct i as [|i], i' as [|i']; cbn in Hx, Hy.
  - reflexivity.
  - injection Hx as ->. exfalso. apply Hnotin. rewrite Hg.
    apply List.in_map. apply list_elem_of_In. eapply list_elem_of_lookup_2.
    exact Hy.
  - injection Hy as ->. exfalso. apply Hnotin. rewrite <- Hg.
    apply List.in_map. apply list_elem_of_In. eapply list_elem_of_lookup_2.
    exact Hx.
  - f_equal. eapply IH; eassumption.
Qed.

(** With distinct names, a name is required exactly when its field has no
    default. *)
Lemma field_required_iff fields i f :
  NoDup (List.map field_name fields) ->
  fields !! i = Some f ->
  In (field_name f) (List.flat_map field_required fields)
  <-> field_default f = None.
Proof.
  intros Hnd Hf. rewrite field_required_In. split.
  - intros (i' & f' & Hf' & Hn & Hd).
    assert (i' = i) as -> by (eapply NoDup_map_lookup; eassumption).
    congruence.
  - intros Hd. eauto.
Qed.

Lemma all_ok_Ok js : Fragment.all_ok (List.map Ok js) = Ok js.
Proof.
  induction js as [|j js IH]; [reflexivity|].
  cbn. rewrite IH. reflexivity.
Qed.

(** ** [Object.assign]: the last source that has a key decides it *)

Lemma get_own_notin {V} (ps : list (string * V)) k :
  ~ In k (List.map fst ps) -> get_own ps k = None.
Proof.
  induction ps as [|[k0 v0] ps IH]; cbn; [reflexivity|]. intros Hn.
  destruct (String.eqb k0 k) eqn:E.
  - apply String.eqb_eq in E. tauto.
  - apply IH. tauto.
Qed.

Lemma get_own_assign {V} (target source : list (string * V)) k :
  NoDup (List.map fst source) ->
  get_own (assign target source) k
  = match get_own source k with
    | Some v => Some v
    | None => get_own target k
    end.
Proof.
  unfold assign. revert target.
  induction source as [|[k0 v0] source IH]; intros target Hnd; [reflexivity|].
  cbn in Hnd. apply NoDup_cons in Hnd as [Hnotin Hnd].
  rewrite list_elem_of_In in Hnotin.
  cbn [fold_left fst snd get_own]. rewrite IH by assumption.
  destruct (String.eqb k0 k) eqn:E.
  - apply String.eqb_eq in E. subst k0.
    rewrite get_own_notin by assumption. apply get_own_set_own_eq.
  - destruct (get_own source k); [reflexivity|].
    apply get_own_set_own_ne. intros ->. rewrite String.eqb_refl in E.
    discriminate.
Qed.

(** ** The converter with the built-in registry only *)

Lemma builds_alloc_flat props jps :
  flat props jps -> builds (HeapOps.alloc (Obj props)) (Ok (JObj jps)).
Proof.
  intros Hflat h. exists (Ok (VRef (List.length h))), (h ++ [Obj props]).
  split; [reflexivity|]. split; [apply prefix_alloc|].
  cbn. apply repr_new_obj; [reflexivity|].
  eapply Forall2_impl; [exact Hflat|]. cbn. intros kv kj [Hk Hr]. auto.
Qed.

Lemma builtin_convertors :
  logicalTypeConvertors builtin_instance = Converter.defaultLogicalTypes.
Proof. reflexivity. Qed.

(** What the built-in logical converters build, on any instance. *)
Lemma builtin_entries_build {caller : Caller} (self : instance) (type : node) :
  denotes self (Converter.bound_call Converter.decimal type)
    (Ok (JObj [("type", JStr "number")])) /\
  denotes self (Converter.bound_call Converter.date type)
    (Ok (JObj [("type", JStr "integer");
               ("minimum", JNum 1%float);
               ("maximum", JNum (sub (pow 2%float 63) 1%float))])) /\
  denotes self (Converter.bound_call Converter.timestampMillis type)
    (Ok (JObj [("type", JStr "integer");
               ("minimum", JNum 1%float);
               ("maximum", JNum (sub (pow 2%float 63) 1%float))])).
Proof.
  repeat split; apply denotes_closed, builds_alloc_flat;
    repeat (constructor; [split; [reflexivity|intros; constructor]|]);
    constructor.
Qed.


(** ** The examples of the documentation, run on the embedding *)

Example record_of_one_int {caller : Caller} :
  observe 3
    (Converter.convertType (RecordType [Field "x" IntType None]) builtin_state)
  = Ok (Some (JObj [("type", JStr "object");
                    ("properties",
                     JObj [("x", JObj [("type", JStr "integer");
                                       ("minimum", JNum (-2147483648)%float);
                                       ("maximum", JNum 2147483647%float)])]);
                    ("required", JArr [JStr "x"])])).
Proof. vm_compute. reflexivity. Qed.

Example enum_of_two_symbols {caller : Caller} :
  observe 2 (Converter.convertType (EnumType ["A"; "B"]) builtin_state)
  = Ok (Some (JObj [("type", JStr "string");
                    ("enum", JArr [JStr "A"; JStr "B"])])).
Proof. vm_compute. reflexivity. Qed.

Example array_of_strings {caller : Caller} :
  observe 2 (Converter.convertType (ArrayType StringType) builtin_state)
  = Ok (Some (JObj [("type", JStr "array");
                    ("items", JObj [("type", JStr "string")])])).
Proof. vm_compute. reflexivity. Qed.

Example fixed_of_size_16 {caller : Caller} :
  observe 1 (Converter.convertType (FixedType 16%float) builtin_state)
  = Ok (Some (JObj [("type", JStr "string");
                    ("pattern", JStr Converter.pattern);
                    ("maxLength", JNum 16%float);
                    ("minLength", JNum 16%float)])).
Proof. vm_compute. reflexivity. Qed.

Example int_field_with_default_zero {caller : Caller} :
  observe 3
    (Converter.convertType
       (RecordType [Field "n" IntType (Some (JNum 0%float))]) builtin_state)
  = Ok (Some (JObj [("type", JStr "object");
                    ("properties",
                     JObj [("n", JObj [("type", JStr "integer");
                                       ("minimum", JNum (-2147483648)%float);
                                       ("maximum", JNum 2147483647%float);
                                       ("default", JNum 0%float)])]);
                    ("required", JArr [])])).
Proof. vm_compute. reflexivity. Qed.

Example timestamp_array_in_union {caller : Caller} :
  observe 4
    (Converter.convertType
       (UnwrappedUnionType
          [NullType; ArrayType (LogicalType "logical:timestamp-millis" LongType)])
       builtin_state)
  = Ok (Some (JObj [("oneOf",
                     JArr [JObj [("type", JStr "null")];
                           JObj [("type", JStr "array");
                                 ("items",
                                  JObj [("type", JStr "integer");
                                        ("minimum", JNum 1%float);
                                        ("maximum",
                                         JNum 9223372036854775808%float)])]])])).
Proof. vm_compute. reflexivity. Qed.

(** * The claims *)

(** ** Integer bounds *)

Lemma convertInt_bounds_exact {caller : Caller} (self : instance) :
  denotes self (Converter.convertType IntType)
    (Ok (JObj [("type", JStr "integer");
               ("minimum", JNum (neg (pow 2%float 31)));
               ("maximum", JNum (sub (pow 2%float 31) 1%float))])) /\
  to_Z (neg (pow 2%float 31)) = Some (- 2 ^ 31)%Z /\
  to_Z (sub (pow 2%float 31) 1%float) = Some (2 ^ 31 - 1)%Z.
Proof.
  split; [apply denotes_int|]. split; vm_compute; reflexivity.
Qed.

(** C1 (code at the failing input).  Every Long node converts to
    [{type: "integer", minimum, maximum}] where [minimum] is [-(2 ** 63)],
    exactly -2^63, but [maximum] is the binary64 value of [2 ** 63 - 1]:
    the subtraction rounds back to [2 ** 63], so the emitted maximum is
    2^63 and not 2^63 - 1. *)
Theorem convertLong_maximum_is_rounded {caller : Caller} (self : instance) :
  denotes self (Converter.convertType LongType)
    (Ok (JObj [("type", JStr "integer");
               ("minimum", JNum (neg (pow 2%float 63)));
               ("maximum", JNum (sub (pow 2%float 63) 1%float))])) /\
  to_Z (neg (pow 2%float 63)) = Some (- 2 ^ 63)%Z /\
  sub (pow 2%float 63) 1%float = pow 2%float 63 /\
  to_Z (sub (pow 2%float 63) 1%float) = Some (2 ^ 63)%Z /\
  to_Z (sub (pow 2%float 63) 1%float) <> Some (2 ^ 63 - 1)%Z.
Proof.
  split; [apply denotes_long|].
  split; [vm_compute; reflexivity|].
  split; [vm_compute; reflexivity|].
  split; [vm_compute; reflexivity|].
  vm_compute. discriminate.
Qed.

(** ** Byte blobs *)

(** C6.  A Bytes node converts to exactly
    [{type: "string", pattern}], where [pattern] is the eight characters
    ^ [ U+0000 - U+00FF ] * $ of the source's literal, with no length
    bound; a Fixed node of size [size] converts to the same two
    properties followed by [maxLength] and [minLength], both [size]. *)
Theorem buffer_fragments {caller : Caller} (self : instance) (size : number) :
  denotes self (Converter.convertType BytesType)
    (Ok (JObj [("type", JStr "string");
               ("pattern", JStr Converter.pattern)])) /\
  denotes self (Converter.convertType (FixedType size))
    (Ok (JObj [("type", JStr "string");
               ("pattern", JStr Converter.pattern);
               ("maxLength", JNum size);
               ("minLength", JNum size)])) /\
  List.map nat_of_ascii (list_ascii_of_string Converter.pattern)
  = [94; 91; 0; 45; 255; 93; 42; 36]%nat.
Proof.
  split; [apply denotes_bytes|]. split; [apply denotes_fixed|].
  vm_compute. reflexivity.
Qed.

(** ** Names with a single colon *)

Lemma split_colon_free s : colon_free s = true -> split ":"%char s = [s].
Proof.
  induction s as [|c s IH]; cbn; [reflexivity|].
  destruct (Ascii.eqb c ":"%char); cbn; [discriminate|].
  intros Hs. rewrite IH by assumption. reflexivity.
Qed.

Lemma split_segment a rest :
  colon_free a = true ->
  split ":"%char (String.append a (String ":"%char rest))
  = a :: split ":"%char rest.
Proof.
  induction a as [|c a IH]; intros Ha.
  - reflexivity.
  - simpl in *. destruct (Ascii.eqb c ":"%char); simpl in *; [discriminate|].
    rewrite IH by assumption. reflexivity.
Qed.

(** On a [typeName] with a single colon the key is the text after it. *)
Lemma logical_key_single_colon namespace name :
  colon_free namespace = true -> colon_free name = true ->
  Converter.logical_key (String.append namespace (String ":"%char name)) = name.
Proof.
  intros Hn Hm. unfold Converter.logical_key.
  rewrite split_segment, split_colon_free by assumption. reflexivity.
Qed.

(** ** Failures of the dispatch *)

(** C2, as stated, fails: with the built-in registry, a Logical node
    named [uuid] makes the call fail with a [TypeError], not with
    [UnknownLogicalTypeError]. *)
Lemma unknown_logical_type_is_not_UnknownLogicalTypeError :
  get_own (logicalTypeConvertors builtin_instance) "uuid" = None /\
  fst (Converter.convertType (caller := no_callbacks)
         (LogicalType "logical:uuid" StringType) builtin_state)
  = Throw TypeError /\
  fst (Converter.convertType (caller := no_callbacks)
         (LogicalType "logical:uuid" StringType) builtin_state)
  <> Throw UnknownLogicalTypeError.
Proof.
  split; [reflexivity|]. split; [reflexivity|]. vm_compute. discriminate.
Qed.

(** C2 (amended).  For a Logical node whose [typeName] is a prefix
    without a colon, a colon and a name without a colon: when the name
    is neither an entry of the registry nor a property inherited from
    [Object.prototype], the call fails with a [TypeError]; nothing is
    allocated and no fragment is returned. *)
Theorem unknown_logical_type_throws_TypeError {caller : Caller}
    (self : instance) (namespace name : string) (underlying : node)
    (h : heap) :
  colon_free namespace = true ->
  colon_free name = true ->
  get_own (logicalTypeConvertors self) name = None ->
  inherited name = false ->
  Converter.convertType
    (LogicalType (String.append namespace (String ":"%char name)) underlying)
    {| this := self; store := h |}
  = (Throw TypeError, {| this := self; store := h |}).
Proof.
  intros Hns Hname Hk Hi.
  rewrite convertType_run, resolved_logical,
    (logical_key_single_colon namespace name Hns Hname), Hk, Hi.
  reflexivity.
Qed.

Lemma unknown_logical_type_throws_TypeError_witness :
  colon_free "logical" = true /\
  colon_free "uuid" = true /\
  get_own (logicalTypeConvertors builtin_instance) "uuid" = None /\
  inherited "uuid" = false /\
  Converter.convertType (caller := no_callbacks)
    (LogicalType "logical:uuid" StringType)
    {| this := builtin_instance; store := [] |}
  = (Throw TypeError, {| this := builtin_instance; store := [] |}).
Proof.
  repeat (split; [reflexivity|]).
  apply (unknown_logical_type_throws_TypeError (caller := no_callbacks)
           builtin_instance "logical" "uuid" StringType []); reflexivity.
Defined.

(** C3, as stated, fails: a Map node makes the dispatch fail with a
    [TypeError], not with [UnsupportedTypeError]. *)
Lemma map_type_is_not_UnsupportedTypeError :
  fst (Converter.convertType (caller := no_callbacks) (MapType IntType)
         builtin_state)
  = Throw TypeError /\
  fst (Converter.convertType (caller := no_callbacks) (MapType IntType)
         builtin_state)
  <> Throw UnsupportedTypeError.
Proof. split; [reflexivity|]. vm_compute. discriminate. Qed.

(** C3 (amended).  A node that is not Logical and whose class has no
    [convert<Kind>] method is a Map node, and the dispatch on it fails
    with a [TypeError]; nothing is allocated and no fragment is returned. *)
Theorem unsupported_type_throws_TypeError {caller : Caller}
    (self : instance) (type : node) (h : heap) :
  instanceof_LogicalType type = false ->
  get_own Converter.methods (Converter.fnName (constructor_name type)) = None ->
  (exists valuesType, type = MapType valuesType) /\
  Converter.convertType type {| this := self; store := h |}
  = (Throw TypeError, {| this := self; store := h |}).
Proof.
  intros Hl Hm.
  destruct type; try discriminate Hl; try (vm_compute in Hm; discriminate Hm).
  split; [eauto|]. rewrite convertType_run. reflexivity.
Qed.

Lemma unsupported_type_throws_TypeError_witness :
  instanceof_LogicalType (MapType IntType) = false /\
  get_own Converter.methods
    (Converter.fnName (constructor_name (MapType IntType))) = None /\
  (exists valuesType, MapType IntType = MapType valuesType) /\
  Converter.convertType (caller := no_callbacks) (MapType IntType)
    {| this := builtin_instance; store := [] |}
  = (Throw TypeError, {| this := builtin_instance; store := [] |}).
Proof.
  split; [reflexivity|]. split; [reflexivity|].
  apply (unsupported_type_throws_TypeError (caller := no_callbacks)
           builtin_instance (MapType IntType) []);
    reflexivity.
Defined.

(** ** The name under which a logical type is looked up *)

(** With more colons the key is the text between the first two. *)
Lemma logical_key_second_segment namespace name rest :
  colon_free namespace = true -> colon_free name = true ->
  Converter.logical_key
    (String.append namespace
       (String ":"%char (String.append name (String ":"%char rest))))
  = name.
Proof.
  intros Hn Hm. unfold Converter.logical_key.
  rewrite !split_segment by assumption. reflexivity.
Qed.

(** C8 (code at the failing input).  A converter registered under the
    name [a:b] is in the registry, and a marker class is registered for
    that name; avsc names the node [logical:a:b]; the key looked up for it
    is [a], the text between the first two colons, not the remainder
    [a:b], and the call fails with a [TypeError] instead of applying the
    registered converter. *)
Theorem logical_key_stops_at_second_colon {caller : Caller} :
  Converter.logical_key "logical:a:b" = "a" /\
  fst (Converter.new (Some (Converter.Options (Some [("a:b", money)]))) [])
  = Ok tt /\
  logicalTypeFakeClasses
    (this (snd (Converter.new
                  (Some (Converter.Options (Some [("a:b", money)]))) [])))
  = ["decimal"; "date"; "timestamp-millis"; "a:b"] /\
  get_own
    (logicalTypeConvertors
       (this (snd (Converter.new
                     (Some (Converter.Options (Some [("a:b", money)]))) []))))
    "a:b" <> None /\
  fst (Converter.convertType (LogicalType "logical:a:b" DoubleType)
         (snd (Converter.new
                 (Some (Converter.Options (Some [("a:b", money)]))) [])))
  = Throw TypeError.
Proof.
  split; [reflexivity|]. split; [reflexivity|]. split; [reflexivity|].
  split; [vm_compute; discriminate|reflexivity].
Qed.

(** ** Unions *)

(** C5.  When the members of a union convert to [js], in that order, the
    union converts to [{oneOf: js}], under either encoding; the two union
    methods are the same function of the member list, and the two
    encodings behave alike from every state. *)
Theorem union_oneOf {caller : Caller}
    (self : instance) (types : list node) (js : list json) :
  Forall2 (fun type j => denotes self (Converter.convertType type) (Ok j))
    types js ->
  denotes self (Converter.convertType (UnwrappedUnionType types))
    (Ok (JObj [("oneOf", JArr js)])) /\
  denotes self (Converter.convertType (WrappedUnionType types))
    (Ok (JObj [("oneOf", JArr js)])) /\
  Converter.convertWrappedUnion Converter.call types
  = Converter.convertUnwrappedUnion Converter.call types /\
  forall s, Converter.convertType (WrappedUnionType types) s
            = Converter.convertType (UnwrappedUnionType types) s.
Proof.
  intros Hm.
  assert (denotes self (Converter.convertUnion Converter.call types)
            (Ok (JObj [("oneOf", JArr js)]))) as Hu.
  { pose proof (convertUnion_denotes self types (List.map Ok js)) as Hd.
    unfold Fragment.union in Hd. rewrite all_ok_Ok in Hd. apply Hd.
    clear -Hm. induction Hm; constructor; assumption. }
  split; [eapply denotes_ext; [apply convertType_unwrapped|exact Hu]|].
  split; [eapply denotes_ext; [apply convertType_wrapped|exact Hu]|].
  split; [reflexivity|].
  intros s. rewrite convertType_wrapped, convertType_unwrapped. reflexivity.
Qed.

Lemma union_oneOf_witness :
  Forall2 (fun type j => denotes builtin_instance (Converter.convertType (caller := no_callbacks) type) (Ok j))
    [NullType; StringType] [type_fragment "null"; type_fragment "string"] /\
  denotes builtin_instance
    (Converter.convertType (caller := no_callbacks) (UnwrappedUnionType [NullType; StringType]))
    (Ok (JObj [("oneOf", JArr [type_fragment "null"; type_fragment "string"])])).
Proof.
  assert (Forall2
            (fun type j =>
               denotes builtin_instance (Converter.convertType (caller := no_callbacks) type) (Ok j))
            [NullType; StringType]
            [type_fragment "null"; type_fragment "string"]) as Hm.
  { constructor; [apply denotes_null|].
    constructor; [apply denotes_string|constructor]. }
  split; [exact Hm|].
  exact (proj1 (union_oneOf (caller := no_callbacks) builtin_instance [NullType; StringType]
                  [type_fragment "null"; type_fragment "string"] Hm)).
Defined.

(** ** The registry *)

Lemma new_with_logicalTypes supplied h :
  existsb (String.eqb "__proto__") (List.map fst supplied) = false ->
  Converter.new (Some (Converter.Options (Some supplied))) h
  = (Ok tt,
     {| this :=
          {| logicalTypeConvertors :=
               assign (assign [] Converter.defaultLogicalTypes) supplied;
             logicalTypeFakeClasses :=
               List.map fst
                 (assign (assign [] Converter.defaultLogicalTypes) supplied) |};
        store := h |}).
Proof.
  intros Hp. unfold Converter.new, Converter.constructor,
    Converter.setupLogicalTypes.
  cbn [Converter.logicalTypes]. rewrite Hp. reflexivity.
Qed.



(** ** Records *)

(** A record whose fields convert to objects converts to the object of
    its three properties. *)
Lemma record_objects_denotes {caller : Caller} (self : instance) fields js :
  ordinary_names fields ->
  Forall2 (fun f j => denotes self (Converter.convertType (field_type f))
                        (Ok (JObj j))) fields js ->
  denotes self (Converter.convertType (RecordType fields))
    (Ok (JObj [("type", JStr "object");
               ("properties", JObj (record_properties fields js []));
               ("required",
                JArr (List.map JStr (List.flat_map field_required fields)))])).
Proof.
  intros Hord Hc.
  eapply denotes_ext; [apply convertType_record|].
  pose proof (convertRecord_denotes self fields
                (List.map (fun j => Ok (JObj j)) js)) as Hd.
  unfold Fragment.record in Hd.
  rewrite record_fold_objects in Hd
    by (assumption || (eapply Forall2_length; eassumption)).
  apply Hd. clear -Hc. induction Hc; constructor; assumption.
Qed.

(** Fields that have a default add nothing to [required]. *)
Lemma record_fold_required fields ds acc acc' :
  Forall (fun f => field_default f <> None) fields ->
  Fragment.record_fold fields ds acc = Ok acc' ->
  snd acc' = snd acc.
Proof.
  intros Hall. revert ds acc.
  induction Hall as [|f fields Hf _ IH]; intros ds acc Hfold.
  - destruct ds; cbn in Hfold; congruence.
  - destruct ds as [|d ds]; cbn in Hfold; [congruence|].
    destruct (Fragment.field_step acc f d) as [acc1|e|] eqn:Hstep;
      cbn in Hfold; try discriminate.
    rewrite (IH ds acc1 Hfold).
    unfold Fragment.field_step in Hstep.
    destruct d as [j|e|]; cbn in Hstep; try discriminate.
    destruct (ordinary_key (field_name f)); try discriminate.
    destruct (field_default f) as [dflt|]; [|contradiction].
    destruct (Fragment.attach_default j dflt); cbn in Hstep; try discriminate.
    injection Hstep as <-. reflexivity.
Qed.

(** C9.  A record without fields converts to exactly
    [{type: "object", properties: {}, required: []}].  For a record
    whose field types each denote an outcome, the conversion denotes an
    outcome too; whenever that outcome is a fragment, the fragment is an
    object with exactly the keys [type], [properties] and [required], the
    last an array that is empty when every field has a default; and the
    outcome is a fragment when the field names are ordinary keys and the
    field types convert to objects. *)
Theorem record_keys_always_present {caller : Caller}
    (self : instance) (fields : list field) (ds : list (outcome json)) :
  Forall2 (fun f d => denotes self (Converter.convertType (field_type f)) d)
    fields ds ->
  denotes self (Converter.convertType (RecordType []))
    (Ok (JObj [("type", JStr "object");
               ("properties", JObj []);
               ("required", JArr [])])) /\
  exists d,
    denotes self (Converter.convertType (RecordType fields)) d /\
    (forall j, d = Ok j ->
               exists properties required,
                 j = JObj [("type", JStr "object");
                           ("properties", JObj properties);
                           ("required", JArr required)] /\
                 (Forall (fun f => field_default f <> None) fields ->
                  required = [])) /\
    (ordinary_names fields ->
     Forall (fun d' => exists own, d' = Ok (JObj own)) ds ->
     exists j, d = Ok j).
Proof.
  intros Hc. split.
  { apply (record_objects_denotes self [] []); constructor. }
  exists (Fragment.record fields ds). split; [|split].
  - eapply denotes_ext; [apply convertType_record|].
    apply convertRecord_denotes. exact Hc.
  - intros j Hj. unfold Fragment.record in Hj.
    destruct (Fragment.record_fold fields ds ([], [])) as [acc|e|] eqn:Hfold;
      cbn in Hj; try discriminate.
    injection Hj as <-. unfold Fragment.record_of.
    exists (fst acc), (List.map JStr (snd acc)). split; [reflexivity|].
    intros Hall. rewrite (record_fold_required _ _ _ _ Hall Hfold). reflexivity.
  - intros Hord Hobj.
    assert (exists js, ds = List.map (fun own => Ok (JObj own)) js) as [js ->].
    { clear -Hobj. induction Hobj as [|d ds [own ->] _ [js ->]].
      - exists []. reflexivity.
      - exists (own :: js). reflexivity. }
    unfold Fragment.record. rewrite record_fold_objects.
    + eexists. reflexivity.
    + exact Hord.
    + apply Forall2_length in Hc. rewrite List.length_map in Hc. exact Hc.
Qed.

Lemma record_keys_always_present_witness :
  Forall2 (fun f d => denotes builtin_instance
                        (Converter.convertType (caller := no_callbacks) (field_type f)) d)
    [Field "y" StringType (Some (JStr ""))] [Ok (type_fragment "string")] /\
  exists d,
    denotes builtin_instance
      (Converter.convertType (caller := no_callbacks)
         (RecordType [Field "y" StringType (Some (JStr ""))])) d /\
    (forall j, d = Ok j ->
               exists properties required,
                 j = JObj [("type", JStr "object");
                           ("properties", JObj properties);
                           ("required", JArr required)] /\
                 (Forall (fun f => field_default f <> None)
                    [Field "y" StringType (Some (JStr ""))] ->
                  required = [])) /\
    (ordinary_names [Field "y" StringType (Some (JStr ""))] ->
     Forall (fun d' => exists own, d' = Ok (JObj own))
       [Ok (type_fragment "string")] ->
     exists j, d = Ok j).
Proof.
  assert (Forall2
            (fun f d => denotes builtin_instance
                          (Converter.convertType (caller := no_callbacks) (field_type f)) d)
            [Field "y" StringType (Some (JStr ""))]
            [Ok (type_fragment "string")]) as Hc.
  { constructor; [apply denotes_string|constructor]. }
  split; [exact Hc|].
  exact (proj2 (record_keys_always_present (caller := no_callbacks) builtin_instance _ _ Hc)).
Defined.

(** C4, as stated, fails: the field [id] has no default and is required,
    yet [properties.id.default] is present, put there by the converter
    registered for the field's logical type. *)
Lemma default_present_without_field_default :
  field_default (Field "id" (LogicalType "logical:uuid" StringType) None) = None /\
  observe 3
    (Converter.convertType (caller := no_callbacks)
       (RecordType [Field "id" (LogicalType "logical:uuid" StringType) None])
       (snd (Converter.new
               (Some (Converter.Options (Some [("uuid", uuid)]))) [])))
  = Ok (Some (JObj [("type", JStr "object");
                    ("properties",
                     JObj [("id", JObj [("type", JStr "string");
                                        ("default", JStr "n/a")])]);
                    ("required", JArr [JStr "id"])])).
Proof. split; reflexivity. Qed.

(** C4 (amended).  For a record with distinct field names that are
    ordinary keys (not [__proto__], not made of digits only) whose field
    types convert to the objects [js]: a field's name is in [required]
    exactly when the field has no default; [properties] has under the
    field's name the field type's own fragment when the field has no
    default, and that fragment with [default] set to the field's default
    when it has one.  So [default] is there and is the field's default
    when the field has one (also [0], [false], the empty string or
    [null]), and otherwise it is there only if the field type's own
    fragment has one. *)
Theorem record_required_and_default {caller : Caller}
    (self : instance) (fields : list field) (js : list (list (string * json))) :
  NoDup (List.map field_name fields) ->
  ordinary_names fields ->
  Forall2 (fun f j => denotes self (Converter.convertType (field_type f))
                        (Ok (JObj j))) fields js ->
  exists properties required,
    denotes self (Converter.convertType (RecordType fields))
      (Ok (JObj [("type", JStr "object");
                 ("properties", JObj properties);
                 ("required", JArr (List.map JStr required))])) /\
    forall i f j,
      fields !! i = Some f -> js !! i = Some j ->
      (In (field_name f) required <-> field_default f = None) /\
      exists fragment,
        get_own properties (field_name f) = Some (JObj fragment) /\
        match field_default f with
        | Some d => fragment = set_own j "default" d /\
                    get_own fragment "default" = Some d
        | None => fragment = j
        end.
Proof.
  intros Hnd Hord Hc.
  exists (record_properties fields js []),
    (List.flat_map field_required fields).
  split; [apply record_objects_denotes; assumption|].
  intros i f j Hf Hj. split; [apply (field_required_iff fields i); assumption|].
  rewrite (record_properties_lookup fields js [] i f j) by assumption.
  unfold field_fragment. destruct (field_default f) as [d|].
  - eexists. split; [reflexivity|]. split; [reflexivity|].
    apply get_own_set_own_eq.
  - eexists. split; reflexivity.
Qed.

Lemma record_required_and_default_witness :
  NoDup (List.map field_name
           [Field "x" IntType None; Field "y" StringType (Some (JStr ""))]) /\
  ordinary_names
    [Field "x" IntType None; Field "y" StringType (Some (JStr ""))] /\
  exists properties required,
    denotes builtin_instance
      (Converter.convertType (caller := no_callbacks)
         (RecordType
            [Field "x" IntType None; Field "y" StringType (Some (JStr ""))]))
      (Ok (JObj [("type", JStr "object");
                 ("properties", JObj properties);
                 ("required", JArr (List.map JStr required))])) /\
    forall i f j,
      [Field "x" IntType None; Field "y" StringType (Some (JStr ""))] !! i
      = Some f ->
      [[("type", JStr "integer");
        ("minimum", JNum (neg (pow 2%float 31)));
        ("maximum", JNum (sub (pow 2%float 31) 1%float))];
       [("type", JStr "string")]] !! i = Some j ->
      (In (field_name f) required <-> field_default f = None) /\
      exists fragment,
        get_own properties (field_name f) = Some (JObj fragment) /\
        match field_default f with
        | Some d => fragment = set_own j "default" d /\
                    get_own fragment "default" = Some d
        | None => fragment = j
        end.
Proof.
  assert (NoDup (List.map field_name
                   [Field "x" IntType None;
                    Field "y" StringType (Some (JStr ""))])) as Hnd.
  { cbn. constructor; [|constructor; [apply not_elem_of_nil|constructor]].
    apply not_elem_of_cons. split; [discriminate|apply not_elem_of_nil]. }
  assert (ordinary_names
            [Field "x" IntType None; Field "y" StringType (Some (JStr ""))])
    as Hord.
  { constructor; [reflexivity|]. constructor; [reflexivity|constructor]. }
  split; [exact Hnd|]. split; [exact Hord|].
  apply (record_required_and_default (caller := no_callbacks) builtin_instance
           [Field "x" IntType None; Field "y" StringType (Some (JStr ""))]
           [[("type", JStr "integer");
             ("minimum", JNum (neg (pow 2%float 31)));
             ("maximum", JNum (sub (pow 2%float 31) 1%float))];
            [("type", JStr "string")]] Hnd Hord).
  constructor; [apply denotes_int|].
  constructor; [apply denotes_string|constructor].
Defined.

(** ** Determinism and absence of effects *)


Section ConvertPure.
Context {caller : Caller}.
Variable Schema : Type.
Variable forSchema : Schema -> list string -> outcome node.



End ConvertPure.


(** * Further properties of the converters *)

(** ** Kinds without parameters *)

(** X1.  On every instance and from every store, a Null, Boolean or
    String node converts to [{type: "null"}], [{type: "boolean"}] or
    [{type: "string"}], and a Float and a Double node both convert to
    [{type: "number"}]: [convertDouble] is [convertFloat].  Each fragment
    is a new object with the single key [type]. *)
Theorem primitive_kinds_have_type_only {caller : Caller} (self : instance) :
  denotes self (Converter.convertType NullType) (Ok (JObj [("type", JStr "null")])) /\
  denotes self (Converter.convertType BooleanType)
    (Ok (JObj [("type", JStr "boolean")])) /\
  denotes self (Converter.convertType StringType)
    (Ok (JObj [("type", JStr "string")])) /\
  denotes self (Converter.convertType FloatType)
    (Ok (JObj [("type", JStr "number")])) /\
  denotes self (Converter.convertType DoubleType)
    (Ok (JObj [("type", JStr "number")])) /\
  (forall s, Converter.convertType DoubleType s = Converter.convertType FloatType s).
Proof.
  repeat split.
  - apply denotes_null.
  - apply denotes_boolean.
  - apply denotes_string.
  - apply denotes_float.
  - apply denotes_double.
Qed.

(** X2.  An Int node converts to [{type: "integer", minimum, maximum}]
    whose bounds are the integers -2^31 and 2^31 - 1 exactly: neither
    [-(2 ** 31)] nor [2 ** 31 - 1] is rounded. *)
Theorem convertInt_bounds_are_32_bit {caller : Caller} (self : instance) :
  denotes self (Converter.convertType IntType)
    (Ok (JObj [("type", JStr "integer");
               ("minimum", JNum (neg (pow 2%float 31)));
               ("maximum", JNum (sub (pow 2%float 31) 1%float))])) /\
  to_Z (neg (pow 2%float 31)) = Some (-2147483648)%Z /\
  to_Z (sub (pow 2%float 31) 1%float) = Some 2147483647%Z.
Proof.
  split; [apply denotes_int|].
  split; vm_compute; reflexivity.
Qed.

(** ** Enums and arrays *)

(** X3.  An Enum node converts to [{type: "string", enum: [...]}] whose
    [enum] array holds the node's symbols, all of them, in their order
    and with their repetitions; read back from the store that the call
    leaves, the result is that tree. *)
Theorem enum_keeps_symbols_in_order {caller : Caller}
    (self : instance) (symbols : list string) (h : heap) :
  denotes self (Converter.convertType (EnumType symbols))
    (Ok (JObj [("type", JStr "string");
               ("enum", JArr (List.map JStr symbols))])) /\
  observe 2
    (Converter.convertType (EnumType symbols) {| this := self; store := h |})
  = Ok (Some (JObj [("type", JStr "string");
                    ("enum", JArr (List.map JStr symbols))])).
Proof.
  split; [apply denotes_enum|].
  pose proof (denotes_observe self _ _ h (denotes_enum self symbols))
    as (_ & _ & Hobs).
  assert (Hd : depth (JObj [("type", JStr "string");
                            ("enum", JArr (List.map JStr symbols))]) = 2%nat).
  { clear Hobs. cbn. f_equal. f_equal.
    induction symbols as [|s symbols IH]; [reflexivity|]. cbn. exact IH. }
  rewrite Hd in Hobs. exact Hobs.
Qed.

(** X4.  An Array node converts its items type first: when that yields
    the fragment [j], the array converts to [{type: "array", items: j}];
    when it fails, the array fails the same way and no fragment is
    returned. *)
Theorem array_wraps_items_or_fails_with_them {caller : Caller}
    (self : instance) (itemsType : node) (d : outcome json) :
  denotes self (Converter.convertType itemsType) d ->
  denotes self (Converter.convertType (ArrayType itemsType))
    match d with
    | Ok j => Ok (JObj [("type", JStr "array"); ("items", j)])
    | Throw e => Throw e
    | OutOfModel => OutOfModel
    end.
Proof.
  intros Hd. apply denotes_array in Hd. destruct d; exact Hd.
Qed.

Lemma array_wraps_items_or_fails_with_them_witness :
  denotes builtin_instance (Converter.convertType (caller := no_callbacks) (MapType StringType))
    (Throw TypeError) /\
  denotes builtin_instance
    (Converter.convertType (caller := no_callbacks) (ArrayType (MapType StringType))) (Throw TypeError).
Proof.
  split; [apply denotes_map|].
  apply (array_wraps_items_or_fails_with_them (caller := no_callbacks) builtin_instance
           (MapType StringType) (Throw TypeError)).
  apply denotes_map.
Defined.

(** ** The first failure ends the call *)

Section FirstFailure.
Context {caller : Caller}.
Import MethodOps Converter.
Variable self : instance.

(** [map] stops at the first element on which the function throws. *)
Lemma map_first_failure (f : node -> M val) pre js x post e :
  Forall2 (fun t j => denotes self (f t) (Ok j)) pre js ->
  denotes self (f x) (Throw e) ->
  forall h, exists h',
    MethodOps.map f (pre ++ x :: post) {| this := self; store := h |}
    = (Throw e, {| this := self; store := h' |}) /\
    h `prefix_of` h'.
Proof.
  intros Hpre Hx.
  induction Hpre as [|t j pre js Ht Hpre IH]; intros h; cbn [app];
    rewrite map_cons.
  - destruct (Hx h) as (r & h' & Hrun & Hp & Ha).
    apply agrees_then in Ha. subst r. exists h'.
    erewrite mbind_throw by exact Hrun. split; [reflexivity|exact Hp].
  - destruct (Ht h) as (r & h1 & Hrun & Hp & Ha).
    apply agrees_then in Ha as (v & -> & _).
    erewrite mbind_ok by exact Hrun.
    destruct (IH h1) as (h' & Hrun' & Hp').
    erewrite mbind_throw by exact Hrun'.
    exists h'. split; [reflexivity|]. etrans; eassumption.
Qed.

(** [forEach] stops at the first element on which the function throws. *)
Lemma forEach_first_failure {A} (f : A -> M unit) xs y ys e :
  forall s s1 s2,
    forEach f xs s = (Ok tt, s1) ->
    f y s1 = (Throw e, s2) ->
    forEach f (xs ++ y :: ys) s = (Throw e, s2).
Proof.
  induction xs as [|x xs IH]; intros s s1 s2 Hxs Hy; cbn [app];
    rewrite forEach_cons.
  - cbn in Hxs. injection Hxs as <-.
    erewrite mbind_throw by exact Hy. reflexivity.
  - rewrite forEach_cons in Hxs. unfold bind in Hxs |- *.
    destruct (f x s) as [[u| |] s']; try discriminate.
    eapply IH; eassumption.
Qed.

End FirstFailure.

(** X5.  When the members of a union before the member [t] convert and
    [t] fails with the error [e], the union fails with [e], under either
    encoding, whatever members follow [t]: they are not converted, and no
    fragment is returned. *)
Theorem union_fails_with_first_failing_member {caller : Caller}
    (self : instance) (pre : list node) (js : list json) (t : node)
    (post : list node) (e : error) :
  Forall2 (fun type j => denotes self (Converter.convertType type) (Ok j))
    pre js ->
  denotes self (Converter.convertType t) (Throw e) ->
  denotes self (Converter.convertType (UnwrappedUnionType (pre ++ t :: post)))
    (Throw e) /\
  denotes self (Converter.convertType (WrappedUnionType (pre ++ t :: post)))
    (Throw e).
Proof.
  intros Hpre Ht.
  assert (denotes self (Converter.convertUnion Converter.call (pre ++ t :: post))
            (Throw e)) as Hu.
  { intros h. rewrite convertUnion_eq.
    destruct (map_first_failure self Converter.convertType pre js t post e
                Hpre Ht h) as (h' & Hrun & Hp).
    exists (Throw e), h'. erewrite mbind_throw by exact Hrun.
    split; [reflexivity|]. split; [exact Hp|reflexivity]. }
  split.
  - eapply denotes_ext; [apply convertType_unwrapped|exact Hu].
  - eapply denotes_ext; [apply convertType_wrapped|exact Hu].
Qed.

Lemma union_fails_with_first_failing_member_witness :
  Forall2 (fun type j => denotes builtin_instance
                           (Converter.convertType (caller := no_callbacks) type) (Ok j))
    [NullType] [type_fragment "null"] /\
  denotes builtin_instance (Converter.convertType (caller := no_callbacks) (MapType IntType))
    (Throw TypeError) /\
  denotes builtin_instance
    (Converter.convertType (caller := no_callbacks)
       (UnwrappedUnionType ([NullType] ++ MapType IntType :: [StringType])))
    (Throw TypeError).
Proof.
  assert (Forall2 (fun type j => denotes builtin_instance
                                   (Converter.convertType (caller := no_callbacks) type) (Ok j))
            [NullType] [type_fragment "null"]) as Hpre.
  { constructor; [apply denotes_null|constructor]. }
  split; [exact Hpre|]. split; [apply denotes_map|].
  apply (union_fails_with_first_failing_member (caller := no_callbacks) builtin_instance
           [NullType] [type_fragment "null"] (MapType IntType) [StringType]
           TypeError Hpre (denotes_map builtin_instance IntType)).
Defined.

(** X6.  When the fields of a record before the field [f] have ordinary
    names and types that convert to objects, and the type of [f] fails
    with the error [e], the record fails with [e], whatever fields follow
    [f]: the fragment under construction is dropped and the objects that
    existed before the call are as they were. *)
Theorem record_fails_with_first_failing_field {caller : Caller}
    (self : instance) (pre : list field) (js : list (list (string * json)))
    (f : field) (post : list field) (e : error) :
  ordinary_names pre ->
  Forall2 (fun f j => denotes self (Converter.convertType (field_type f))
                        (Ok (JObj j))) pre js ->
  denotes self (Converter.convertType (field_type f)) (Throw e) ->
  denotes self (Converter.convertType (RecordType (pre ++ f :: post))) (Throw e).
Proof.
  intros Hord Hpre Hf.
  eapply denotes_ext; [apply convertType_record|].
  intros h. rewrite convertRecord_allocs.
  assert (Forall2 (fun f d => denotes self (Converter.convertType (field_type f)) d)
            pre (List.map (fun j => Ok (JObj j)) js)) as Hds.
  { clear -Hpre. induction Hpre; constructor; assumption. }
  destruct (forEach_fields_run self h pre _ Hds _ _ _ (record_inv_init h))
    as (r & h1 & Hrun & Hpost).
  rewrite record_fold_objects in Hpost
    by (assumption || (eapply Forall2_length; eassumption)).
  destruct Hpost as [-> [P Hinv]].
  destruct (convertRecord_field_run self h f (Throw e) h1 P _ Hf Hinv)
    as (r & h2 & Hrun2 & Hpost2).
  cbn in Hpost2. destruct Hpost2 as [-> Hp].
  exists (Throw e), h2.
  erewrite mbind_throw
    by (eapply forEach_first_failure; [exact Hrun|exact Hrun2]).
  split; [reflexivity|]. split; [exact Hp|reflexivity].
Qed.

Lemma record_fails_with_first_failing_field_witness :
  ordinary_names [Field "id" IntType None] /\
  Forall2 (fun f j => denotes builtin_instance
                        (Converter.convertType (caller := no_callbacks) (field_type f)) (Ok (JObj j)))
    [Field "id" IntType None]
    [[("type", JStr "integer");
      ("minimum", JNum (neg (pow 2%float 31)));
      ("maximum", JNum (sub (pow 2%float 31) 1%float))]] /\
  denotes builtin_instance
    (Converter.convertType (caller := no_callbacks) (field_type (Field "tags" (MapType StringType) None)))
    (Throw TypeError) /\
  denotes builtin_instance
    (Converter.convertType (caller := no_callbacks)
       (RecordType ([Field "id" IntType None]
                    ++ Field "tags" (MapType StringType) None
                    :: [Field "name" StringType None])))
    (Throw TypeError).
Proof.
  assert (ordinary_names [Field "id" IntType None]) as Hord.
  { constructor; [reflexivity|constructor]. }
  assert (Forall2 (fun f j => denotes builtin_instance
                                (Converter.convertType (caller := no_callbacks) (field_type f))
                                (Ok (JObj j)))
            [Field "id" IntType None]
            [[("type", JStr "integer");
              ("minimum", JNum (neg (pow 2%float 31)));
              ("maximum", JNum (sub (pow 2%float 31) 1%float))]]) as Hpre.
  { constructor; [apply denotes_int|constructor]. }
  split; [exact Hord|]. split; [exact Hpre|]. split; [apply denotes_map|].
  apply (record_fails_with_first_failing_field (caller := no_callbacks) builtin_instance
           [Field "id" IntType None] _
           (Field "tags" (MapType StringType) None)
           [Field "name" StringType None] TypeError Hord Hpre
           (denotes_map builtin_instance StringType)).
Defined.

(** ** Which trees convert *)

Lemma forallb_Forall {A} (p : A -> bool) (xs : list A) :
  forallb p xs = true -> Forall (fun x => p x = true) xs.
Proof.
  intros Hall. apply List.Forall_forall. apply List.forallb_forall. exact Hall.
Qed.

Lemma forallb_false_exists {A} (p : A -> bool) (xs : list A) :
  forallb p xs = false -> exists x, In x xs /\ p x = false.
Proof.
  induction xs as [|x xs IH]; cbn; [discriminate|].
  destruct (p x) eqn:Hx; cbn; intros Hall.
  - destruct (IH Hall) as (y & Hin & Hy). exists y. auto.
  - exists x. auto.
Qed.

Lemma all_ok_outcome (sup : node -> bool) types ds :
  Forall2 (fun t d => object_or_TypeError (sup t) d) types ds ->
  if forallb sup types
  then exists js, Fragment.all_ok ds = Ok js
  else Fragment.all_ok ds = Throw TypeError.
Proof.
  induction 1 as [|t d types ds Hd _ IH]; cbn; [eauto|].
  unfold object_or_TypeError in Hd. destruct (sup t); cbn.
  - destruct Hd as [own ->]. cbn.
    destruct (forallb sup types).
    + destruct IH as [js ->]. cbn. eauto.
    + rewrite IH. reflexivity.
  - rewrite Hd. reflexivity.
Qed.

Lemma record_fold_outcome (sup : node -> bool) fields ds :
  ordinary_names fields ->
  Forall2 (fun f d => object_or_TypeError (sup (field_type f)) d) fields ds ->
  forall acc,
    if forallb (fun f => sup (field_type f)) fields
    then exists acc', Fragment.record_fold fields ds acc = Ok acc'
    else Fragment.record_fold fields ds acc = Throw TypeError.
Proof.
  intros Hord HF. induction HF as [|f d fields ds Hd _ IH]; intros acc; cbn;
    [eauto|].
  apply List.Forall_cons_iff in Hord as [Hname Hord].
  unfold object_or_TypeError in Hd. destruct (sup (field_type f)); cbn.
  - destruct Hd as [own ->]. unfold Fragment.field_step. cbn.
    rewrite Hname. destruct (field_default f); cbn; apply IH; exact Hord.
  - rewrite Hd. reflexivity.
Qed.

Section Outcome.
Context {caller : Caller}.
Import MethodOps Converter.
Variable self : instance.
Hypothesis Hreg : object_registry self.

(** On a registry whose entries build objects, a tree with plain names
    converts to an object when it is supported and fails with a
    [TypeError] when it is not. *)
Lemma conversion_outcome type :
  plain_names (logicalTypeConvertors self) type = true ->
  exists d,
    denotes self (convertType type) d /\
    object_or_TypeError (supported (logicalTypeConvertors self) type) d.
Proof.
  induction type as [ | | | | | | | | size | symbols | itemsType IH
                    | valuesType IH | fields IH | types IH | types IH
                    | typeName underlying IH ] using node_induction;
    intros Hplain.
  - eexists. split; [apply denotes_null|]. cbn. eauto.
  - eexists. split; [apply denotes_boolean|]. cbn. eauto.
  - eexists. split; [apply denotes_int|]. cbn. eauto.
  - eexists. split; [apply denotes_long|]. cbn. eauto.
  - eexists. split; [apply denotes_float|]. cbn. eauto.
  - eexists. split; [apply denotes_double|]. cbn. eauto.
  - eexists. split; [apply denotes_string|]. cbn. eauto.
  - eexists. split; [apply denotes_bytes|]. cbn. eauto.
  - eexists. split; [apply denotes_fixed|]. cbn. eauto.
  - eexists. split; [apply denotes_enum|]. cbn. eauto.
  - destruct (IH Hplain) as (d & Hd & Hout).
    exists (Fragment.array d). split; [apply denotes_array; exact Hd|].
    cbn [supported]. unfold object_or_TypeError in *.
    destruct (supported (logicalTypeConvertors self) itemsType).
    + destruct Hout as [own ->]. cbn. eauto.
    + rewrite Hout. reflexivity.
  - eexists. split; [apply denotes_map|]. reflexivity.
  - cbn [plain_names] in Hplain. apply forallb_Forall in Hplain.
    assert (ordinary_names fields) as Hord.
    { eapply List.Forall_impl; [|exact Hplain]. cbn. intros f Hf.
      apply andb_prop in Hf. apply Hf. }
    assert (Forall (fun f => exists d,
                        denotes self (convertType (field_type f)) d /\
                        object_or_TypeError
                          (supported (logicalTypeConvertors self) (field_type f)) d)
              fields) as Hall.
    { rewrite List.Forall_forall in *. intros f Hin.
      apply IH; [exact Hin|]. specialize (Hplain f Hin). cbn in Hplain.
      apply andb_prop in Hplain. apply Hplain. }
    apply Forall_exists_Forall2 in Hall as [ds Hds].
    exists (Fragment.record fields ds). split.
    + eapply denotes_ext; [apply convertType_record|].
      apply convertRecord_denotes.
      eapply Forall2_impl; [exact Hds|]. cbn. intros f d [Hd _]. exact Hd.
    + cbn [supported]. unfold Fragment.record.
      pose proof (record_fold_outcome
                    (supported (logicalTypeConvertors self)) fields ds Hord)
        as Hfold.
      specialize (Hfold ltac:(eapply Forall2_impl; [exact Hds|];
                              cbn; intros f d [_ Ho]; exact Ho) ([], [])).
      unfold object_or_TypeError.
      destruct (forallb (fun f => supported (logicalTypeConvertors self)
                                    (field_type f)) fields).
      * destruct Hfold as [acc' ->]. cbn. unfold Fragment.record_of. eauto.
      * rewrite Hfold. reflexivity.
  - cbn [plain_names] in Hplain. apply forallb_Forall in Hplain.
    assert (Forall (fun t => exists d,
                        denotes self (convertType t) d /\
                        object_or_TypeError
                          (supported (logicalTypeConvertors self) t) d)
              types) as Hall.
    { rewrite List.Forall_forall in *. intros t Hin. apply IH; auto. }
    apply Forall_exists_Forall2 in Hall as [ds Hds].
    exists (Fragment.union ds). split.
    + eapply denotes_ext; [apply convertType_unwrapped|].
      apply convertUnion_denotes.
      eapply Forall2_impl; [exact Hds|]. cbn. intros t d [Hd _]. exact Hd.
    + cbn [supported]. unfold Fragment.union.
      pose proof (all_ok_outcome (supported (logicalTypeConvertors self))
                    types ds) as Hok.
      specialize (Hok ltac:(eapply Forall2_impl; [exact Hds|];
                            cbn; intros t d [_ Ho]; exact Ho)).
      unfold object_or_TypeError.
      destruct (forallb (supported (logicalTypeConvertors self)) types).
      * destruct Hok as [js ->]. cbn. eauto.
      * rewrite Hok. reflexivity.
  - cbn [plain_names] in Hplain. apply forallb_Forall in Hplain.
    assert (Forall (fun t => exists d,
                        denotes self (convertType t) d /\
                        object_or_TypeError
                          (supported (logicalTypeConvertors self) t) d)
              types) as Hall.
    { rewrite List.Forall_forall in *. intros t Hin. apply IH; auto. }
    apply Forall_exists_Forall2 in Hall as [ds Hds].
    exists (Fragment.union ds). split.
    + eapply denotes_ext; [apply convertType_wrapped|].
      apply convertUnion_denotes.
      eapply Forall2_impl; [exact Hds|]. cbn. intros t d [Hd _]. exact Hd.
    + cbn [supported]. unfold Fragment.union.
      pose proof (all_ok_outcome (supported (logicalTypeConvertors self))
                    types ds) as Hok.
      specialize (Hok ltac:(eapply Forall2_impl; [exact Hds|];
                            cbn; intros t d [_ Ho]; exact Ho)).
      unfold object_or_TypeError.
      destruct (forallb (supported (logicalTypeConvertors self)) types).
      * destruct Hok as [js ->]. cbn. eauto.
      * rewrite Hok. reflexivity.
  - cbn [plain_names supported] in *.
    pose proof (denotes_unresolved self (LogicalType typeName underlying)) as Hu.
    rewrite resolved_logical in Hu.
    destruct (get_own (logicalTypeConvertors self) (logical_key typeName))
      as [c|] eqn:Hk.
    + apply get_own_In in Hk as Hin. destruct Hin as [k' Hin].
      unfold object_registry in Hreg. rewrite List.Forall_forall in Hreg.
      destruct (Hreg _ Hin (LogicalType typeName underlying)) as [own Hown].
      exists (Ok (JObj own)). split; [|cbn; eauto].
      eapply denotes_logical; eassumption.
    + apply negb_true_iff in Hplain. rewrite Hplain in Hu.
      exists (Throw TypeError). split; [exact Hu|reflexivity].
Qed.

End Outcome.

Lemma builtin_object_registry {caller : Caller} : object_registry builtin_instance.
Proof.
  unfold object_registry. rewrite builtin_convertors.
  unfold Converter.defaultLogicalTypes.
  repeat apply List.Forall_cons; try apply List.Forall_nil; intros type;
    destruct (builtin_entries_build builtin_instance type)
      as (Hdecimal & Hdate & Hmillis);
    eexists; cbn [snd]; eassumption.
Qed.

(** X7.  On an instance whose registry entries build objects (as the
    built-in ones do), every tree without a Map node whose Logical nodes
    are looked up under registered names, and whose field names are
    ordinary keys, converts: the call returns a fragment, which is an
    object, from every store. *)
Theorem supported_tree_converts {caller : Caller} (self : instance) (type : node) :
  object_registry self ->
  plain_names (logicalTypeConvertors self) type = true ->
  supported (logicalTypeConvertors self) type = true ->
  exists own, denotes self (Converter.convertType type) (Ok (JObj own)).
Proof.
  intros Hreg Hplain Hsup.
  destruct (conversion_outcome self Hreg type Hplain) as (d & Hd & Hout).
  rewrite Hsup in Hout. destruct Hout as [own ->]. exists own. exact Hd.
Qed.

Lemma supported_tree_converts_witness :
  object_registry (caller := no_callbacks) builtin_instance /\
  plain_names (logicalTypeConvertors builtin_instance)
    (RecordType
       [Field "id" LongType None;
        Field "when" (LogicalType "logical:timestamp-millis" LongType) None;
        Field "tags" (ArrayType (UnwrappedUnionType [NullType; StringType]))
          (Some (JArr []))]) = true /\
  supported (logicalTypeConvertors builtin_instance)
    (RecordType
       [Field "id" LongType None;
        Field "when" (LogicalType "logical:timestamp-millis" LongType) None;
        Field "tags" (ArrayType (UnwrappedUnionType [NullType; StringType]))
          (Some (JArr []))]) = true /\
  exists own,
    denotes builtin_instance
      (Converter.convertType (caller := no_callbacks)
         (RecordType
            [Field "id" LongType None;
             Field "when" (LogicalType "logical:timestamp-millis" LongType) None;
             Field "tags" (ArrayType (UnwrappedUnionType [NullType; StringType]))
               (Some (JArr []))]))
      (Ok (JObj own)).
Proof.
  split; [exact builtin_object_registry|].
  split; [reflexivity|]. split; [reflexivity|].
  apply (supported_tree_converts (caller := no_callbacks) builtin_instance _ builtin_object_registry);
    reflexivity.
Defined.

(** X8.  On such an instance, a tree with plain names that is not
    supported (a Map node, or a Logical node looked up under a name that
    is not registered, in a position that is converted) makes the call
    fail with a [TypeError] from every store, however deep the node
    lies; no fragment is returned and the objects that existed are as
    they were. *)
Theorem unsupported_tree_throws_TypeError {caller : Caller} (self : instance) (type : node) :
  object_registry self ->
  plain_names (logicalTypeConvertors self) type = true ->
  supported (logicalTypeConvertors self) type = false ->
  denotes self (Converter.convertType type) (Throw TypeError).
Proof.
  intros Hreg Hplain Hsup.
  destruct (conversion_outcome self Hreg type Hplain) as (d & Hd & Hout).
  rewrite Hsup in Hout. cbn in Hout. subst d. exact Hd.
Qed.

Lemma unsupported_tree_throws_TypeError_witness :
  object_registry (caller := no_callbacks) builtin_instance /\
  plain_names (logicalTypeConvertors builtin_instance)
    (RecordType
       [Field "id" LongType None;
        Field "rows"
          (ArrayType (WrappedUnionType [NullType; MapType StringType])) None])
  = true /\
  supported (logicalTypeConvertors builtin_instance)
    (RecordType
       [Field "id" LongType None;
        Field "rows"
          (ArrayType (WrappedUnionType [NullType; MapType StringType])) None])
  = false /\
  denotes builtin_instance
    (Converter.convertType (caller := no_callbacks)
       (RecordType
          [Field "id" LongType None;
           Field "rows"
             (ArrayType (WrappedUnionType [NullType; MapType StringType]))
             None]))
    (Throw TypeError).
Proof.
  split; [exact builtin_object_registry|].
  split; [reflexivity|]. split; [reflexivity|].
  apply (unsupported_tree_throws_TypeError (caller := no_callbacks) builtin_instance _
           builtin_object_registry); reflexivity.
Defined.

(** ** Unsupported trees never convert, whatever the entries return *)

Section NeverConverts.
Context {caller : Caller}.
Import MethodOps Converter.
Variable self : instance.

Lemma bind_Ok_inv {A B} (m : M A) (k : A -> M B) s b s' :
  bind m k s = (Ok b, s') ->
  exists a s1, m s = (Ok a, s1) /\ k a s1 = (Ok b, s').
Proof.
  unfold bind. destruct (m s) as [[a| |] s1]; try discriminate. eauto.
Qed.

Lemma map_Ok_inv {A B} (f : A -> M B) xs :
  Forall (fun x => preserves_at self (f x)) xs ->
  forall h ys s',
    MethodOps.map f xs {| this := self; store := h |} = (Ok ys, s') ->
    Forall (fun x => exists h0 y s1,
                f x {| this := self; store := h0 |} = (Ok y, s1)) xs.
Proof.
  induction 1 as [|x xs Hx _ IH]; intros h ys s' Hrun; [constructor|].
  rewrite map_cons in Hrun.
  apply bind_Ok_inv in Hrun as (y & [self1 h1] & Hrun & Hrest).
  apply bind_Ok_inv in Hrest as (ys' & s2 & Hxs & _).
  constructor; [eauto|].
  specialize (Hx h). rewrite Hrun in Hx. cbn in Hx. subst self1.
  eapply IH. exact Hxs.
Qed.

Lemma forEach_Ok_inv {A} (f : A -> M unit) xs :
  Forall (fun x => preserves_at self (f x)) xs ->
  forall h s',
    forEach f xs {| this := self; store := h |} = (Ok tt, s') ->
    Forall (fun x => exists h0 s1,
                f x {| this := self; store := h0 |} = (Ok tt, s1)) xs.
Proof.
  induction 1 as [|x xs Hx _ IH]; intros h s' Hrun; [constructor|].
  rewrite forEach_cons in Hrun.
  apply bind_Ok_inv in Hrun as ([] & [self1 h1] & Hrun & Hxs).
  constructor; [eauto|].
  specialize (Hx h). rewrite Hrun in Hx. cbn in Hx. subst self1.
  eapply IH. exact Hxs.
Qed.

(** Reading a property leaves the state as it is. *)
Lemma get_prop_state v k s r s' : get_prop v k s = (r, s') -> s' = s.
Proof.
  destruct s as [i h]. unfold get_prop, lift, HeapOps.get_prop. cbn.
  destruct v; try (intros [= _ <-]; reflexivity).
  destruct (h !! l) as [[props|items]|]; try (intros [= _ <-]; reflexivity).
  destruct (get_own props k); [intros [= _ <-]; reflexivity|].
  destruct (inherited k); intros [= _ <-]; reflexivity.
Qed.

(** A round of the record loop that returns has converted the field's
    type. *)
Lemma convertRecord_field_Ok_inv schema f s s' :
  convertRecord_field call schema f s = (Ok tt, s') ->
  exists v s1, convertType (field_type f) s = (Ok v, s1).
Proof.
  unfold convertRecord_field, convertType. intros Hrun.
  apply bind_Ok_inv in Hrun as (c & sa & Hres & Hrun).
  assert (sa = s) as ->.
  { destruct s as [i h]. rewrite resolveConverter_run in Hres.
    congruence. }
  apply bind_Ok_inv in Hrun as (ps & sb & Hget & Hrun).
  apply get_prop_state in Hget as ->.
  apply bind_Ok_inv in Hrun as (v & sc & Hcall & _).
  exists v, sc. erewrite mbind_ok by exact Hres. exact Hcall.
Qed.

Lemma denotes_failure m d h v s' :
  denotes self m d ->
  (forall j, d <> Ok j) ->
  m {| this := self; store := h |} <> (Ok v, s').
Proof.
  intros Hd Hfail Hrun. destruct (Hd h) as (r & h' & Hrun' & _ & Ha).
  rewrite Hrun in Hrun'. injection Hrun' as <- _.
  apply agrees_ok in Ha as (j & -> & _). exact (Hfail j eq_refl).
Qed.

(** X9.  Whatever the registry entries return and whatever they do to
    the store, as long as they leave the instance alone: a call on a tree
    with plain names that has a Map node, or a Logical node looked up
    under a name that the registry does not have, in a position that is
    converted, never returns a fragment, from any store. *)
Theorem unsupported_tree_never_converts (type : node) :
  quiet_registry self ->
  plain_names (logicalTypeConvertors self) type = true ->
  supported (logicalTypeConvertors self) type = false ->
  forall h v s',
    convertType type {| this := self; store := h |} <> (Ok v, s').
Proof.
  intros Hquiet.
  induction type as [ | | | | | | | | size | symbols | itemsType IH
                    | valuesType IH | fields IH | types IH | types IH
                    | typeName underlying IH ] using node_induction;
    intros Hplain Hsup h v s' Hrun; try discriminate Hsup.
  - rewrite convertType_array in Hrun.
    apply bind_Ok_inv in Hrun as (items & [self1 h1] & Hitems & _).
    exact (IH Hplain Hsup h items _ Hitems).
  - exact (denotes_failure _ _ h v s' (denotes_map self valuesType)
             ltac:(discriminate) Hrun).
  - rewrite convertType_record in Hrun. unfold convertRecord in Hrun.
    apply bind_Ok_inv in Hrun as (properties & s1 & H1 & Hrun).
    rewrite run_alloc in H1. injection H1 as <- <-.
    apply bind_Ok_inv in Hrun as (required & s2 & H2 & Hrun).
    rewrite run_alloc in H2. injection H2 as <- <-.
    apply bind_Ok_inv in Hrun as (schema & s3 & H3 & Hrun).
    rewrite run_alloc in H3. injection H3 as <- <-.
    apply bind_Ok_inv in Hrun as ([] & s4 & Hloop & _).
    apply forEach_Ok_inv in Hloop.
    2:{ apply List.Forall_forall. intros f _.
        apply preserves_at_convertRecord_field.
        apply (convertType_preserves_at self Hquiet). }
    cbn [supported plain_names] in Hsup, Hplain.
    apply forallb_false_exists in Hsup as (f & Hin & Hf).
    apply forallb_Forall in Hplain.
    rewrite List.Forall_forall in IH, Hloop, Hplain.
    destruct (Hloop f Hin) as (h0 & s1' & Hstep).
    apply convertRecord_field_Ok_inv in Hstep as (v' & s1'' & Hconv).
    specialize (Hplain f Hin). cbn in Hplain. apply andb_prop in Hplain.
    exact (IH f Hin (proj2 Hplain) Hf h0 v' s1'' Hconv).
  - rewrite convertType_unwrapped, convertUnion_eq in Hrun.
    apply bind_Ok_inv in Hrun as (members & s1 & Hmap & _).
    apply map_Ok_inv in Hmap.
    2:{ apply List.Forall_forall. intros t _.
        apply (convertType_preserves_at self Hquiet). }
    cbn [supported plain_names] in Hsup, Hplain.
    apply forallb_false_exists in Hsup as (t & Hin & Ht).
    apply forallb_Forall in Hplain.
    rewrite List.Forall_forall in IH, Hmap, Hplain.
    destruct (Hmap t Hin) as (h0 & v' & s1' & Hconv).
    exact (IH t Hin (Hplain t Hin) Ht h0 v' s1' Hconv).
  - rewrite convertType_wrapped, convertUnion_eq in Hrun.
    apply bind_Ok_inv in Hrun as (members & s1 & Hmap & _).
    apply map_Ok_inv in Hmap.
    2:{ apply List.Forall_forall. intros t _.
        apply (convertType_preserves_at self Hquiet). }
    cbn [supported plain_names] in Hsup, Hplain.
    apply forallb_false_exists in Hsup as (t & Hin & Ht).
    apply forallb_Forall in Hplain.
    rewrite List.Forall_forall in IH, Hmap, Hplain.
    destruct (Hmap t Hin) as (h0 & v' & s1' & Hconv).
    exact (IH t Hin (Hplain t Hin) Ht h0 v' s1' Hconv).
  - cbn [supported plain_names] in Hsup, Hplain.
    pose proof (denotes_unresolved self (LogicalType typeName underlying)) as Hu.
    rewrite resolved_logical in Hu.
    destruct (get_own (logicalTypeConvertors self) (logical_key typeName));
      [discriminate|].
    apply negb_true_iff in Hplain. rewrite Hplain in Hu.
    exact (denotes_failure _ _ h v s' Hu ltac:(discriminate) Hrun).
Qed.

End NeverConverts.

Lemma unsupported_tree_never_converts_witness :
  quiet_registry (caller := no_callbacks)
    (this (snd (Converter.new
                  (Some (Converter.Options
                           (Some [("ref", reference); ("strict", Callback 0)])))
                  []))) /\
  plain_names
    (logicalTypeConvertors
       (this (snd (Converter.new
                     (Some (Converter.Options
                              (Some [("ref", reference);
                                     ("strict", Callback 0)]))) []))))
    (UnwrappedUnionType
       [LogicalType "logical:ref" LongType;
        RecordType [Field "m" (MapType (LogicalType "logical:strict" LongType))
                      None]])
  = true /\
  supported
    (logicalTypeConvertors
       (this (snd (Converter.new
                     (Some (Converter.Options
                              (Some [("ref", reference);
                                     ("strict", Callback 0)]))) []))))
    (UnwrappedUnionType
       [LogicalType "logical:ref" LongType;
        RecordType [Field "m" (MapType (LogicalType "logical:strict" LongType))
                      None]])
  = false /\
  forall h v s',
    Converter.convertType (caller := no_callbacks)
      (UnwrappedUnionType
         [LogicalType "logical:ref" LongType;
          RecordType [Field "m" (MapType (LogicalType "logical:strict" LongType))
                        None]])
      {| this :=
           this (snd (Converter.new
                        (Some (Converter.Options
                                 (Some [("ref", reference);
                                        ("strict", Callback 0)]))) []));
         store := h |}
    <> (Ok v, s').
Proof.
  assert (quiet_registry (caller := no_callbacks)
            (this (snd (Converter.new
                          (Some (Converter.Options
                                   (Some [("ref", reference);
                                          ("strict", Callback 0)]))) []))))
    as Hquiet.
  { repeat constructor. }
  split; [exact Hquiet|]. split; [reflexivity|]. split; [reflexivity|].
  apply (unsupported_tree_never_converts (caller := no_callbacks) _ _ Hquiet);
    reflexivity.
Defined.

(** ** The shape of the fragments *)

Section OwnPropertyShape.
Context {A : Type}.

Lemma NoDup_keys_set_own (ps : list (string * A)) k v :
  NoDup (List.map fst ps) -> NoDup (List.map fst (set_own ps k v)).
Proof.
  induction ps as [|[k' v'] ps IH]; cbn [set_own List.map fst]; intros Hnd.
  - apply NoDup_singleton.
  - apply NoDup_cons in Hnd as [Hnotin Hrest].
    destruct (String.eqb k' k) eqn:Hk; cbn [List.map fst].
    + apply NoDup_cons. split; assumption.
    + apply NoDup_cons. split; [|apply IH; exact Hrest].
      rewrite list_elem_of_In, keys_set_own. intros [->|Hin].
      * rewrite String.eqb_refl in Hk. discriminate.
      * apply Hnotin. apply list_elem_of_In. exact Hin.
Qed.

Lemma Forall_set_own (P : string * A -> Prop) ps k v :
  Forall P ps -> (forall k', P (k', v)) -> Forall P (set_own ps k v).
Proof.
  intros Hps Hv. induction Hps as [|[k' v'] ps Hp Hps IH]; cbn [set_own].
  - constructor; [apply Hv|constructor].
  - destruct (String.eqb k' k); constructor; auto.
Qed.

End OwnPropertyShape.

Lemma record_properties_NoDup fields js :
  forall props,
    NoDup (List.map fst props) ->
    NoDup (List.map fst (record_properties fields js props)).
Proof.
  revert js. induction fields as [|f fields IH]; intros [|j js] props Hnd;
    cbn [record_properties]; try exact Hnd.
  apply IH. apply NoDup_keys_set_own. exact Hnd.
Qed.

Lemma record_properties_Forall (P : string * json -> Prop) fields js :
  Forall2 (fun f j => forall k, P (k, field_fragment f j)) fields js ->
  forall props,
    Forall P props -> Forall P (record_properties fields js props).
Proof.
  induction 1 as [|f j fields js Hf _ IH]; intros props Hprops;
    cbn [record_properties]; [exact Hprops|].
  apply IH. apply Forall_set_own; assumption.
Qed.

Lemma record_properties_keys fields js :
  List.length fields = List.length js ->
  forall props name,
    In name (List.map fst (record_properties fields js props))
    <-> In name (List.map fst props) \/ In name (List.map field_name fields).
Proof.
  revert js. induction fields as [|f fields IH]; intros [|j js] Hlen props name;
    try discriminate; cbn [record_properties List.map In].
  - tauto.
  - injection Hlen as Hlen. rewrite (IH js Hlen), keys_set_own.
    split; [intros [[->|?]|?]|intros [?|[<-|?]]]; auto.
Qed.

Lemma field_required_names fields name :
  In name (List.flat_map field_required fields) ->
  In name (List.map field_name fields).
Proof.
  induction fields as [|f fields IH]; cbn [List.flat_map List.map In];
    [tauto|].
  rewrite List.in_app_iff. unfold field_required at 1.
  destruct (field_default f); cbn [In]; tauto.
Qed.

Section Shape.
Context {caller : Caller}.
Import MethodOps Converter.
Variable self : instance.
Hypothesis Hreg : bare_registry self.

(** X10.  On an instance whose registry entries build fragments of the
    shapes of the kind converters (as the built-in ones do), the
    fragment of every supported tree with plain names is of these
    shapes at every level: a [type]-only object, an integer with its two
    bounds, a string with its pattern and, for Fixed, its two lengths, an
    enum, an array of a fragment, a [oneOf] of fragments, or an object
    whose [properties] have distinct names and are fragments, with or
    without [default], and whose [required] names are all names of
    [properties]. *)
Theorem converted_fragment_is_well_shaped (type : node) :
  plain_names (logicalTypeConvertors self) type = true ->
  supported (logicalTypeConvertors self) type = true ->
  exists own, denotes self (convertType type) (Ok (JObj own)) /\ Bare own.
Proof.
  induction type as [ | | | | | | | | size | symbols | itemsType IH
                    | valuesType IH | fields IH | types IH | types IH
                    | typeName underlying IH ] using node_induction;
    intros Hplain Hsup.
  - eexists. split; [apply denotes_null|]. apply Bare_type. cbn. auto.
  - eexists. split; [apply denotes_boolean|]. apply Bare_type. cbn. auto.
  - eexists. split; [apply denotes_int|]. apply Bare_integer.
  - eexists. split; [apply denotes_long|]. apply Bare_integer.
  - eexists. split; [apply denotes_float|]. apply Bare_type. cbn. auto.
  - eexists. split; [apply denotes_double|]. apply Bare_type. cbn. auto.
  - eexists. split; [apply denotes_string|]. apply Bare_type. cbn. auto.
  - eexists. split; [apply denotes_bytes|]. apply Bare_bytes.
  - eexists. split; [apply denotes_fixed|]. apply Bare_fixed.
  - eexists. split; [apply denotes_enum|]. apply Bare_enum.
  - destruct (IH Hplain Hsup) as (items & Hitems & Hbare).
    eexists. split; [exact (denotes_array self _ _ Hitems)|].
    apply Bare_array. exact Hbare.
  - discriminate Hsup.
  - cbn [plain_names supported] in Hplain, Hsup.
    apply forallb_Forall in Hplain. apply forallb_Forall in Hsup.
    assert (ordinary_names fields) as Hord.
    { eapply List.Forall_impl; [|exact Hplain]. cbn. intros f Hf.
      apply andb_prop in Hf. apply Hf. }
    assert (Forall (fun f => exists own,
                        denotes self (convertType (field_type f))
                          (Ok (JObj own)) /\ Bare own) fields) as Hall.
    { rewrite List.Forall_forall in *. intros f Hin.
      apply IH; [exact Hin| |apply Hsup; exact Hin].
      specialize (Hplain f Hin). cbn in Hplain.
      apply andb_prop in Hplain. apply Hplain. }
    apply Forall_exists_Forall2 in Hall as [js Hjs].
    assert (List.length fields = List.length js) as Hlen
        by (eapply Forall2_length; exact Hjs).
    eexists. split.
    + apply record_objects_denotes; [exact Hord|].
      eapply Forall2_impl; [exact Hjs|]. cbn. intros f j [Hd _]. exact Hd.
    + apply Bare_object.
      * apply record_properties_NoDup. constructor.
      * apply record_properties_Forall; [|constructor].
        eapply Forall2_impl; [exact Hjs|]. cbn. intros f j [_ Hb] k.
        exists j. split; [exact Hb|]. unfold field_fragment.
        destruct (field_default f); eauto.
      * apply List.Forall_forall. intros name Hin.
        apply (record_properties_keys fields js Hlen). right.
        apply field_required_names. exact Hin.
  - cbn [plain_names supported] in Hplain, Hsup.
    apply forallb_Forall in Hplain. apply forallb_Forall in Hsup.
    assert (Forall (fun t => exists own,
                        denotes self (convertType t) (Ok (JObj own)) /\
                        Bare own) types) as Hall.
    { rewrite List.Forall_forall in *. intros t Hin. apply IH; auto. }
    apply Forall_exists_Forall2 in Hall as [js Hjs].
    exists [("oneOf", JArr (List.map JObj js))]. split.
    + eapply denotes_ext; [apply convertType_unwrapped|].
      pose proof (convertUnion_denotes self types
                    (List.map Ok (List.map JObj js))) as Hu.
      unfold Fragment.union in Hu. rewrite all_ok_Ok in Hu. apply Hu.
      clear -Hjs. induction Hjs as [|t j types js [Hd _] _ IH];
        constructor; assumption.
    + apply Bare_oneOf. clear -Hjs.
      induction Hjs as [|t j types js [_ Hb] _ IH]; constructor; assumption.
  - cbn [plain_names supported] in Hplain, Hsup.
    apply forallb_Forall in Hplain. apply forallb_Forall in Hsup.
    assert (Forall (fun t => exists own,
                        denotes self (convertType t) (Ok (JObj own)) /\
                        Bare own) types) as Hall.
    { rewrite List.Forall_forall in *. intros t Hin. apply IH; auto. }
    apply Forall_exists_Forall2 in Hall as [js Hjs].
    exists [("oneOf", JArr (List.map JObj js))]. split.
    + eapply denotes_ext; [apply convertType_wrapped|].
      pose proof (convertUnion_denotes self types
                    (List.map Ok (List.map JObj js))) as Hu.
      unfold Fragment.union in Hu. rewrite all_ok_Ok in Hu. apply Hu.
      clear -Hjs. induction Hjs as [|t j types js [Hd _] _ IH];
        constructor; assumption.
    + apply Bare_oneOf. clear -Hjs.
      induction Hjs as [|t j types js [_ Hb] _ IH]; constructor; assumption.
  - cbn [supported] in Hsup.
    destruct (get_own (logicalTypeConvertors self) (logical_key typeName))
      as [c|] eqn:Hk; [|discriminate].
    apply get_own_In in Hk as Hin. destruct Hin as [k' Hin].
    unfold bare_registry in Hreg. rewrite List.Forall_forall in Hreg.
    destruct (Hreg _ Hin (LogicalType typeName underlying))
      as (own & Hown & Hbare).
    exists own. split; [|exact Hbare].
    eapply denotes_logical; eassumption.
Qed.

End Shape.

Lemma builtin_bare_registry {caller : Caller} : bare_registry builtin_instance.
Proof.
  unfold bare_registry. rewrite builtin_convertors.
  unfold Converter.defaultLogicalTypes.
  repeat apply List.Forall_cons; try apply List.Forall_nil; intros type;
    destruct (builtin_entries_build builtin_instance type)
      as (Hdecimal & Hdate & Hmillis);
    cbn [snd].
  - eexists. split; [exact Hdecimal|]. apply Bare_type. cbn. auto.
  - eexists. split; [exact Hdate|]. apply Bare_integer.
  - eexists. split; [exact Hmillis|]. apply Bare_integer.
Qed.

Lemma converted_fragment_is_well_shaped_witness :
  bare_registry (caller := no_callbacks) builtin_instance /\
  plain_names (logicalTypeConvertors builtin_instance)
    (RecordType
       [Field "id" LongType None;
        Field "day" (LogicalType "logical:date" IntType) (Some (JNum 1%float));
        Field "tags" (ArrayType (WrappedUnionType [NullType; EnumType ["A"]]))
          None]) = true /\
  supported (logicalTypeConvertors builtin_instance)
    (RecordType
       [Field "id" LongType None;
        Field "day" (LogicalType "logical:date" IntType) (Some (JNum 1%float));
        Field "tags" (ArrayType (WrappedUnionType [NullType; EnumType ["A"]]))
          None]) = true /\
  exists own,
    denotes builtin_instance
      (Converter.convertType (caller := no_callbacks)
         (RecordType
            [Field "id" LongType None;
             Field "day" (LogicalType "logical:date" IntType)
               (Some (JNum 1%float));
             Field "tags"
               (ArrayType (WrappedUnionType [NullType; EnumType ["A"]]))
               None]))
      (Ok (JObj own)) /\
    Bare own.
Proof.
  split; [exact builtin_bare_registry|].
  split; [reflexivity|]. split; [reflexivity|].
  apply (converted_fragment_is_well_shaped (caller := no_callbacks) builtin_instance
           builtin_bare_registry); reflexivity.
Defined.

(** ** The names of the registry *)

Section AssignKeys.
Context {A : Type}.

Lemma assign_keys_In (source : list (string * A)) :
  forall target k,
    In k (List.map fst (assign target source))
    <-> In k (List.map fst target) \/ In k (List.map fst source).
Proof.
  unfold assign.
  induction source as [|[k' v'] source IH]; intros target k;
    cbn [fold_left List.map In fst snd]; [tauto|].
  rewrite IH, keys_set_own. split; [intros [[->|?]|?]|intros [?|[<-|?]]]; auto.
Qed.

Lemma assign_keys_NoDup (source : list (string * A)) :
  forall target,
    NoDup (List.map fst target) ->
    NoDup (List.map fst (assign target source)).
Proof.
  unfold assign.
  induction source as [|[k' v'] source IH]; intros target Hnd;
    cbn [fold_left fst snd]; [exact Hnd|].
  apply IH. apply NoDup_keys_set_own. exact Hnd.
Qed.

Lemma get_own_assign_None (source : list (string * A)) :
  forall target k,
    get_own source k = None ->
    get_own (assign target source) k = get_own target k.
Proof.
  unfold assign.
  induction source as [|[k' v'] source IH]; intros target k;
    cbn [fold_left get_own fst snd]; [reflexivity|].
  destruct (String.eqb k' k) eqn:Hk; [discriminate|]. intros Hnone.
  rewrite IH by exact Hnone. apply get_own_set_own_ne.
  intros ->. rewrite String.eqb_refl in Hk. discriminate.
Qed.

End AssignKeys.

(** X11.  Construction with a supplied mapping that has no [__proto__]
    key succeeds and allocates nothing.  The marker classes handed to
    avsc are named after the keys of the registry, one class per key;
    a name has a class exactly when it is one of the built-in names
    [decimal], [date], [timestamp-millis] (also when the mapping
    overrides it) or a key of the mapping.  Leaving out the options, or
    [logicalTypes], is the same as passing an empty mapping. *)
Theorem registered_names_after_construction
    (supplied : list (string * converter)) (h : heap) :
  existsb (String.eqb "__proto__") (List.map fst supplied) = false ->
  let made := Converter.new (Some (Converter.Options (Some supplied))) h in
  let self := this (snd made) in
  fst made = Ok tt /\
  store (snd made) = h /\
  logicalTypeFakeClasses self = List.map fst (logicalTypeConvertors self) /\
  NoDup (logicalTypeFakeClasses self) /\
  (forall name,
      In name (logicalTypeFakeClasses self)
      <-> In name ["decimal"; "date"; "timestamp-millis"]
          \/ In name (List.map fst supplied)) /\
  Converter.new None h = Converter.new (Some (Converter.Options (Some []))) h /\
  Converter.new (Some (Converter.Options None)) h
  = Converter.new (Some (Converter.Options (Some []))) h.
Proof.
  intros Hp made self. subst self made.
  rewrite (new_with_logicalTypes supplied h Hp). cbn [fst snd this store
    logicalTypeConvertors logicalTypeFakeClasses].
  repeat split.
  - apply assign_keys_NoDup. cbn. repeat (apply NoDup_cons; split);
      try apply NoDup_nil_2; rewrite list_elem_of_In; cbn; intuition discriminate.
  - intros Hin. apply assign_keys_In in Hin. exact Hin.
  - intros Hin. apply assign_keys_In. exact Hin.
Qed.

Lemma registered_names_after_construction_witness :
  existsb (String.eqb "__proto__")
    (List.map fst [("uuid", uuid); ("date", money)]) = false /\
  NoDup (logicalTypeFakeClasses
           (this (snd (Converter.new
                         (Some (Converter.Options
                                  (Some [("uuid", uuid); ("date", money)])))
                         [])))).
Proof.
  split; [reflexivity|].
  apply (registered_names_after_construction
           [("uuid", uuid); ("date", money)] []).
  reflexivity.
Defined.

(** X12.  A converter supplied under a name without a colon is the one
    that runs on the Logical nodes that avsc builds for that name: for a
    [typeName] made of a prefix without a colon, a colon and the name,
    converting the node is calling the supplied function, bound to the
    instance, on it, and the result, the store and the instance are
    whatever that call leaves. *)
Theorem registered_name_is_dispatched {caller : Caller}
    (supplied : list (string * converter)) (namespace name : string)
    (c : converter) (underlying : node) (h h' : heap) :
  existsb (String.eqb "__proto__") (List.map fst supplied) = false ->
  NoDup (List.map fst supplied) ->
  get_own supplied name = Some c ->
  colon_free namespace = true ->
  colon_free name = true ->
  let self :=
    this (snd (Converter.new (Some (Converter.Options (Some supplied))) h)) in
  let type :=
    LogicalType (String.append namespace (String ":"%char name)) underlying in
  Converter.convertType type {| this := self; store := h' |}
  = Converter.bound_call c type {| this := self; store := h' |}.
Proof.
  intros Hp Hnd Hc Hns Hname self type. subst self type.
  rewrite (new_with_logicalTypes supplied h Hp). cbn [snd this].
  rewrite convertType_run, resolved_logical,
    (logical_key_single_colon namespace name Hns Hname).
  cbn [logicalTypeConvertors]. rewrite (get_own_assign _ supplied name Hnd), Hc.
  rewrite call_entry. reflexivity.
Qed.

Lemma registered_name_is_dispatched_witness :
  existsb (String.eqb "__proto__") (List.map fst [("money", money)]) = false /\
  NoDup (List.map fst [("money", money)]) /\
  get_own [("money", money)] "money" = Some money /\
  colon_free "logical" = true /\
  colon_free "money" = true /\
  Converter.convertType (caller := no_callbacks) (LogicalType "logical:money" LongType)
    {| this := this (snd (Converter.new
                            (Some (Converter.Options (Some [("money", money)])))
                            []));
       store := [] |}
  = Converter.bound_call (caller := no_callbacks) money
      (LogicalType "logical:money" LongType)
      {| this := this (snd (Converter.new
                              (Some (Converter.Options
                                       (Some [("money", money)]))) []));
         store := [] |}.
Proof.
  assert (NoDup (List.map fst [("money", money)])) as Hnd
      by apply NoDup_singleton.
  repeat (split; [first [reflexivity|exact Hnd]|]).
  apply (registered_name_is_dispatched (caller := no_callbacks) [("money", money)] "logical" "money"
           money LongType [] [] eq_refl Hnd eq_refl eq_refl eq_refl).
Defined.

(** X13.  A Logical node whose [typeName] has no colon is looked up
    under the key [undefined]: the converter registered under that name,
    if there is one, is called on the node; without one the call fails
    with a [TypeError] and allocates nothing. *)
Theorem typeName_without_colon_is_looked_up_as_undefined {caller : Caller}
    (self : instance) (typeName : string) (underlying : node) (h : heap) :
  colon_free typeName = true ->
  Converter.logical_key typeName = "undefined" /\
  Converter.convertType (LogicalType typeName underlying)
    {| this := self; store := h |}
  = match get_own (logicalTypeConvertors self) "undefined" with
    | Some c =>
        Converter.bound_call c (LogicalType typeName underlying)
          {| this := self; store := h |}
    | None => (Throw TypeError, {| this := self; store := h |})
    end.
Proof.
  intros Hfree.
  assert (Converter.logical_key typeName = "undefined") as Hkey.
  { unfold Converter.logical_key. rewrite (split_colon_free _ Hfree).
    reflexivity. }
  split; [exact Hkey|].
  rewrite convertType_run, resolved_logical, Hkey.
  destruct (get_own (logicalTypeConvertors self) "undefined");
    [rewrite call_entry|]; reflexivity.
Qed.

Lemma typeName_without_colon_is_looked_up_as_undefined_witness :
  colon_free "date" = true /\
  Converter.logical_key "date" = "undefined" /\
  Converter.convertType (caller := no_callbacks) (LogicalType "date" IntType)
    {| this := builtin_instance; store := [] |}
  = (Throw TypeError, {| this := builtin_instance; store := [] |}).
Proof.
  split; [reflexivity|].
  apply (typeName_without_colon_is_looked_up_as_undefined (caller := no_callbacks)
           builtin_instance "date" IntType []).
  reflexivity.
Defined.

(** ** The entries of a record, in order *)

Lemma set_own_fresh {A} (ps : list (string * A)) k v :
  ~ In k (List.map fst ps) -> set_own ps k v = ps ++ [(k, v)].
Proof.
  induction ps as [|[k' v'] ps IH]; cbn [set_own List.map fst In app];
    intros Hnotin; [reflexivity|].
  destruct (String.eqb k' k) eqn:Hk.
  - apply String.eqb_eq in Hk. tauto.
  - rewrite IH by tauto. reflexivity.
Qed.

Lemma record_properties_distinct fields :
  forall js props,
    List.length fields = List.length js ->
    NoDup (List.map fst props ++ List.map field_name fields) ->
    record_properties fields js props = props ++ record_entries fields js.
Proof.
  unfold record_entries.
  induction fields as [|f fields IH]; intros [|j js] props Hlen Hnd;
    try discriminate; cbn [record_properties zip_with].
  - rewrite app_nil_r. reflexivity.
  - injection Hlen as Hlen. cbn [List.map] in Hnd.
    assert (~ In (field_name f) (List.map fst props)) as Hfresh.
    { intros Hin. apply NoDup_app in Hnd as (_ & Hdisj & _).
      apply (Hdisj (field_name f)); [apply list_elem_of_In; exact Hin|].
      apply list_elem_of_here. }
    rewrite set_own_fresh by exact Hfresh.
    rewrite IH; [rewrite <- app_assoc; reflexivity|exact Hlen|].
    rewrite List.map_app, <- app_assoc. exact Hnd.
Qed.

Lemma field_required_names_without_default fields :
  List.flat_map field_required fields = names_without_default fields.
Proof.
  unfold names_without_default.
  induction fields as [|f fields IH]; cbn [List.flat_map List.filter List.map];
    [reflexivity|].
  unfold field_required at 1.
  destruct (field_default f); cbn [app List.map]; rewrite IH; reflexivity.
Qed.

Lemma record_entries_names fields js :
  List.length fields = List.length js ->
  List.map fst (record_entries fields js) = List.map field_name fields.
Proof.
  unfold record_entries. revert js.
  induction fields as [|f fields IH]; intros [|j js] Hlen; try discriminate;
    cbn [zip_with List.map fst]; [reflexivity|].
  injection Hlen as Hlen. rewrite (IH js Hlen). reflexivity.
Qed.

(** X14.  For a record with distinct, ordinary field names whose field
    types convert to the objects [js], the fragment is exactly
    [{type: "object", properties, required}] where [properties] has one
    entry per field, named after the field, in the order of the fields
    (the field type's fragment, with [default] set when the field has a
    default), and [required] lists the names of the fields without a
    default, in the order of the fields. *)
Theorem record_entries_follow_the_fields {caller : Caller}
    (self : instance) (fields : list field) (js : list (list (string * json))) :
  NoDup (List.map field_name fields) ->
  ordinary_names fields ->
  Forall2 (fun f j => denotes self (Converter.convertType (field_type f))
                        (Ok (JObj j))) fields js ->
  denotes self (Converter.convertType (RecordType fields))
    (Ok (JObj [("type", JStr "object");
               ("properties", JObj (record_entries fields js));
               ("required",
                JArr (List.map JStr (names_without_default fields)))])) /\
  List.map fst (record_entries fields js) = List.map field_name fields.
Proof.
  intros Hnd Hord Hjs.
  assert (List.length fields = List.length js) as Hlen
      by (eapply Forall2_length; exact Hjs).
  split; [|apply record_entries_names; exact Hlen].
  pose proof (record_objects_denotes self fields js Hord Hjs) as Hd.
  rewrite (record_properties_distinct fields js [] Hlen Hnd) in Hd.
  rewrite field_required_names_without_default in Hd. exact Hd.
Qed.

Lemma record_entries_follow_the_fields_witness :
  NoDup (List.map field_name
           [Field "b" StringType (Some (JStr "")); Field "a" BooleanType None]) /\
  ordinary_names
    [Field "b" StringType (Some (JStr "")); Field "a" BooleanType None] /\
  denotes builtin_instance
    (Converter.convertType (caller := no_callbacks)
       (RecordType
          [Field "b" StringType (Some (JStr "")); Field "a" BooleanType None]))
    (Ok (JObj [("type", JStr "object");
               ("properties",
                JObj [("b", JObj [("type", JStr "string");
                                  ("default", JStr "")]);
                      ("a", JObj [("type", JStr "boolean")])]);
               ("required", JArr [JStr "a"])])).
Proof.
  assert (NoDup (List.map field_name
                   [Field "b" StringType (Some (JStr ""));
                    Field "a" BooleanType None])) as Hnd.
  { cbn. apply NoDup_cons. split; [|apply NoDup_singleton].
    rewrite list_elem_of_In. cbn. intuition discriminate. }
  assert (ordinary_names
            [Field "b" StringType (Some (JStr "")); Field "a" BooleanType None])
    as Hord.
  { repeat constructor. }
  split; [exact Hnd|]. split; [exact Hord|].
  apply (record_entries_follow_the_fields (caller := no_callbacks) builtin_instance
           [Field "b" StringType (Some (JStr "")); Field "a" BooleanType None]
           [[("type", JStr "string")]; [("type", JStr "boolean")]] Hnd Hord).
  constructor; [apply denotes_string|].
  constructor; [apply denotes_boolean|constructor].
Defined.

(** ** The built-in logical types *)

(** X15.  On an instance built with a mapping that has no entry for the
    name looked up, a Logical node looked up as [decimal] converts to
    [{type: "number"}], and one looked up as [date] or as
    [timestamp-millis] converts to [{type: "integer", minimum, maximum}]
    with minimum 1 and, as maximum, the value of [2 ** 63 - 1], which in
    binary64 is 2^63; the underlying type plays no part. *)
Theorem builtin_logical_fragments {caller : Caller}
    (supplied : list (string * converter)) (typeName : string)
    (underlying : node) (h : heap) :
  existsb (String.eqb "__proto__") (List.map fst supplied) = false ->
  get_own supplied (Converter.logical_key typeName) = None ->
  let self :=
    this (snd (Converter.new (Some (Converter.Options (Some supplied))) h)) in
  (Converter.logical_key typeName = "decimal" ->
   denotes self (Converter.convertType (LogicalType typeName underlying))
     (Ok (JObj [("type", JStr "number")]))) /\
  (Converter.logical_key typeName = "date" \/
   Converter.logical_key typeName = "timestamp-millis" ->
   denotes self (Converter.convertType (LogicalType typeName underlying))
     (Ok (JObj [("type", JStr "integer");
                ("minimum", JNum 1%float);
                ("maximum", JNum (sub (pow 2%float 63) 1%float))]))) /\
  to_Z 1%float = Some 1%Z /\
  to_Z (sub (pow 2%float 63) 1%float) = Some (2 ^ 63)%Z.
Proof.
  intros Hp Hnone self. subst self.
  rewrite (new_with_logicalTypes supplied h Hp). cbn [snd this].
  destruct (builtin_entries_build
              {| logicalTypeConvertors :=
                   assign (assign [] Converter.defaultLogicalTypes) supplied;
                 logicalTypeFakeClasses :=
                   List.map fst
                     (assign (assign [] Converter.defaultLogicalTypes) supplied) |}
              (LogicalType typeName underlying))
    as (Hdecimal & Hdate & Hmillis).
  pose proof (get_own_assign_None supplied
                (assign [] Converter.defaultLogicalTypes)
                (Converter.logical_key typeName) Hnone) as Hlook.
  split; [|split; [|split; vm_compute; reflexivity]].
  - intros Hk. eapply denotes_logical; [|exact Hdecimal].
    cbn [logicalTypeConvertors]. rewrite Hlook, Hk. reflexivity.
  - intros [Hk|Hk].
    + eapply denotes_logical; [|exact Hdate].
      cbn [logicalTypeConvertors]. rewrite Hlook, Hk. reflexivity.
    + eapply denotes_logical; [|exact Hmillis].
      cbn [logicalTypeConvertors]. rewrite Hlook, Hk. reflexivity.
Qed.

Lemma builtin_logical_fragments_witness :
  existsb (String.eqb "__proto__") (List.map fst [("money", money)]) = false /\
  get_own [("money", money)] (Converter.logical_key "logical:date") = None /\
  denotes
    (this (snd (Converter.new
                  (Some (Converter.Options (Some [("money", money)]))) [])))
    (Converter.convertType (caller := no_callbacks) (LogicalType "logical:date" IntType))
    (Ok (JObj [("type", JStr "integer");
               ("minimum", JNum 1%float);
               ("maximum", JNum (sub (pow 2%float 63) 1%float))])).
Proof.
  split; [reflexivity|]. split; [reflexivity|].
  apply (builtin_logical_fragments (caller := no_callbacks) [("money", money)] "logical:date" IntType []
           eq_refl eq_refl).
  left. reflexivity.
Defined.

(** ** Fragments are built afresh *)

(** X16.  Two successive conversions of a tree share nothing: when the
    conversion of [type] yields the fragment [j], a first call and a
    second call each return [j] built from objects that the call itself
    allocated; no object belongs to both; and overwriting any object of
    the second fragment leaves the first reading as [j]. *)
Theorem successive_conversions_share_nothing {caller : Caller}
    (self : instance) (type : node) (j : json) (h : heap) :
  denotes self (Converter.convertType type) (Ok j) ->
  exists v1 h1 v2 h2,
    Converter.convertType type {| this := self; store := h |}
    = (Ok v1, {| this := self; store := h1 |}) /\
    Converter.convertType type {| this := self; store := h1 |}
    = (Ok v2, {| this := self; store := h2 |}) /\
    h `prefix_of` h1 /\ h1 `prefix_of` h2 /\
    repr h2 (fresh h h1) v1 j /\
    repr h2 (fresh h1 h2) v2 j /\
    (forall l, fresh h h1 l -> ~ fresh h1 h2 l) /\
    (forall l o, fresh h1 h2 l -> repr (<[l := o]> h2) (fresh h h1) v1 j).
Proof.
  intros Hd.
  destruct (Hd h) as (r1 & h1 & Hrun1 & Hp1 & Ha1).
  apply agrees_then in Ha1 as (v1 & -> & Hv1).
  destruct (Hd h1) as (r2 & h2 & Hrun2 & Hp2 & Ha2).
  apply agrees_then in Ha2 as (v2 & -> & Hv2).
  exists v1, h1, v2, h2.
  assert (forall l, fresh h h1 l -> ~ fresh h1 h2 l) as Hdisj.
  { unfold fresh. intros l H1 H2. lia. }
  repeat (split; [assumption|]).
  split; [eapply repr_prefix; eassumption|].
  split; [exact Hv2|]. split; [exact Hdisj|].
  intros l o Hl. apply repr_insert; [eapply repr_prefix; eassumption|].
  intros Hl'. exact (Hdisj l Hl' Hl).
Qed.

Lemma successive_conversions_share_nothing_witness :
  denotes builtin_instance (Converter.convertType (caller := no_callbacks) (EnumType ["A"; "B"]))
    (Ok (JObj [("type", JStr "string"); ("enum", JArr [JStr "A"; JStr "B"])])) /\
  exists v1 h1 v2 h2,
    Converter.convertType (caller := no_callbacks) (EnumType ["A"; "B"])
      {| this := builtin_instance; store := [] |}
    = (Ok v1, {| this := builtin_instance; store := h1 |}) /\
    Converter.convertType (caller := no_callbacks) (EnumType ["A"; "B"])
      {| this := builtin_instance; store := h1 |}
    = (Ok v2, {| this := builtin_instance; store := h2 |}) /\
    [] `prefix_of` h1 /\ h1 `prefix_of` h2 /\
    repr h2 (fresh [] h1) v1
      (JObj [("type", JStr "string"); ("enum", JArr [JStr "A"; JStr "B"])]) /\
    repr h2 (fresh h1 h2) v2
      (JObj [("type", JStr "string"); ("enum", JArr [JStr "A"; JStr "B"])]) /\
    (forall l, fresh [] h1 l -> ~ fresh h1 h2 l) /\
    (forall l o, fresh h1 h2 l ->
                 repr (<[l := o]> h2) (fresh [] h1) v1
                   (JObj [("type", JStr "string");
                          ("enum", JArr [JStr "A"; JStr "B"])])).
Proof.
  split; [apply (denotes_enum builtin_instance ["A"; "B"])|].
  apply (successive_conversions_share_nothing (caller := no_callbacks) builtin_instance
           (EnumType ["A"; "B"]) _ []
           (denotes_enum builtin_instance ["A"; "B"])).
Defined.

(** ** A default on a fragment that is not an object *)

(** The record stops at the first field whose round fails, whatever the
    entries collected so far. *)
Lemma record_stops_at {caller : Caller}
    (self : instance) (pre : list field) (js : list (list (string * json)))
    (f : field) (post : list field) (d : outcome json) (e : error) :
  ordinary_names pre ->
  Forall2 (fun f j => denotes self (Converter.convertType (field_type f))
                        (Ok (JObj j))) pre js ->
  denotes self (Converter.convertType (field_type f)) d ->
  (forall acc, Fragment.field_step acc f d = Throw e) ->
  denotes self (Converter.convertType (RecordType (pre ++ f :: post))) (Throw e).
Proof.
  intros Hord Hpre Hf Hstep.
  eapply denotes_ext; [apply convertType_record|].
  intros h. rewrite convertRecord_allocs.
  assert (Forall2 (fun f d => denotes self (Converter.convertType (field_type f)) d)
            pre (List.map (fun j => Ok (JObj j)) js)) as Hds.
  { clear -Hpre. induction Hpre; constructor; assumption. }
  destruct (forEach_fields_run self h pre _ Hds _ _ _ (record_inv_init h))
    as (r & h1 & Hrun & Hpost).
  rewrite record_fold_objects in Hpost
    by (assumption || (eapply Forall2_length; eassumption)).
  destruct Hpost as [-> [P Hinv]].
  destruct (convertRecord_field_run self h f d h1 P _ Hf Hinv)
    as (r & h2 & Hrun2 & Hpost2).
  rewrite Hstep in Hpost2. destruct Hpost2 as [-> Hp].
  exists (Throw e), h2.
  erewrite mbind_throw
    by (eapply forEach_first_failure; [exact Hrun|exact Hrun2]).
  split; [reflexivity|]. split; [exact Hp|reflexivity].
Qed.

(** X17.  When the converter of a field's type returns a primitive (a
    string, a number, a boolean or [null]) and the field has a default,
    assigning [default] to that primitive fails: the record fails with a
    [TypeError], whatever fields follow, and no fragment is returned. *)
Theorem default_on_primitive_fragment_throws_TypeError {caller : Caller}
    (self : instance) (pre : list field) (js : list (list (string * json)))
    (f : field) (post : list field) (j dflt : json) :
  ordinary_names pre ->
  Forall2 (fun f j => denotes self (Converter.convertType (field_type f))
                        (Ok (JObj j))) pre js ->
  ordinary_key (field_name f) = true ->
  field_default f = Some dflt ->
  denotes self (Converter.convertType (field_type f)) (Ok j) ->
  (forall items, j <> JArr items) ->
  (forall props, j <> JObj props) ->
  denotes self (Converter.convertType (RecordType (pre ++ f :: post)))
    (Throw TypeError).
Proof.
  intros Hord Hpre Hname Hdflt Hf Harr Hobj.
  apply (record_stops_at self pre js f post (Ok j) TypeError Hord Hpre Hf).
  intros acc. unfold Fragment.field_step. cbn [Fragment.then_].
  rewrite Hname, Hdflt.
  destruct j; try reflexivity.
  - exfalso. exact (Harr _ eq_refl).
  - exfalso. exact (Hobj _ eq_refl).
Qed.

Lemma default_on_primitive_fragment_throws_TypeError_witness :
  ordinary_names [] /\
  ordinary_key (field_name (Field "id" (LogicalType "logical:ref" StringType)
                              (Some (JStr "")))) = true /\
  denotes
    (this (snd (Converter.new
                  (Some (Converter.Options (Some [("ref", reference)]))) [])))
    (Converter.convertType (caller := no_callbacks) (LogicalType "logical:ref" StringType))
    (Ok (JStr "#/definitions/id")) /\
  denotes
    (this (snd (Converter.new
                  (Some (Converter.Options (Some [("ref", reference)]))) [])))
    (Converter.convertType (caller := no_callbacks)
       (RecordType
          ([] ++ Field "id" (LogicalType "logical:ref" StringType)
                   (Some (JStr "")) :: [])))
    (Throw TypeError).
Proof.
  assert (denotes
            (this (snd (Converter.new
                          (Some (Converter.Options (Some [("ref", reference)])))
                          [])))
            (Converter.convertType (caller := no_callbacks) (LogicalType "logical:ref" StringType))
            (Ok (JStr "#/definitions/id"))) as Href.
  { eapply denotes_logical; [reflexivity|].
    intros h. exists (Ok (VStr "#/definitions/id")), h.
    split; [reflexivity|]. split; [reflexivity|]. cbn. constructor. }
  split; [constructor|]. split; [reflexivity|]. split; [exact Href|].
  apply (default_on_primitive_fragment_throws_TypeError (caller := no_callbacks) _ [] []
           (Field "id" (LogicalType "logical:ref" StringType) (Some (JStr "")))
           [] (JStr "#/definitions/id") (JStr "")).
  - constructor.
  - constructor.
  - reflexivity.
  - reflexivity.
  - exact Href.
  - discriminate.
  - discriminate.
Defined.

(** ** The public method *)

Lemma Forall_assign {A} (Q : A -> Prop) (source : list (string * A)) :
  forall target,
    Forall (fun kc => Q (snd kc)) target ->
    Forall (fun kc => Q (snd kc)) source ->
    Forall (fun kc => Q (snd kc)) (assign target source).
Proof.
  unfold assign.
  induction source as [|[k v] source IH]; intros target Ht Hs;
    cbn [fold_left fst snd]; [exact Ht|].
  apply List.Forall_cons_iff in Hs as [Hv Hs].
  apply IH; [|exact Hs]. apply Forall_set_own; [exact Ht|].
  intros k'. exact Hv.
Qed.

Lemma object_registry_new {caller : Caller}
    (supplied : list (string * converter)) (h : heap) :
  existsb (String.eqb "__proto__") (List.map fst supplied) = false ->
  let self :=
    this (snd (Converter.new (Some (Converter.Options (Some supplied))) h)) in
  Forall (fun kc => forall type, exists own,
              denotes self (Converter.bound_call (snd kc) type) (Ok (JObj own)))
    supplied ->
  object_registry self.
Proof.
  intros Hp self Hs. unfold object_registry.
  assert (logicalTypeConvertors self
          = assign (assign [] Converter.defaultLogicalTypes) supplied) as ->.
  { subst self. rewrite (new_with_logicalTypes supplied h Hp). reflexivity. }
  apply (Forall_assign
           (fun c : converter => forall type, exists own,
                denotes self (Converter.bound_call c type) (Ok (JObj own))));
    [|exact Hs].
  unfold Converter.defaultLogicalTypes.
  repeat apply List.Forall_cons; try apply List.Forall_nil; intros type;
    destruct (builtin_entries_build self type) as (Hdecimal & Hdate & Hmillis);
    eexists; cbn [snd]; eassumption.
Qed.

Section PublicMethod.
Context {caller : Caller}.
Variable Schema : Type.
Variable forSchema : Schema -> list string -> outcome node.

Lemma convert_run (self : instance) (schema : Schema) (h : heap) :
  Converter.convert Schema forSchema schema {| this := self; store := h |}
  = match forSchema schema (logicalTypeFakeClasses self) with
    | Ok type => Converter.convertType type {| this := self; store := h |}
    | Throw e => (Throw e, {| this := self; store := h |})
    | OutOfModel => (OutOfModel, {| this := self; store := h |})
    end.
Proof.
  unfold Converter.convert, MethodOps.bind, MethodOps.get_this. cbn [this].
  destruct (forSchema schema (logicalTypeFakeClasses self)); reflexivity.
Qed.

(** X18.  [convert] on an instance built with a mapping whose entries,
    bound to the instance, build objects and leave the instance alone:
    avsc is handed the schema and the names of the registry; when it
    throws, [convert] throws the same error and allocates nothing; when
    it returns a tree with plain names, [convert] returns an object if
    the tree is supported and fails with a [TypeError] if it is not. *)
Theorem convert_returns_object_or_TypeError
    (supplied : list (string * converter)) (schema : Schema) (h0 : heap) :
  existsb (String.eqb "__proto__") (List.map fst supplied) = false ->
  let self :=
    this (snd (Converter.new (Some (Converter.Options (Some supplied))) h0)) in
  Forall (fun kc => forall type, exists own,
              denotes self (Converter.bound_call (snd kc) type) (Ok (JObj own)))
    supplied ->
  logicalTypeFakeClasses self = List.map fst (logicalTypeConvertors self) /\
  match forSchema schema (logicalTypeFakeClasses self) with
  | Ok type =>
      plain_names (logicalTypeConvertors self) type = true ->
      exists d,
        denotes self (Converter.convert Schema forSchema schema) d /\
        object_or_TypeError (supported (logicalTypeConvertors self) type) d
  | Throw e =>
      forall h,
        Converter.convert Schema forSchema schema {| this := self; store := h |}
        = (Throw e, {| this := self; store := h |})
  | OutOfModel => True
  end.
Proof.
  intros Hp self Hs.
  pose proof (object_registry_new supplied h0 Hp Hs) as Hreg.
  fold self in Hreg.
  assert (logicalTypeFakeClasses self = List.map fst (logicalTypeConvertors self))
    as Hnames.
  { subst self. rewrite (new_with_logicalTypes supplied h0 Hp). reflexivity. }
  split; [exact Hnames|].
  destruct (forSchema schema (logicalTypeFakeClasses self))
    as [type|e|] eqn:Hschema; [| |exact I].
  - intros Hplain.
    destruct (conversion_outcome self Hreg type Hplain) as (d & Hd & Hout).
    exists d. split; [|exact Hout].
    intros h. rewrite convert_run, Hschema. apply Hd.
  - intros h. rewrite convert_run, Hschema. reflexivity.
Qed.

End PublicMethod.

Lemma convert_returns_object_or_TypeError_witness :
  existsb (String.eqb "__proto__") (List.map fst [("money", money)]) = false /\
  Forall (fun kc => forall type, exists own,
              denotes
                (this (snd (Converter.new
                              (Some (Converter.Options
                                       (Some [("money", money)]))) [])))
                (Converter.bound_call (caller := no_callbacks) (snd kc) type)
                (Ok (JObj own)))
    [("money", money)] /\
  exists d,
    denotes
      (this (snd (Converter.new
                    (Some (Converter.Options (Some [("money", money)]))) [])))
      (Converter.convert (caller := no_callbacks) node (fun type _ => Ok type)
         (RecordType [Field "price" (LogicalType "logical:money" LongType) None;
                      Field "day" (LogicalType "logical:date" IntType) None]))
      d /\
    exists own, d = Ok (JObj own).
Proof.
  assert (Forall (fun kc => forall type, exists own,
                      denotes
                        (this (snd (Converter.new
                                      (Some (Converter.Options
                                               (Some [("money", money)]))) [])))
                        (Converter.bound_call (caller := no_callbacks)
                           (snd kc) type)
                        (Ok (JObj own)))
            [("money", money)])
    as Hs.
  { constructor; [|constructor]. intros type.
    exists [("type", JStr "string"); ("format", JStr "money")].
    apply denotes_closed, builds_alloc_flat.
    repeat (constructor; [split; [reflexivity|intros; constructor]|]).
    constructor. }
  split; [reflexivity|]. split; [exact Hs|].
  exact (proj2 (convert_returns_object_or_TypeError (caller := no_callbacks)
                  node (fun type _ => Ok type)
                  [("money", money)]
                  (RecordType
                     [Field "price" (LogicalType "logical:money" LongType) None;
                      Field "day" (LogicalType "logical:date" IntType) None])
                  [] eq_refl Hs) eq_refl).
Defined.

(** ** The converter with the built-in registry, as a function *)

Lemma Forall_Forall2_map {A B} (R : A -> B -> Prop) (g : A -> B) xs :
  Forall (fun x => R x (g x)) xs -> Forall2 R xs (List.map g xs).
Proof. induction 1; cbn; constructor; assumption. Qed.

(** X19.  With the built-in registry, the conversion of every resolved
    type, from every store, yields what [fragment_of] computes from the
    type alone: the fragment of a node is assembled from the fragments of
    its children (the items of an array, the members of a union in their
    order, the fields of a record in their order, each with its default
    or its name in [required]), the first failure among them is the
    failure of the whole, and the instance and the objects that existed
    are left as they were.  Read back from the final store, a returned
    fragment is that tree. *)
Theorem builtin_conversion_is_fragment_of {caller : Caller} (type : node) :
  denotes builtin_instance (Converter.convertType type) (fragment_of type) /\
  forall j h,
    fragment_of type = Ok j ->
    observe (depth j)
      (Converter.convertType type {| this := builtin_instance; store := h |})
    = Ok (Some j).
Proof.
  assert (forall type,
             denotes builtin_instance (Converter.convertType type)
               (fragment_of type)) as Hall.
  { clear type. intros type.
    induction type as [ | | | | | | | | size | symbols | itemsType IH
                      | valuesType IH | fields IH | types IH | types IH
                      | typeName underlying IH ] using node_induction;
      cbn [fragment_of].
    - apply denotes_null.
    - apply denotes_boolean.
    - apply denotes_int.
    - apply denotes_long.
    - apply denotes_float.
    - apply denotes_double.
    - apply denotes_string.
    - apply denotes_bytes.
    - apply denotes_fixed.
    - apply denotes_enum.
    - apply denotes_array. exact IH.
    - apply denotes_map.
    - eapply denotes_ext; [apply convertType_record|].
      apply convertRecord_denotes.
      apply (Forall_Forall2_map
               (fun f d => denotes builtin_instance
                             (Converter.convertType (field_type f)) d)
               (fun f => fragment_of (field_type f))).
      exact IH.
    - eapply denotes_ext; [apply convertType_unwrapped|].
      apply convertUnion_denotes. apply Forall_Forall2_map. exact IH.
    - eapply denotes_ext; [apply convertType_wrapped|].
      apply convertUnion_denotes. apply Forall_Forall2_map. exact IH.
    - pose proof (denotes_unresolved builtin_instance
                    (LogicalType typeName underlying)) as Hu.
      rewrite resolved_logical in Hu.
      destruct (builtin_entries_build builtin_instance
                  (LogicalType typeName underlying))
        as (Hdecimal & Hdate & Hmillis).
      pose proof (denotes_logical builtin_instance typeName underlying) as Hl.
      rewrite builtin_convertors in Hu, Hl.
      unfold Converter.defaultLogicalTypes, builtin_fragments in *.
      cbn [get_own] in *.
      destruct (String.eqb "decimal" (Converter.logical_key typeName));
        [exact (Hl _ _ eq_refl Hdecimal)|].
      destruct (String.eqb "date" (Converter.logical_key typeName));
        [exact (Hl _ _ eq_refl Hdate)|].
      destruct (String.eqb "timestamp-millis" (Converter.logical_key typeName));
        [exact (Hl _ _ eq_refl Hmillis)|].
      destruct (inherited (Converter.logical_key typeName)); exact Hu. }
  split; [apply Hall|].
  intros j h Hj. pose proof (Hall type) as Hd. rewrite Hj in Hd.
  apply (denotes_observe builtin_instance _ j h Hd).
Qed.
